(** * A file server with resumable downloads: range parsing, path
      containment, directory listing and uploads.

    Shallow embedding of [main.go].  Go strings are byte strings and are
    modelled by [string]; [int64] values are modelled by [Z] with the
    wrap-around of the subtraction written out; [error] results are
    modelled by the [result] type below.  The functions of the Go
    standard library that the program calls are modelled in modules that
    carry the name of their package. *)

From Stdlib Require Import ZArith Lia Bool Ascii String List.
From stdpp Require Import base option list gmap strings.

Local Open Scope Z_scope.

(** ** Results of fallible calls *)

Inductive result (E A : Type) : Type :=
| Ok (a : A)
| Err (e : E).
Arguments Ok {E A} a.
Arguments Err {E A} e.

Definition is_ok {E A} (r : result E A) : bool :=
  match r with Ok _ => true | Err _ => false end.

(** ** int64 *)

Module int64.
Definition min : Z := - 2 ^ 63.
Definition max : Z := 2 ^ 63 - 1.
Definition in_range (z : Z) : Prop := min <= z <= max.
(** two's complement wrap-around of a mathematical integer *)
Definition wrap (z : Z) : Z := (z + 2 ^ 63) mod 2 ^ 64 - 2 ^ 63.
Definition add (a b : Z) : Z := wrap (a + b).
Definition sub (a b : Z) : Z := wrap (a - b).

End int64.

(** ** Bytes of a string *)

Definition byte_val (c : ascii) : Z := Z.of_N (N_of_ascii c).

Fixpoint bytes_all (P : ascii -> bool) (s : string) : bool :=
  match s with
  | EmptyString => true
  | String c r => P c && bytes_all P r
  end.

Fixpoint contains_byte (c : ascii) (s : string) : bool :=
  match s with
  | EmptyString => false
  | String d r => if Ascii.eqb d c then true else contains_byte c r
  end.

Definition string_eqb (a b : string) : bool := String.eqb a b.

Definition len (s : string) : Z := Z.of_nat (String.length s).

(** ** Package strings *)

Module strings.

(** [HasPrefix s prefix]: [s] begins with [prefix]. *)
Fixpoint HasPrefix (s prefix : string) {struct prefix} : bool :=
  match prefix, s with
  | EmptyString, _ => true
  | String p prefix', String c s' => Ascii.eqb c p && HasPrefix s' prefix'
  | String _ _, EmptyString => false
  end.

Fixpoint drop (n : nat) (s : string) : string :=
  match n, s with
  | O, _ => s
  | S n', String _ s' => drop n' s'
  | S _, EmptyString => EmptyString
  end.

(** [TrimPrefix s prefix]: [s] without the leading [prefix], or [s]
    itself when it does not start with [prefix]. *)
Definition TrimPrefix (s prefix : string) : string :=
  if HasPrefix s prefix then drop (String.length prefix) s else s.

(** [Split s sep] for a one-byte separator (every call site of the
    program passes one): the substrings between the separators, in
    order; a string without separator gives the one-element list. *)
Fixpoint Split (s : string) (sep : ascii) : list string :=
  match s with
  | EmptyString => [EmptyString]
  | String c r =>
      if Ascii.eqb c sep then EmptyString :: Split r sep
      else match Split r sep with
           | [] => [String c EmptyString]
           | w :: ws => String c w :: ws
           end
  end.

(** White space in the sense of [unicode.IsSpace], on the UTF-8
    encoding: [spaceRune s] is the rest of [s] after a leading white
    space rune, if [s] starts with one. *)
Definition asciiSpace (c : ascii) : bool :=
  let n := byte_val c in
  ((9 <=? n) && (n <=? 13)) || (n =? 32).

Definition spaceRune (s : string) : option string :=
  match s with
  | EmptyString => None
  | String c r =>
      if asciiSpace c then Some r
      else
        match byte_val c, r with
        | 194, String d r1 =>            (* U+0085, U+00A0 *)
            if (byte_val d =? 133) || (byte_val d =? 160) then Some r1 else None
        | 225, String d (String e r2) => (* U+1680 *)
            if (byte_val d =? 154) && (byte_val e =? 128) then Some r2 else None
        | 226, String d (String e r2) => (* U+2000..U+200A, U+2028, U+2029, U+202F, U+205F *)
            if (byte_val d =? 128)
               && (((128 <=? byte_val e) && (byte_val e <=? 138))
                   || (byte_val e =? 168) || (byte_val e =? 169) || (byte_val e =? 175))
            then Some r2
            else if (byte_val d =? 129) && (byte_val e =? 159) then Some r2
            else None
        | 227, String d (String e r2) => (* U+3000 *)
            if (byte_val d =? 128) && (byte_val e =? 128) then Some r2 else None
        | _, _ => None
        end
  end.

(** The string consists of white space runes only. *)
Fixpoint allSpace_fuel (fuel : nat) (s : string) : bool :=
  match s with
  | EmptyString => true
  | _ =>
      match fuel with
      | O => false
      | S f => match spaceRune s with
               | Some r => allSpace_fuel f r
               | None => false
               end
      end
  end.
Definition allSpace (s : string) : bool := allSpace_fuel (String.length s) s.

Fixpoint TrimLeft_fuel (fuel : nat) (s : string) : string :=
  match fuel with
  | O => s
  | S f => match spaceRune s with
           | Some r => TrimLeft_fuel f r
           | None => s
           end
  end.
Definition TrimLeftSpace (s : string) : string := TrimLeft_fuel (String.length s) s.

Fixpoint TrimRightSpace (s : string) : string :=
  match s with
  | EmptyString => EmptyString
  | String c r => if allSpace s then EmptyString else String c (TrimRightSpace r)
  end.

(** [TrimSpace s]: [s] without leading and trailing white space. *)
Definition TrimSpace (s : string) : string := TrimRightSpace (TrimLeftSpace s).

End strings.

(** ** Package strconv *)

Module strconv.

Inductive NumError : Type := ErrSyntax | ErrRange.

Definition maxUint64 : Z := 2 ^ 64 - 1.

Definition digit (c : ascii) : option Z :=
  let n := byte_val c in
  if (48 <=? n) && (n <=? 57) then Some (n - 48) else None.

(** The digit loop of [ParseUint] for base 10 and 64 bits: a byte that
    is no digit is a syntax error, a value above [maxUint64] a range
    error, whichever comes first from the left. *)
Fixpoint parseUint_loop (s : string) (n : Z) : result NumError Z :=
  match s with
  | EmptyString => Ok n
  | String c r =>
      match digit c with
      | None => Err ErrSyntax
      | Some d =>
          if n >=? maxUint64 / 10 + 1 then Err ErrRange
          else
            let n1 := n * 10 + d in
            if n1 >? maxUint64 then Err ErrRange
            else parseUint_loop r n1
      end
  end.

Definition ParseUint (s : string) : result NumError Z :=
  match s with
  | EmptyString => Err ErrSyntax
  | _ => parseUint_loop s 0
  end.

(** [ParseInt s 10 64] *)
Definition ParseInt (s : string) : result NumError Z :=
  match s with
  | EmptyString => Err ErrSyntax
  | String c r =>
      let '(neg, digits) :=
        if Ascii.eqb c "+" then (false, r)
        else if Ascii.eqb c "-" then (true, r)
        else (false, s) in
      match ParseUint digits with
      | Err e => Err e
      | Ok un =>
          let cutoff := 2 ^ 63 in
          if negb neg && (un >=? cutoff) then Err ErrRange
          else if neg && (un >? cutoff) then Err ErrRange
          else Ok (if neg then - un else un)
      end
  end.

Definition digitChar (d : Z) : ascii := ascii_of_N (Z.to_N (48 + d)).

(** The digits of [n], most significant first, in front of [acc]. *)
Fixpoint formatBits (fuel : nat) (n : Z) (acc : string) : string :=
  match fuel with
  | O => acc
  | S f =>
      let acc' := String (digitChar (n mod 10)) acc in
      if n <? 10 then acc' else formatBits f (n / 10) acc'
  end.

(** [FormatInt i 10], also what ["%d"] prints for an int64. *)
Definition FormatInt (i : Z) : string :=
  if i <? 0 then String "-" (formatBits 20 (- i) EmptyString)
  else formatBits 20 i EmptyString.

End strconv.

(** ** Range requests *)

(** byteRange represents a byte range request *)
Record byteRange : Type := { start : Z; end_ : Z }.

Inductive error : Type :=
| InvalidRangeHeader            (* "invalid range header" *)
| InvalidRangeSpec              (* "invalid range spec" *)
| InvalidRange                  (* "invalid range" *)
| NumError (e : strconv.NumError).

Definition lift_num {A} (r : result strconv.NumError A) : result error A :=
  match r with Ok a => Ok a | Err e => Err (NumError e) end.

(** The three shapes of a range spec, after the split on ["-"]: the
    start and end of the spec before they are validated. *)
Definition specBounds (p0 p1 : string) (size : Z) : result error (Z * Z) :=
  if string_eqb p0 "" then
    (* Suffix range: -500 means last 500 bytes *)
    let end' := int64.sub size 1 in
    match strconv.ParseInt p1 with
    | Err e => Err (NumError e)
    | Ok n =>
        let start' := int64.sub size n in
        Ok (if start' <? 0 then 0 else start', end')
    end
  else if string_eqb p1 "" then
    (* Start range: 500- means from byte 500 to end *)
    match strconv.ParseInt p0 with
    | Err e => Err (NumError e)
    | Ok start' => Ok (start', int64.sub size 1)
    end
  else
    (* Full range: 500-999 *)
    match strconv.ParseInt p0 with
    | Err e => Err (NumError e)
    | Ok start' =>
        match strconv.ParseInt p1 with
        | Err e => Err (NumError e)
        | Ok end' => Ok (start', end')
        end
    end.

Definition rangeInvalid (start' end' size : Z) : bool :=
  (start' <? 0) || (start' >=? size) || (end' <? start') || (end' >=? size).

(** One iteration of the loop of [parseRange]. *)
Definition parseSpec (rangeSpec : string) (size : Z) : result error byteRange :=
  let rangeSpec := strings.TrimSpace rangeSpec in
  match strings.Split rangeSpec "-" with
  | [p0; p1] =>
      match specBounds p0 p1 size with
      | Err e => Err e
      | Ok (start', end') =>
          if rangeInvalid start' end' size then Err InvalidRange
          else Ok {| start := start'; end_ := end' |}
      end
  | _ => Err InvalidRangeSpec
  end.

Fixpoint parseRange_loop (specs : list string) (size : Z) (ranges : list byteRange)
  : result error (list byteRange) :=
  match specs with
  | [] => Ok ranges
  | rangeSpec :: rest =>
      match parseSpec rangeSpec size with
      | Err e => Err e
      | Ok r => parseRange_loop rest size (ranges ++ [r])
      end
  end.

(** parseRange parses a Range header value *)
Definition parseRange (s : string) (size : Z) : result error (list byteRange) :=
  if negb (strings.HasPrefix s "bytes=") then Err InvalidRangeHeader
  else
    let s := strings.TrimPrefix s "bytes=" in
    parseRange_loop (strings.Split s ",") size [].


(** A byte below 128 that is no ASCII white space starts no white space
    rune. *)
Definition plain (c : ascii) : bool :=
  negb (strings.asciiSpace c) && (byte_val c <? 128).

Definition is_digit (c : ascii) : bool := (48 <=? byte_val c) && (byte_val c <=? 57).

(** The four conditions a served range satisfies. *)
Definition rangeValid (size : Z) (r : byteRange) : Prop :=
  0 <= start r /\ start r < size /\ end_ r >= start r /\ end_ r < size.

(** The comma-separated specs of a Range header value. *)
Definition rangeSpecs (s : string) : list string :=
  strings.Split (strings.TrimPrefix s "bytes=") ",".

(** ** Package filepath (Unix paths: the separator is the slash) *)

Module filepath.

Definition Separator : ascii := "/".

Definition IsAbs (path : string) : bool := strings.HasPrefix path "/".

(** [strings.Join elems "/"] *)
Fixpoint joinSep (elems : list string) : string :=
  match elems with
  | [] => EmptyString
  | [e] => e
  | e :: rest => e +:+ String Separator (joinSep rest)
  end.

(** One path element of [Clean].  [out] holds the elements kept so far,
    the last one first.  An empty element and [.] are dropped; [..]
    removes the element before it, is dropped at the root of a rooted
    path, and is kept at the front of a relative one. *)
Definition cleanStep (rooted : bool) (out : list string) (elem : string) : list string :=
  if string_eqb elem "" || string_eqb elem "." then out
  else if string_eqb elem ".." then
    match out with
    | top :: rest => if string_eqb top ".." then elem :: out else rest
    | [] => if rooted then [] else [elem]
    end
  else elem :: out.

Definition cleanElems (rooted : bool) (path : string) : list string :=
  rev (fold_left (cleanStep rooted) (strings.Split path Separator) []).

(** [Clean path]: the shortest path name equivalent to [path] by purely
    lexical processing. *)
Definition Clean (path : string) : string :=
  match path with
  | EmptyString => "."
  | _ =>
      let rooted := IsAbs path in
      let body := joinSep (cleanElems rooted path) in
      if rooted then String Separator body
      else if string_eqb body "" then "." else body
  end.

(** [Join elem...]: the elements from the first non-empty one on,
    joined by the separator and cleaned; the empty string when all
    elements are empty. *)
Fixpoint Join (elem : list string) : string :=
  match elem with
  | [] => EmptyString
  | e :: rest => if string_eqb e "" then Join rest else Clean (joinSep elem)
  end.

(** The last non-empty element of a list of path elements. *)
Definition lastElem (elems : list string) : option string :=
  fold_left (fun acc e => if string_eqb e "" then acc else Some e) elems None.

(** [Base path]: the last element of [path], after removing trailing
    separators; [.] for the empty path, the separator for a path of
    separators only. *)
Definition Base (path : string) : string :=
  match path with
  | EmptyString => "."
  | _ => match lastElem (strings.Split path Separator) with
         | Some e => e
         | None => String Separator EmptyString
         end
  end.

(** The part of [path] up to and including its last separator. *)
Fixpoint upToLastSep (path : string) : string :=
  match path with
  | EmptyString => EmptyString
  | String c r => if contains_byte Separator path then String c (upToLastSep r)
                  else EmptyString
  end.

(** [Dir path]: all but the last element of [path], cleaned. *)
Definition Dir (path : string) : string := Clean (upToLastSep path).

(** [Abs path]: [path] cleaned when it is absolute, joined to the
    current directory [wd] (the answer of [os.Getwd]) otherwise. *)
Definition Abs {E} (wd : result E string) (path : string) : result E string :=
  if IsAbs path then Ok (Clean path)
  else match wd with
       | Err e => Err e
       | Ok d => Ok (Join [d; path])
       end.

End filepath.

(** ** Package net/http: requests and the response a handler builds *)

Module http.

Definition StatusOK : Z := 200.
Definition StatusPartialContent : Z := 206.
Definition StatusFound : Z := 302.
Definition StatusSeeOther : Z := 303.
Definition StatusBadRequest : Z := 400.
Definition StatusForbidden : Z := 403.
Definition StatusNotFound : Z := 404.
Definition StatusMethodNotAllowed : Z := 405.
Definition StatusRequestedRangeNotSatisfiable : Z := 416.
Definition StatusInternalServerError : Z := 500.

Definition MethodGet : string := "GET".
Definition MethodHead : string := "HEAD".
Definition MethodPost : string := "POST".

(** One part of a multipart/form-data body.  A part with a file name is
    a file part, the others are plain values. *)
Record Part : Type := {
  FormName : string;
  FileName : string;
  Data : string
}.

Record Request : Type := {
  Method : string;
  URL_Path : string;
  (** the values of the query string of the URL *)
  Query : list (string * string);
  (** the request headers, under their canonical keys *)
  Header : gmap string (list string);
  (** the parts of the body, when the body is well-formed multipart *)
  Multipart : option (list Part)
}.

(** [r.Header.Get key]: the first value under [key], or the empty string. *)
Definition Header_Get (r : Request) (key : string) : string :=
  match Header r !! key with
  | Some (v :: _) => v
  | _ => EmptyString
  end.

(** The response as the server sends it.  [status] is 0 until the
    header is written. *)
Record ResponseWriter : Type := {
  header : gmap string string;
  status : Z;
  body : string;
  (** false for a HEAD request: the server drops what is written *)
  bodyAllowed : bool
}.

Definition NewResponseWriter (r : Request) : ResponseWriter :=
  {| header := ∅; status := 0; body := EmptyString;
     bodyAllowed := negb (string_eqb (Method r) MethodHead) |}.

(** [w.Header().Set key value]; without effect on the response once the
    header is written. *)
Definition Header_Set (key value : string) (w : ResponseWriter) : ResponseWriter :=
  if status w =? 0 then
    {| header := <[key := value]> (header w); status := status w;
       body := body w; bodyAllowed := bodyAllowed w |}
  else w.

Definition Header_Del (key : string) (w : ResponseWriter) : ResponseWriter :=
  if status w =? 0 then
    {| header := delete key (header w); status := status w;
       body := body w; bodyAllowed := bodyAllowed w |}
  else w.

(** [w.WriteHeader code]; a second call is ignored. *)
Definition WriteHeader (code : Z) (w : ResponseWriter) : ResponseWriter :=
  if status w =? 0 then
    {| header := header w; status := code; body := body w;
       bodyAllowed := bodyAllowed w |}
  else w.

(** [w.Write data]: writes the header with status 200 first if it is
    not written yet. *)
Definition Write (data : string) (w : ResponseWriter) : ResponseWriter :=
  let w := WriteHeader StatusOK w in
  {| header := header w; status := status w;
     body := if bodyAllowed w then body w +:+ data else body w;
     bodyAllowed := bodyAllowed w |}.

Definition newline : string := String "010" EmptyString.

(** [http.Error w error code]: a plain text reply with the message and
    a newline as its body. *)
Definition Error (w : ResponseWriter) (error : string) (code : Z) : ResponseWriter :=
  let w := Header_Del "Content-Length" w in
  let w := Header_Set "Content-Type" "text/plain; charset=utf-8" w in
  let w := Header_Set "X-Content-Type-Options" "nosniff" w in
  let w := WriteHeader code w in
  Write (error +:+ newline) w.

(** [http.Redirect w r url code], for a [url] that starts with a slash:
    the Location header and the status.  The short HTML note that
    net/http adds to the body of the reply to a GET is left out. *)
Definition Redirect (w : ResponseWriter) (url : string) (code : Z) : ResponseWriter :=
  let w := Header_Set "Location" url w in
  WriteHeader code w.

(** The form that [ParseMultipartForm] builds from the parts. *)
Record FileHeader : Type := {
  Filename : string;
  Content : string
}.

Record Form : Type := {
  Value : list (string * string);
  File : list (string * FileHeader)
}.

Inductive FormError : Type :=
| ErrNotMultipart
| ErrMessageTooLarge
| ErrMissingFile.

Definition formErrorText (e : FormError) : string :=
  match e with
  | ErrNotMultipart => "request Content-Type isn't multipart/form-data"
  | ErrMessageTooLarge => "multipart: message too large"
  | ErrMissingFile => "http: no such file"
  end.

(** The loop of [ReadForm]: plain values are kept in memory and count
    against [maxValueBytes]; a file part is kept whatever its size (in
    memory while the memory budget lasts, in a temporary file
    otherwise).  The file name of a part goes through [filepath.Base].
    The small per-part overheads that recent versions also charge to
    the memory budget are not modelled. *)
Fixpoint readForm (parts : list Part) (maxValueBytes : Z) (form : Form)
  : result FormError Form :=
  match parts with
  | [] => Ok form
  | p :: rest =>
      if string_eqb (FormName p) "" then readForm rest maxValueBytes form
      else if string_eqb (FileName p) "" then
        let maxValueBytes := maxValueBytes - len (Data p) in
        if maxValueBytes <? 0 then Err ErrMessageTooLarge
        else readForm rest maxValueBytes
               {| Value := Value form ++ [(FormName p, Data p)]; File := File form |}
      else
        readForm rest maxValueBytes
          {| Value := Value form;
             File := File form ++ [(FormName p,
                       {| Filename := filepath.Base (FileName p); Content := Data p |})] |}
  end.

(** [r.ParseMultipartForm maxMemory]: [maxMemory] bounds what is held
    in memory, with 10 MiB more for the plain values. *)
Definition ParseMultipartForm (r : Request) (maxMemory : Z) : result FormError Form :=
  match Multipart r with
  | None => Err ErrNotMultipart
  | Some parts => readForm parts (maxMemory + 10 * 2 ^ 20) {| Value := []; File := [] |}
  end.

Fixpoint assoc {A} (key : string) (l : list (string * A)) : option A :=
  match l with
  | [] => None
  | (k, v) :: rest => if string_eqb k key then Some v else assoc key rest
  end.

(** [r.FormFile key]: the first file under [key]. *)
Definition FormFile (form : Form) (key : string) : result FormError FileHeader :=
  match assoc key (File form) with
  | Some fh => Ok fh
  | None => Err ErrMissingFile
  end.

(** [r.FormValue key]: the first value under [key], the query string
    before the body, or the empty string. *)
Definition FormValue (r : Request) (form : Form) (key : string) : string :=
  match assoc key (Query r ++ Value form) with
  | Some v => v
  | None => EmptyString
  end.

End http.

(** ** Package os *)

Module os.

Inductive Errno : Type := ENOENT | EACCES | EISDIR | ENOTDIR | ENOSPC | EINVAL.

Definition IsNotExist (e : Errno) : bool :=
  match e with ENOENT => true | _ => false end.

Definition errorText (e : Errno) : string :=
  match e with
  | ENOENT => "no such file or directory"
  | EACCES => "permission denied"
  | EISDIR => "is a directory"
  | ENOTDIR => "not a directory"
  | ENOSPC => "no space left on device"
  | EINVAL => "invalid argument"
  end.

Record FileInfo : Type := {
  Name : string;
  Size : Z;
  ModTime : Z;
  IsDir : bool
}.

(** An open file: what [Stat] answers on it, and its bytes. *)
Record File : Type := {
  Stat : result Errno FileInfo;
  contents : string
}.

(** An entry of [ReadDir]; [Info] is what the later call of
    [entry.Info()] answers. *)
Record DirEntry : Type := {
  entryName : string;
  entryIsDir : bool;
  Info : result Errno FileInfo
}.

(** What the operating system answers to the calls that only read. *)
Record Reads : Type := {
  Getwd : result Errno string;
  StatPath : string -> result Errno FileInfo;
  Open : string -> result Errno File;
  ReadDir : string -> result Errno (list DirEntry)
}.

(** The files and directories that the writing calls change, by their
    absolute path. *)
Inductive node : Type :=
| NFile (data : string)
| NDir.

(** [file.Seek offset 0] on a regular file *)
Definition Seek (offset : Z) : result Errno Z :=
  if offset <? 0 then Err EINVAL else Ok offset.

(** The bytes that [io.CopyN _ file n] reads after a seek to [offset],
    and, with [n] the rest of the file, those that [io.Copy] reads. *)
Definition readAt (f : File) (offset n : Z) : string :=
  String.substring (Z.to_nat offset) (Z.to_nat n) (contents f).

(** [os.MkdirAll path]: nothing to do for a directory, an error for a
    file; otherwise the parent first, then the directory itself.  The
    parent of a path directly under the root is not visited. *)
Fixpoint MkdirAll_fuel (fuel : nat) (path : string) (fs : gmap string node)
  : result Errno (gmap string node) :=
  match fs !! path with
  | Some NDir => Ok fs
  | Some (NFile _) => Err ENOTDIR
  | None =>
      match fuel with
      | O => Err ENOENT
      | S fuel' =>
          let parent := filepath.Dir path in
          if string_eqb parent "/" || string_eqb parent "." then
            Ok (<[path := NDir]> fs)
          else
            match MkdirAll_fuel fuel' parent fs with
            | Err e => Err e
            | Ok fs' => Ok (<[path := NDir]> fs')
            end
      end
  end.

Definition MkdirAll (path : string) (fs : gmap string node)
  : result Errno (gmap string node) :=
  MkdirAll_fuel (String.length path) path fs.

(** [os.Create path]: an existing file is truncated, a new one needs
    its directory; a directory cannot be created as a file. *)
Definition Create (path : string) (fs : gmap string node)
  : result Errno (gmap string node) :=
  match fs !! path with
  | Some NDir => Err EISDIR
  | Some (NFile _) => Ok (<[path := NFile EmptyString]> fs)
  | None =>
      match fs !! filepath.Dir path with
      | Some NDir => Ok (<[path := NFile EmptyString]> fs)
      | Some (NFile _) => Err ENOTDIR
      | None => Err ENOENT
      end
  end.

(** [io.Copy dst src] into the file created at [path].  [room] is the
    number of bytes the device still takes, if it is bounded: the copy
    then stops with an error and leaves what it wrote. *)
Definition CopyTo (path : string) (src : string) (room : option nat)
  (fs : gmap string node) : result Errno unit * gmap string node :=
  match room with
  | Some k =>
      if (k <? String.length src)%nat
      then (Err ENOSPC, <[path := NFile (String.substring 0 k src)]> fs)
      else (Ok tt, <[path := NFile src]> fs)
  | None => (Ok tt, <[path := NFile src]> fs)
  end.

End os.

(** ** The program *)

(** An entry of a directory listing; [ModTime] is a time stamp. *)
Record FileInfo : Type := {
  Name : string;
  Path : string;
  Size : Z;
  ModTime : Z;
  IsDir : bool
}.

(** What the templates render. *)
Record PageData : Type := {
  CurrentPath : string;
  ParentPath : string;
  Files : list FileInfo;
  Error : string
}.

(** The package-level variables that [main] sets before it serves, the
    MIME lookup and the templates (the view layer).  Logging is left
    out. *)
Record Env : Type := {
  workingDir : string;
  intelligentMIME : bool;
  (** getMIMEType: content type of a path, and whether a browser shows it *)
  getMIMEType : string -> string * bool;
  (** templates.ExecuteTemplate: the page, or what was written of it
      before the template failed *)
  ExecuteTemplate : string -> option PageData -> result string string
}.

(** The double quote. *)
Definition dquote : string := String "034" EmptyString.

(** The security check of the three handlers: [None] when the path is
    let through, the reply otherwise. *)
Definition securityCheck (env : Env) (sys : os.Reads) (path : string)
  (w : http.ResponseWriter) (invalid : string) : option http.ResponseWriter :=
  match filepath.Abs (os.Getwd sys) path with
  | Err _ => Some (http.Error w invalid http.StatusBadRequest)
  | Ok cleanPath =>
      let cleanWorkingDir :=
        match filepath.Abs (os.Getwd sys) (workingDir env) with
        | Ok p => p
        | Err _ => EmptyString
        end in
      if negb (strings.HasPrefix cleanPath cleanWorkingDir)
      then Some (http.Error w "Access denied" http.StatusForbidden)
      else None
  end.

(** The loop of browseHandler over the directory entries. *)
Fixpoint listFiles (requestedPath : string) (entries : list os.DirEntry)
  (files : list FileInfo) : list FileInfo :=
  match entries with
  | [] => files
  | entry :: rest =>
      match os.Info entry with
      | Err _ => listFiles requestedPath rest files
      | Ok entryInfo =>
          listFiles requestedPath rest
            (files ++ [ {| Name := os.entryName entry;
                           Path := filepath.Join [requestedPath; os.entryName entry];
                           Size := os.Size entryInfo;
                           ModTime := os.ModTime entryInfo;
                           IsDir := os.entryIsDir entry |} ])
      end
  end.

(** [templates.ExecuteTemplate w name data] and the reply when it
    fails. *)
Definition renderPage (env : Env) (name : string) (data : option PageData)
  (w : http.ResponseWriter) : http.ResponseWriter :=
  match ExecuteTemplate env name data with
  | Ok page => http.Write page w
  | Err written =>
      let w := if string_eqb written "" then w else http.Write written w in
      http.Error w "Error rendering page" http.StatusInternalServerError
  end.

(** browseHandler handles file browsing requests *)
Definition browseHandler (env : Env) (sys : os.Reads) (r : http.Request)
  : http.ResponseWriter :=
  let w := http.NewResponseWriter r in
  if negb (string_eqb (http.Method r) http.MethodGet) then
    http.Error w "Method not allowed" http.StatusMethodNotAllowed
  else
    (* Get the requested path (relative to workingDir) *)
    let requestedPath := strings.TrimPrefix (http.URL_Path r) "/" in
    let fullPath := filepath.Join [workingDir env; requestedPath] in
    (* Security check: ensure the path is within workingDir *)
    match securityCheck env sys fullPath w "Invalid path" with
    | Some w => w
    | None =>
        (* Check if path exists *)
        match os.StatPath sys fullPath with
        | Err e =>
            if os.IsNotExist e then http.Error w "Path not found" http.StatusNotFound
            else http.Error w "Error accessing path" http.StatusInternalServerError
        | Ok info =>
            (* If it's a file, redirect to download *)
            if negb (os.IsDir info) then
              http.Redirect w ("/download/" +:+ requestedPath) http.StatusFound
            else
              (* List directory contents *)
              match os.ReadDir sys fullPath with
              | Err _ =>
                  http.Error w "Error reading directory" http.StatusInternalServerError
              | Ok entries =>
                  let files := listFiles requestedPath entries [] in
                  (* Calculate parent path *)
                  let parentPath :=
                    if negb (string_eqb requestedPath "") then
                      let parentPath := filepath.Dir requestedPath in
                      if string_eqb parentPath "." then EmptyString else parentPath
                    else EmptyString in
                  let data := {| CurrentPath := requestedPath;
                                 ParentPath := parentPath;
                                 Files := files;
                                 Error := EmptyString |} in
                  let w := http.Header_Set "Content-Type" "text/html; charset=utf-8" w in
                  renderPage env "browse.html" (Some data) w
              end
        end
    end.

(** Content type and disposition of a download: the type of the MIME
    lookup, shown inline, for what a browser can show when the
    intelligent recognition is on; a plain attachment otherwise. *)
Definition mimePolicy (env : Env) (fullPath : string) : string * string :=
  if intelligentMIME env then
    let '(mimeType, isViewable) := getMIMEType env fullPath in
    if isViewable then (mimeType, "inline")
    else ("application/octet-stream", "attachment")
  else ("application/octet-stream", "attachment").

(** The second half of downloadHandler, from the Range header on: the
    whole file, one range of it, or the refusal of the range. *)
Definition sendFile (r : http.Request) (file : os.File) (fileSize : Z)
  (w : http.ResponseWriter) : http.ResponseWriter :=
  (* Handle range requests for resume support *)
  let rangeHeader := http.Header_Get r "Range" in
  if string_eqb rangeHeader "" then
    (* No range requested, send entire file *)
    let w := http.Header_Set "Content-Length" (strconv.FormatInt fileSize) w in
    let w := http.WriteHeader http.StatusOK w in
    if negb (string_eqb (http.Method r) http.MethodHead) then
      http.Write (os.contents file) w
    else w
  else
    (* Parse range header *)
    match parseRange rangeHeader fileSize with
    | Ok [range] =>
        let start := start range in
        let end' := end_ range in
        let contentLength := int64.add (int64.sub end' start) 1 in
        (* Seek to start position *)
        match os.Seek start with
        | Err _ =>
            http.Error w "Error seeking file" http.StatusInternalServerError
        | Ok _ =>
            (* Set headers for partial content *)
            let w := http.Header_Set "Content-Range"
                       ("bytes " +:+ strconv.FormatInt start +:+ "-"
                        +:+ strconv.FormatInt end' +:+ "/"
                        +:+ strconv.FormatInt fileSize) w in
            let w := http.Header_Set "Content-Length"
                       (strconv.FormatInt contentLength) w in
            let w := http.WriteHeader http.StatusPartialContent w in
            (* Send the requested range *)
            if negb (string_eqb (http.Method r) http.MethodHead) then
              http.Write (os.readAt file start contentLength) w
            else w
        end
    | _ =>
        let w := http.Header_Set "Content-Range"
                   ("bytes */" +:+ strconv.FormatInt fileSize) w in
        http.Error w "Invalid range" http.StatusRequestedRangeNotSatisfiable
    end.

(** downloadHandler handles file downloads with resume support (Range
    requests); its second half is [sendFile]. *)
Definition downloadHandler (env : Env) (sys : os.Reads) (r : http.Request)
  : http.ResponseWriter :=
  let w := http.NewResponseWriter r in
  if negb (string_eqb (http.Method r) http.MethodGet)
     && negb (string_eqb (http.Method r) http.MethodHead) then
    http.Error w "Method not allowed" http.StatusMethodNotAllowed
  else
    (* Get the requested file path *)
    let requestedPath := strings.TrimPrefix (http.URL_Path r) "/download/" in
    let fullPath := filepath.Join [workingDir env; requestedPath] in
    (* Security check: ensure the path is within workingDir *)
    match securityCheck env sys fullPath w "Invalid path" with
    | Some w => w
    | None =>
        (* Open the file *)
        match os.Open sys fullPath with
        | Err e =>
            if os.IsNotExist e then http.Error w "File not found" http.StatusNotFound
            else http.Error w "Error opening file" http.StatusInternalServerError
        | Ok file =>
            (* Get file info *)
            match os.Stat file with
            | Err _ =>
                http.Error w "Error getting file info" http.StatusInternalServerError
            | Ok fileInfo =>
                (* Don't allow downloading directories *)
                if os.IsDir fileInfo then
                  http.Error w "Cannot download directory" http.StatusBadRequest
                else
                  let fileSize := os.Size fileInfo in
                  let fileName := filepath.Base fullPath in
                  (* Determine content type and disposition *)
                  let '(contentType, disposition) := mimePolicy env fullPath in
                  (* Set headers for file download *)
                  let w := http.Header_Set "Content-Disposition"
                             (disposition +:+ "; filename=" +:+ dquote +:+ fileName +:+ dquote) w in
                  let w := http.Header_Set "Accept-Ranges" "bytes" w in
                  let w := http.Header_Set "Content-Type" contentType w in
                  sendFile r file fileSize w
            end
        end
    end.

(** The directory an upload goes to when the form names [subDir]. *)
Definition uploadTarget (env : Env) (subDir : string) : string :=
  if string_eqb subDir "" then workingDir env
  else filepath.Join [workingDir env; filepath.Clean subDir].

(** uploadHandler handles file uploads.  [room] bounds what the device
    takes, see [os.CopyTo]. *)
Definition uploadHandler (env : Env) (sys : os.Reads) (room : option nat)
  (fs : gmap string os.node) (r : http.Request)
  : http.ResponseWriter * gmap string os.node :=
  let w := http.NewResponseWriter r in
  if string_eqb (http.Method r) http.MethodGet then
    (* Show upload form *)
    let w := http.Header_Set "Content-Type" "text/html; charset=utf-8" w in
    (renderPage env "upload.html" None w, fs)
  else if negb (string_eqb (http.Method r) http.MethodPost) then
    (http.Error w "Method not allowed" http.StatusMethodNotAllowed, fs)
  else
    (* Parse multipart form (max 100MB in memory) *)
    match http.ParseMultipartForm r (Z.shiftl 100 20) with
    | Err e =>
        (http.Error w ("Error parsing form: " +:+ http.formErrorText e)
           http.StatusBadRequest, fs)
    | Ok form =>
        (* Get the uploaded file *)
        match http.FormFile form "file" with
        | Err e =>
            (http.Error w ("Error retrieving file: " +:+ http.formErrorText e)
               http.StatusBadRequest, fs)
        | Ok header =>
            (* Get optional subdirectory *)
            let subDir := http.FormValue r form "directory" in
            let targetDir := uploadTarget env subDir in
            let checked :=
              if negb (string_eqb subDir "") then
                (* Clean and validate subdirectory path; security check *)
                match securityCheck env sys targetDir w "Invalid directory path" with
                | Some w => Err w
                | None =>
                    (* Create directory if it doesn't exist *)
                    match os.MkdirAll targetDir fs with
                    | Err e =>
                        Err (http.Error w ("Error creating directory: " +:+ os.errorText e)
                               http.StatusInternalServerError)
                    | Ok fs => Ok fs
                    end
                end
              else Ok fs in
            match checked with
            | Err w => (w, fs)
            | Ok fs1 =>
                (* Create destination file *)
                let dstPath := filepath.Join [targetDir; filepath.Base (http.Filename header)] in
                match os.Create dstPath fs1 with
                | Err e =>
                    (http.Error w ("Error creating file: " +:+ os.errorText e)
                       http.StatusInternalServerError, fs1)
                | Ok fs2 =>
                    (* Copy file content *)
                    match os.CopyTo dstPath (http.Content header) room fs2 with
                    | (Err e, fs3) =>
                        (http.Error w ("Error saving file: " +:+ os.errorText e)
                           http.StatusInternalServerError, fs3)
                    | (Ok _, fs3) =>
                        (* Redirect back to browse page *)
                        let redirectPath :=
                          if negb (string_eqb subDir "") then "/" +:+ filepath.Clean subDir
                          else "/" in
                        (http.Redirect w (redirectPath +:+ "?upload=success")
                           http.StatusSeeOther, fs3)
                    end
                end
            end
        end
    end.

(** ** Vocabulary of the statements *)

(** The file a download request names. *)
Definition downloadPath (env : Env) (r : http.Request) : string :=
  filepath.Join [workingDir env; strings.TrimPrefix (http.URL_Path r) "/download/"].

(** The request [r] with another method. *)
Definition withMethod (m : string) (r : http.Request) : http.Request :=
  {| http.Method := m; http.URL_Path := http.URL_Path r; http.Query := http.Query r;
     http.Header := http.Header r; http.Multipart := http.Multipart r |}.

(** The download request [r] passes the security check and names a
    regular file [file] of [S] bytes. *)
Definition servesFile (env : Env) (sys : os.Reads) (r : http.Request)
  (file : os.File) (S : Z) : Prop :=
  securityCheck env sys (downloadPath env r) (http.NewResponseWriter r) "Invalid path" = None
  /\ os.Open sys (downloadPath env r) = Ok file
  /\ (exists info, os.Stat file = Ok info /\ os.IsDir info = false /\ os.Size info = S)
  /\ S = len (os.contents file)
  /\ S <= int64.max.

(** The reply of downloadHandler when it reaches [sendFile]. *)
Definition commonHeaders (env : Env) (r : http.Request) : http.ResponseWriter :=
  let fullPath := downloadPath env r in
  http.Header_Set "Content-Type" (fst (mimePolicy env fullPath))
    (http.Header_Set "Accept-Ranges" "bytes"
       (http.Header_Set "Content-Disposition"
          (snd (mimePolicy env fullPath) +:+ "; filename=" +:+ dquote
           +:+ filepath.Base fullPath +:+ dquote)
          (http.NewResponseWriter r))).


(** ** A small world to run the handlers in *)

Definition demoEnv : Env :=
  {| workingDir := "/srv/files";
     intelligentMIME := false;
     getMIMEType := fun _ => ("application/octet-stream", false);
     ExecuteTemplate := fun name _ => Ok name |}.

Definition regular (name : string) (data : string) : os.File :=
  {| os.Stat := Ok {| os.Name := name; os.Size := len data;
                      os.ModTime := 0; os.IsDir := false |};
     os.contents := data |}.

Definition directory (name : string) : os.FileInfo :=
  {| os.Name := name; os.Size := 4096; os.ModTime := 0; os.IsDir := true |}.

(** [/srv/files] holds [notes.txt], [empty.txt] and an entry [gone]
    whose metadata cannot be read; [/srv/files2], next to it, holds
    [secret.txt]. *)
Definition demoSys : os.Reads :=
  {| os.Getwd := Ok "/";
     os.StatPath := fun path =>
       if string_eqb path "/srv/files" then Ok (directory "files")
       else if string_eqb path "/srv/files2" then Ok (directory "files2")
       else Err os.ENOENT;
     os.Open := fun path =>
       if string_eqb path "/srv/files/notes.txt" then Ok (regular "notes.txt" "hello world")
       else if string_eqb path "/srv/files/empty.txt" then Ok (regular "empty.txt" "")
       else if string_eqb path "/srv/files2/secret.txt" then Ok (regular "secret.txt" "secret")
       else Err os.ENOENT;
     os.ReadDir := fun path =>
       if string_eqb path "/srv/files" then
         Ok [ {| os.entryName := "empty.txt"; os.entryIsDir := false;
                 os.Info := Ok {| os.Name := "empty.txt"; os.Size := 0;
                                  os.ModTime := 0; os.IsDir := false |} |};
              {| os.entryName := "gone"; os.entryIsDir := false;
                 os.Info := Err os.ENOENT |};
              {| os.entryName := "notes.txt"; os.entryIsDir := false;
                 os.Info := Ok {| os.Name := "notes.txt"; os.Size := 11;
                                  os.ModTime := 0; os.IsDir := false |} |} ]
       else if string_eqb path "/srv/files2" then
         Ok [ {| os.entryName := "secret.txt"; os.entryIsDir := false;
                 os.Info := Ok {| os.Name := "secret.txt"; os.Size := 6;
                                  os.ModTime := 0; os.IsDir := false |} |} ]
       else Err os.ENOENT |}.

(** A request without body; [range] is the value of its Range header,
    absent when empty. *)
Definition request (method path range : string) : http.Request :=
  {| http.Method := method; http.URL_Path := path; http.Query := [];
     http.Header := if string_eqb range "" then ∅ else {[ "Range" := [range] ]};
     http.Multipart := None |}.

(** The entry of the listing for a directory entry, when its metadata
    can be read. *)
Definition fileInfoOf (requestedPath : string) (entry : os.DirEntry) : option FileInfo :=
  match os.Info entry with
  | Err _ => None
  | Ok entryInfo =>
      Some {| Name := os.entryName entry;
              Path := filepath.Join [requestedPath; os.entryName entry];
              Size := os.Size entryInfo;
              ModTime := os.ModTime entryInfo;
              IsDir := os.entryIsDir entry |}
  end.

(** The directory a browse request names, relative and absolute. *)
Definition browseRelPath (r : http.Request) : string :=
  strings.TrimPrefix (http.URL_Path r) "/".

Definition browsePath (env : Env) (r : http.Request) : string :=
  filepath.Join [workingDir env; browseRelPath r].

(** The page data of a listing. *)
Definition listingPage (requestedPath : string) (files : list FileInfo) : PageData :=
  {| CurrentPath := requestedPath;
     ParentPath :=
       if negb (string_eqb requestedPath "") then
         let parentPath := filepath.Dir requestedPath in
         if string_eqb parentPath "." then EmptyString else parentPath
       else EmptyString;
     Files := files;
     Error := EmptyString |}.

(** ** Vocabulary for paths *)

(** A path element that names something: not empty, not [.] or [..],
    without separator. *)
Definition isName (e : string) : bool :=
  negb (string_eqb e "") && negb (string_eqb e ".") && negb (string_eqb e "..")
  && negb (contains_byte filepath.Separator e).

(** The absolute path with the elements [es]. *)
Definition rootedPath (es : list string) : string :=
  String filepath.Separator (filepath.joinSep es).

(** A clean absolute path. *)
Definition cleanAbs (path : string) : Prop :=
  filepath.IsAbs path = true /\ filepath.Clean path = path.

(** ** Vocabulary for the files on disk *)

(** The root is a directory and every directory lies in a directory. *)
Definition fsOk (fs : gmap string os.node) : Prop :=
  fs !! "/" = Some os.NDir
  /\ forall p, fs !! p = Some os.NDir -> fs !! filepath.Dir p = Some os.NDir.

Fixpoint repeatByte (n : nat) (c : ascii) : string :=
  match n with
  | O => EmptyString
  | S n' => String c (repeatByte n' c)
  end.

(** The bytes of the parts of a request body: a lower bound of the size
    of the body. *)
Definition payloadSize (r : http.Request) : Z :=
  match http.Multipart r with
  | None => 0
  | Some parts => fold_right (fun p acc => len (http.Data p) + acc) 0 parts
  end.

(** An upload of [data] under the file name [filename] into the
    directory [directory] (the root when empty). *)
Definition uploadRequest (directory filename data : string) : http.Request :=
  {| http.Method := "POST"; http.URL_Path := "/upload"; http.Query := [];
     http.Header := ∅;
     http.Multipart :=
       Some ([ {| http.FormName := "file"; http.FileName := filename; http.Data := data |} ]
             ++ (if string_eqb directory "" then []
                 else [ {| http.FormName := "directory"; http.FileName := "";
                           http.Data := directory |} ])) |}.

Definition demoFs : gmap string os.node :=
  <["/" := os.NDir]> (<["/srv" := os.NDir]> (<["/srv/files" := os.NDir]>
    (<["/srv/files2" := os.NDir]> ∅))).

(** The bytes of the plain values of a form: the parts with a name and
    without file name. *)
Fixpoint valueBytes (parts : list http.Part) : Z :=
  match parts with
  | [] => 0
  | p :: rest =>
      if negb (string_eqb (http.FormName p) "") && string_eqb (http.FileName p) ""
      then len (http.Data p) + valueBytes rest
      else valueBytes rest
  end.

(** ** Vocabulary of the further properties *)

(** The bytes of a range spec made of numbers: digits and the dash. *)
Definition specChar (c : ascii) : bool := is_digit c || Ascii.eqb c "-".

(** The number that a string of decimal digits denotes, of any length;
    [decimal_from n s] continues from the number [n] read so far. *)
Fixpoint decimal_from (n : Z) (s : string) : Z :=
  match s with
  | EmptyString => n
  | String c r => decimal_from (10 * n + (byte_val c - 48)) r
  end.

Definition decimal (s : string) : Z := decimal_from 0 s.

(** Two replies with the same status and the same headers. *)
Definition sameHead (a b : http.ResponseWriter) : Prop :=
  http.status a = http.status b /\ http.header a = http.header b.

(** The status codes that each handler uses. *)
Definition browseStatuses : list Z := [200; 302; 400; 403; 404; 405; 500].
Definition downloadStatuses : list Z := [200; 206; 400; 403; 404; 405; 416; 500].
Definition uploadStatuses : list Z := [200; 303; 400; 403; 405; 500].

(** ** Reading from the file tree *)

From stdpp Require sorting.
Local Open Scope Z_scope.

(** What [Stat] answers for a node of the tree; [mtime] gives the
    modification times, which the tree does not hold. *)
Definition nodeInfo (mtime : string -> Z) (path : string) (n : os.node) : os.FileInfo :=
  match n with
  | os.NFile data =>
      {| os.Name := filepath.Base path; os.Size := len data;
         os.ModTime := mtime path; os.IsDir := false |}
  | os.NDir =>
      {| os.Name := filepath.Base path; os.Size := 0;
         os.ModTime := mtime path; os.IsDir := true |}
  end.

Definition nodeData (n : os.node) : string :=
  match n with os.NFile data => data | os.NDir => EmptyString end.

(** The entry of [ReadDir] for a node. *)
Definition nodeEntry (mtime : string -> Z) (pn : string * os.node) : os.DirEntry :=
  {| os.entryName := filepath.Base (fst pn);
     os.entryIsDir := match snd pn with os.NDir => true | os.NFile _ => false end;
     os.Info := Ok (nodeInfo mtime (fst pn) (snd pn)) |}.

(** The order of [ReadDir]: by file name. *)
Definition entryLe (a b : os.DirEntry) : Prop :=
  String.leb (os.entryName a) (os.entryName b) = true.

Definition entryLe_dec (a b : os.DirEntry) : Decision (entryLe a b) :=
  decide (String.leb (os.entryName a) (os.entryName b) = true).

(** The nodes directly in the directory [dir]. *)
Definition childOf (dir : string) (pn : string * os.node) : bool :=
  string_eqb (filepath.Dir (fst pn)) dir && negb (string_eqb (fst pn) dir).

(** The reading calls of the operating system, answered from the file
    tree that the writing calls change: a path exists when the tree
    holds it, and a directory lists the nodes directly in it, sorted by
    name. *)
Definition fsReads (mtime : string -> Z) (fs : gmap string os.node) : os.Reads :=
  {| os.Getwd := Ok "/";
     os.StatPath := fun path =>
       match fs !! path with
       | Some n => Ok (nodeInfo mtime path n)
       | None => Err os.ENOENT
       end;
     os.Open := fun path =>
       match fs !! path with
       | Some n => Ok {| os.Stat := Ok (nodeInfo mtime path n); os.contents := nodeData n |}
       | None => Err os.ENOENT
       end;
     os.ReadDir := fun path =>
       match fs !! path with
       | Some os.NDir =>
           Ok (@sorting.merge_sort _ entryLe entryLe_dec
                 (map (nodeEntry mtime) (filter (fun pn => childOf path pn = true)
                                           (map_to_list fs))))
       | Some (os.NFile _) => Err os.ENOTDIR
       | None => Err os.ENOENT
       end |}.

(** ** The template functions *)

(** The loop of formatSize.  [n] runs through [size/1024],
    [size/1024^2], ... as long as it is at least 1024; [div *= unit]
    is a 64-bit multiplication.  [fuel] bounds the number of rounds;
    [n] loses ten bits in each round, so 64 rounds are more than a
    64-bit size can take. *)
Fixpoint formatSize_loop (fuel : nat) (n div : Z) (exp : nat) : Z * nat :=
  match fuel with
  | O => (div, exp)
  | S fuel' =>
      if n >=? 1024 then
        formatSize_loop fuel' (Z.quot n 1024) (int64.wrap (div * 1024)) (S exp)
      else (div, exp)
  end.

From Stdlib Require Floats.SpecFloat.

(** [float64(i)]: the IEEE 754 double nearest to the integer [i]. *)
Definition float64 (i : Z) : SpecFloat.spec_float :=
  SpecFloat.binary_normalize 53 1024 i 0 false.

(** The division of two float64 values. *)
Definition float64_div (x y : SpecFloat.spec_float) : SpecFloat.spec_float :=
  SpecFloat.SFdiv 53 1024 x y.

(** The integer nearest to [num/den], for [den > 0]; a tie goes to the
    even one. *)
Definition roundHalfEven (num den : Z) : Z :=
  let q := num / den in
  let r := num mod den in
  match 2 * r ?= den with
  | Lt => q
  | Gt => q + 1
  | Eq => if Z.even q then q else q + 1
  end.

(** What ["%.1f"] prints for a float64: its exact value rounded to one
    decimal, a tie to the even digit. *)
Definition formatFloat1 (f : SpecFloat.spec_float) : string :=
  match f with
  | SpecFloat.S754_zero s => (if s then "-" else EmptyString) +:+ "0.0"
  | SpecFloat.S754_infinity s => if s then "-Inf" else "+Inf"
  | SpecFloat.S754_nan => "NaN"
  | SpecFloat.S754_finite s m e =>
      let tenths :=
        if 0 <=? e then 10 * Z.pos m * 2 ^ e
        else roundHalfEven (10 * Z.pos m) (2 ^ (- e)) in
      (if s then "-" else EmptyString)
      +:+ strconv.formatBits 310 (tenths / 10) EmptyString
      +:+ String "." (String (strconv.digitChar (tenths mod 10)) EmptyString)
  end.

(** formatSize formats file size in human-readable format.  [None] is
    the panic of an index outside ["KMGTPE"]. *)
Definition formatSize (size : Z) : option string :=
  if size <? 1024 then Some (strconv.FormatInt size +:+ " B")
  else
    let n := Z.quot size 1024 in
    let '(div, exp) := formatSize_loop 64 n 1024 0 in
    match nth_error (list_ascii_of_string "KMGTPE") exp with
    | Some unit =>
        Some (formatFloat1 (float64_div (float64 size) (float64 div))
              +:+ String " " (String unit "B"))
    | None => None
    end.

(** splitPath splits a path into components *)
Definition splitPath (path : string) : list string :=
  strings.Split (filepath.Clean path) filepath.Separator.

(** joinPath joins path components *)
Definition joinPath (parts : list string) : string := filepath.Join parts.

(** ** The start of the server *)

(** The working directory as [main] sets it from the [-dir] flag; an
    error is the message of [log.Fatal]. *)
Definition setWorkingDir (sys : os.Reads) (dirFlag : string) : result string string :=
  if negb (string_eqb dirFlag "") then
    match filepath.Abs (os.Getwd sys) dirFlag with
    | Err _ => Err "Failed to resolve directory path:"
    | Ok workingDir =>
        (* Check if directory exists *)
        match os.StatPath sys workingDir with
        | Err _ => Err "Directory does not exist:"
        | Ok info =>
            if negb (os.IsDir info) then Err "Path is not a directory:"
            else Ok workingDir
        end
    end
  else
    match os.Getwd sys with
    | Err _ => Err "Failed to get working directory:"
    | Ok workingDir => Ok workingDir
    end.

(** ** MIME types *)

Module mime.

(** [strings.HasSuffix s suffix] *)
Definition HasSuffix (s suffix : string) : bool :=
  (String.length suffix <=? String.length s)%nat
  && string_eqb (strings.drop (String.length s - String.length suffix) s) suffix.

(** [strings.TrimSuffix s suffix] *)
Definition TrimSuffix (s suffix : string) : string :=
  if HasSuffix s suffix
  then String.substring 0 (String.length s - String.length suffix) s
  else s.

Definition isASCII (s : string) : bool := bytes_all (fun c => byte_val c <? 128) s.

Definition lowerByte (c : ascii) : ascii :=
  if (65 <=? byte_val c) && (byte_val c <=? 90)
  then ascii_of_N (N_of_ascii c + 32)
  else c.

Fixpoint mapBytes (f : ascii -> ascii) (s : string) : string :=
  match s with
  | EmptyString => EmptyString
  | String c r => String (f c) (mapBytes f r)
  end.

(** The scan of [filepath.Ext], from the last byte back to the last
    separator; [suffix] is the part of the path already passed. *)
Fixpoint Ext_scan (back : list ascii) (suffix : string) : string :=
  match back with
  | [] => EmptyString
  | c :: rest =>
      if Ascii.eqb c filepath.Separator then EmptyString
      else if Ascii.eqb c "." then String c suffix
      else Ext_scan rest (String c suffix)
  end.

(** [filepath.Ext path]: the suffix of the last element of [path] from
    its last dot on, empty when there is no dot. *)
Definition Ext (path : string) : string :=
  Ext_scan (rev (list_ascii_of_string path)) EmptyString.

(** customMIMETypes and customMIMEViewable *)
Record Tables : Type := {
  customMIMETypes : gmap string string;
  customMIMEViewable : gmap string bool
}.

(** The tables as [main] makes them. *)
Definition noTables : Tables :=
  {| customMIMETypes := ∅; customMIMEViewable := ∅ |}.

(** The extensions that getMIMEType knows, and the types it gives
    them. *)
Definition imageTypes : list string :=
  [".jpg"; ".jpeg"; ".png"; ".gif"; ".bmp"; ".webp"; ".svg"; ".ico"].
Definition audioTypes : list string :=
  [".mp3"; ".wav"; ".flac"; ".aac"; ".ogg"; ".m4a"; ".weba"].
Definition videoTypes : list string :=
  [".mp4"; ".webm"; ".ogv"; ".mov"; ".mkv"; ".avi"; ".flv"; ".m3u8"].
Definition documentTypes : list string :=
  [".html"; ".htm"; ".txt"; ".pdf"; ".xml"].

Definition imageSwitch : list (string * string) :=
  [(".jpg", "image/jpeg"); (".jpeg", "image/jpeg"); (".png", "image/png");
   (".gif", "image/gif"); (".bmp", "image/bmp"); (".webp", "image/webp");
   (".svg", "image/svg+xml"); (".ico", "image/x-icon")].
Definition audioSwitch : list (string * string) :=
  [(".mp3", "audio/mpeg"); (".wav", "audio/wav"); (".flac", "audio/flac");
   (".aac", "audio/aac"); (".ogg", "audio/ogg"); (".m4a", "audio/mp4");
   (".weba", "audio/webp")].
Definition videoSwitch : list (string * string) :=
  [(".mp4", "video/mp4"); (".webm", "video/webm"); (".ogv", "video/ogg");
   (".mov", "video/quicktime"); (".mkv", "video/x-matroska");
   (".avi", "video/x-msvideo"); (".flv", "video/x-flv");
   (".m3u8", "application/vnd.apple.mpegurl")].
Definition documentSwitch : list (string * string) :=
  [(".html", "text/html"); (".htm", "text/html"); (".txt", "text/plain");
   (".pdf", "application/pdf"); (".xml", "application/xml")].

(** [types[ext]] for a map of known extensions *)
Definition known (types : list string) (ext : string) : bool :=
  existsb (string_eqb ext) types.

(** [switch ext { case ...: return ... }]: the type of the first case
    that is [ext], if there is one. *)
Fixpoint switch (cases : list (string * string)) (ext : string) : option string :=
  match cases with
  | [] => None
  | (e, mimeType) :: rest => if string_eqb ext e then Some mimeType else switch rest ext
  end.

(** [if types[ext] { switch ext { ... } }] *)
Definition checkTypes (types : list string) (cases : list (string * string))
  (ext : string) : option string :=
  if known types ext then switch cases ext else None.

Section ToLower.

(** [strings.Map unicode.ToLower], which [strings.ToLower] uses on a
    string with a byte of 128 or above. *)
Variable unicodeLower : string -> string.

(** [strings.ToLower s] *)
Definition ToLower (s : string) : string :=
  if isASCII s then mapBytes lowerByte s else unicodeLower s.

(** The inner loop of parseCustomMIMETypes: one extension of a
    mapping. *)
Definition registerExt (mimeInfo : string) (isViewable : bool) (t : Tables)
  (ext : string) : Tables :=
  let ext := strings.TrimSpace ext in
  if string_eqb ext "" then t
  else
    (* Normalize extension to start with dot *)
    let ext := if negb (strings.HasPrefix ext ".") then "." +:+ ext else ext in
    let ext := ToLower ext in
    {| customMIMETypes := <[ext := mimeInfo]> (customMIMETypes t);
       customMIMEViewable := <[ext := isViewable]> (customMIMEViewable t) |}.

(** The outer loop of parseCustomMIMETypes: one mapping group.  What
    the function logs is left out. *)
Definition parseMapping (t : Tables) (mapping : string) : Tables :=
  let mapping := strings.TrimSpace mapping in
  if string_eqb mapping "" then t
  else
    (* Split by colon to separate extensions from MIME type *)
    match strings.Split mapping ":" with
    | [p0; p1] =>
        let extensions := strings.TrimSpace p0 in
        let mimeInfo := strings.TrimSpace p1 in
        if string_eqb extensions "" || string_eqb mimeInfo "" then t
        else
          (* Check if the mime info has the ,v suffix to indicate viewable *)
          let '(isViewable, mimeInfo) :=
            if HasSuffix mimeInfo ",v"
            then (true, strings.TrimSpace (TrimSuffix mimeInfo ",v"))
            else (false, mimeInfo) in
          if string_eqb mimeInfo "" then t
          else
            (* Split by comma to handle multiple extensions *)
            fold_left (registerExt mimeInfo isViewable)
              (strings.Split extensions ",") t
    | _ => t
    end.

(** parseCustomMIMETypes parses custom MIME type mappings from a string *)
Definition parseCustomMIMETypes (input : string) (t : Tables) : Tables :=
  fold_left parseMapping (strings.Split input ";") t.

(** getMIMEType returns the MIME type for a file based on its extension *)
Definition getMIMEType (t : Tables) (filePath : string) : string * bool :=
  let ext := ToLower (Ext filePath) in
  (* Check custom MIME types first *)
  match customMIMETypes t !! ext with
  | Some customMime => (customMime, default false (customMIMEViewable t !! ext))
  | None =>
      match checkTypes imageTypes imageSwitch ext with
      | Some mimeType => (mimeType, true)
      | None =>
      match checkTypes audioTypes audioSwitch ext with
      | Some mimeType => (mimeType, true)
      | None =>
      match checkTypes videoTypes videoSwitch ext with
      | Some mimeType => (mimeType, true)
      | None =>
      match checkTypes documentTypes documentSwitch ext with
      | Some mimeType => (mimeType, true)
      | None => ("application/octet-stream", false)
      end end end end
  end.


End ToLower.

End mime.




(** The two tables hold the same extensions, and no type is empty. *)
Definition tablesAgree (t : mime.Tables) : Prop :=
  (forall ext, is_Some (mime.customMIMETypes t !! ext)
               <-> is_Some (mime.customMIMEViewable t !! ext))
  /\ (forall ext m, mime.customMIMETypes t !! ext = Some m -> m <> "").

(** The extensions that getMIMEType knows by itself. *)
Definition builtinTypes : list string :=
  mime.imageTypes ++ mime.audioTypes ++ mime.videoTypes ++ mime.documentTypes.
(** * Properties *)

(** ** int64 *)

Lemma int64_wrap_small z : int64.in_range z -> int64.wrap z = z.
Proof.
  unfold int64.in_range, int64.min, int64.max, int64.wrap. intros H.
  rewrite Z.mod_small; lia.
Qed.

Lemma int64_wrap_in_range z : int64.in_range (int64.wrap z).
Proof.
  unfold int64.in_range, int64.min, int64.max, int64.wrap.
  pose proof (Z.mod_pos_bound (z + 2 ^ 63) (2 ^ 64) ltac:(lia)). lia.
Qed.

Example parseRange_ex1 :
  parseRange "bytes=0-499" 1000 = Ok [ {| start := 0; end_ := 499 |} ].
Proof. vm_compute. reflexivity. Qed.

Example parseRange_ex2 :
  parseRange "bytes=-500" 1000 = Ok [ {| start := 500; end_ := 999 |} ].
Proof. vm_compute. reflexivity. Qed.

Example parseRange_ex3 :
  parseRange "bytes=500-, 0-1" 1000
  = Ok [ {| start := 500; end_ := 999 |}; {| start := 0; end_ := 1 |} ].
Proof. vm_compute. reflexivity. Qed.

Example parseRange_ex4 : parseRange "bytes=5-1000" 1000 = Err InvalidRange.
Proof. vm_compute. reflexivity. Qed.

Example formatInt_ex : strconv.FormatInt 1234567890 = "1234567890".
Proof. vm_compute. reflexivity. Qed.

Example Split_ex :
  strings.Split "a,b,,c" "," = ["a"; "b"; ""; "c"]
  /\ strings.Split "" "," = [""] /\ strings.Split "-5" "-" = [""; "5"]
  /\ strings.Split "1-2-3" "-" = ["1"; "2"; "3"].
Proof. vm_compute. auto. Qed.

Example TrimSpace_ex :
  strings.TrimSpace (String "009" " 0-99 " +:+ http.newline) = "0-99"
  /\ strings.TrimSpace (String "194" (String "160" "7-")) = "7-"
  /\ strings.TrimSpace (String "226" (String "128" (String "131" ""))) = ""
  /\ strings.TrimSpace (String "194" "x") = String "194" "x"
  /\ strings.TrimSpace "a b" = "a b".
Proof. vm_compute. auto 10. Qed.

Example ParseInt_ex :
  strconv.ParseInt "+5" = Ok 5 /\ strconv.ParseInt "-5" = Ok (-5)
  /\ strconv.ParseInt "" = Err strconv.ErrSyntax
  /\ strconv.ParseInt "12a" = Err strconv.ErrSyntax
  /\ strconv.ParseInt "007" = Ok 7
  /\ strconv.ParseInt "9223372036854775807" = Ok int64.max
  /\ strconv.ParseInt "9223372036854775808" = Err strconv.ErrRange
  /\ strconv.ParseInt "-9223372036854775808" = Ok int64.min
  /\ strconv.ParseInt "99999999999999999999999" = Err strconv.ErrRange.
Proof. vm_compute. auto 15. Qed.

(** ** Facts about the string functions *)

Lemma append_String c s t : String c s +:+ t = String c (s +:+ t).
Proof. reflexivity. Qed.

Lemma append_Empty t : EmptyString +:+ t = t.
Proof. reflexivity. Qed.

Lemma Split_nonempty s sep : strings.Split s sep <> [].
Proof.
  destruct s as [|c r]; simpl; [discriminate|].
  destruct (Ascii.eqb c sep); [discriminate|].
  destruct (strings.Split r sep); discriminate.
Qed.

Lemma Split_no_sep s sep :
  contains_byte sep s = false -> strings.Split s sep = [s].
Proof.
  induction s as [|c r IH]; simpl; [reflexivity|].
  destruct (Ascii.eqb c sep); [discriminate|].
  intros H. rewrite (IH H). reflexivity.
Qed.

Lemma Split_sep_first s sep :
  strings.Split (String sep s) sep = EmptyString :: strings.Split s sep.
Proof. simpl. rewrite Ascii.eqb_refl. reflexivity. Qed.

Lemma spaceRune_plain c r : plain c = true -> strings.spaceRune (String c r) = None.
Proof.
  unfold plain. intros [Hs Hb]%andb_true_iff.
  apply negb_true_iff in Hs. apply Z.ltb_lt in Hb.
  unfold strings.spaceRune. rewrite Hs.
  destruct (byte_val c) as [|p|p] eqn:E; try reflexivity.
  do 8 (destruct p as [p|p|]; try reflexivity; try lia).
Qed.

Lemma TrimLeftSpace_plain c r :
  plain c = true -> strings.TrimLeftSpace (String c r) = String c r.
Proof.
  intros H. unfold strings.TrimLeftSpace. cbn [String.length strings.TrimLeft_fuel].
  rewrite (spaceRune_plain c r H). reflexivity.
Qed.

Lemma allSpace_plain c r : plain c = true -> strings.allSpace (String c r) = false.
Proof.
  intros H. unfold strings.allSpace. cbn [String.length strings.allSpace_fuel].
  rewrite (spaceRune_plain c r H). reflexivity.
Qed.

Lemma TrimRightSpace_plain s :
  bytes_all plain s = true -> strings.TrimRightSpace s = s.
Proof.
  induction s as [|c r IH]; [reflexivity|].
  cbn [bytes_all]. intros [Hc Hr]%andb_true_iff.
  cbn [strings.TrimRightSpace]. rewrite (allSpace_plain c r Hc), (IH Hr). reflexivity.
Qed.

Lemma TrimSpace_plain s : bytes_all plain s = true -> strings.TrimSpace s = s.
Proof.
  intros H. unfold strings.TrimSpace. destruct s as [|c r]; [reflexivity|].
  pose proof H as H'. cbn [bytes_all] in H'. apply andb_true_iff in H' as [Hc _].
  rewrite (TrimLeftSpace_plain c r Hc). apply TrimRightSpace_plain, H.
Qed.

(** ** Facts about strconv *)

Lemma geb_false a b : a < b -> (a >=? b) = false.
Proof. intros H. rewrite Z.geb_leb. apply Z.leb_gt, H. Qed.

Lemma gtb_false a b : a <= b -> (a >? b) = false.
Proof. intros H. rewrite Z.gtb_ltb. apply Z.ltb_ge, H. Qed.

Lemma byte_val_digitChar d : 0 <= d <= 9 -> byte_val (strconv.digitChar d) = 48 + d.
Proof.
  intros H. unfold byte_val, strconv.digitChar.
  rewrite N_ascii_embedding; lia.
Qed.

Lemma digit_digitChar d : 0 <= d <= 9 -> strconv.digit (strconv.digitChar d) = Some d.
Proof.
  intros H. unfold strconv.digit. rewrite (byte_val_digitChar d H).
  replace (48 <=? 48 + d) with true by (symmetry; apply Z.leb_le; lia).
  replace (48 + d <=? 57) with true by (symmetry; apply Z.leb_le; lia).
  simpl. f_equal. lia.
Qed.

Lemma is_digit_digitChar d : 0 <= d <= 9 -> is_digit (strconv.digitChar d) = true.
Proof.
  intros H. unfold is_digit. rewrite (byte_val_digitChar d H).
  apply andb_true_iff; split; apply Z.leb_le; lia.
Qed.

Lemma formatBits_digits fuel : forall n acc,
  0 <= n -> bytes_all is_digit acc = true ->
  bytes_all is_digit (strconv.formatBits fuel n acc) = true.
Proof.
  induction fuel as [|f IH]; intros n acc Hn Hacc; [exact Hacc|].
  cbn [strconv.formatBits].
  assert (Hd : bytes_all is_digit (String (strconv.digitChar (n mod 10)) acc) = true).
  { cbn [bytes_all]. rewrite is_digit_digitChar, Hacc; [reflexivity|].
    pose proof (Z.mod_pos_bound n 10 ltac:(lia)). lia. }
  destruct (n <? 10); [exact Hd|].
  apply IH; [apply Z.div_pos; lia | exact Hd].
Qed.

Lemma formatBits_nonempty fuel : forall n acc,
  (0 < fuel)%nat \/ acc <> EmptyString -> strconv.formatBits fuel n acc <> EmptyString.
Proof.
  induction fuel as [|f IH]; intros n acc H.
  - destruct H as [H|H]; [lia | exact H].
  - cbn [strconv.formatBits]. destruct (n <? 10); [discriminate|].
    apply IH. right. discriminate.
Qed.

(** Reading back what [formatBits] wrote. *)
Lemma parseUint_formatBits fuel : forall n acc,
  0 <= n < 10 ^ Z.of_nat fuel -> n <= strconv.maxUint64 ->
  strconv.parseUint_loop (strconv.formatBits fuel n acc) 0
  = strconv.parseUint_loop acc n.
Proof.
  induction fuel as [|f IH]; intros n acc Hn Hmax.
  - simpl in Hn. assert (n = 0) by lia. subst n. reflexivity.
  - cbn [strconv.formatBits].
    pose proof (Z.mod_pos_bound n 10 ltac:(lia)) as Hm.
    pose proof (Z.div_mod n 10 ltac:(lia)) as Hdm.
    unfold strconv.maxUint64 in *.
    assert (Hstep : forall m, 0 <= m -> m * 10 + n mod 10 <= 2 ^ 64 - 1 ->
              strconv.parseUint_loop (String (strconv.digitChar (n mod 10)) acc) m
              = strconv.parseUint_loop acc (m * 10 + n mod 10)).
    { intros m Hm0 Hle. cbn [strconv.parseUint_loop].
      rewrite digit_digitChar by lia. unfold strconv.maxUint64.
      rewrite geb_false
        by (change ((2 ^ 64 - 1) / 10 + 1) with 1844674407370955162; lia).
      cbv zeta. rewrite gtb_false by lia. reflexivity. }
    destruct (n <? 10) eqn:E.
    + apply Z.ltb_lt in E. rewrite Hstep by lia.
      rewrite Z.mod_small by lia. reflexivity.
    + apply Z.ltb_ge in E.
      rewrite IH.
      * rewrite Hstep; [f_equal; lia | apply Z.div_pos; lia | lia].
      * split; [apply Z.div_pos; lia|].
        apply Z.div_lt_upper_bound; [lia|].
        replace (Z.of_nat (S f)) with (Z.of_nat f + 1) in Hn by lia.
        rewrite Z.pow_add_r in Hn by lia. lia.
      * pose proof (Z.div_pos n 10). lia.
Qed.

Lemma is_digit_not_sign c :
  is_digit c = true -> Ascii.eqb c "+" = false /\ Ascii.eqb c "-" = false.
Proof.
  unfold is_digit, byte_val.
  intros [H1 H2]%andb_true_iff. apply Z.leb_le in H1, H2.
  split; apply Ascii.eqb_neq; intros ->; vm_compute in H1; vm_compute in H2; try lia;
    try (apply H1; reflexivity); try (apply H2; reflexivity).
Qed.

(** [ParseInt] reads back the decimal rendering of a non-negative int64. *)
Lemma ParseInt_FormatInt n :
  0 <= n <= int64.max -> strconv.ParseInt (strconv.FormatInt n) = Ok n.
Proof.
  unfold int64.max. intros Hn. unfold strconv.FormatInt.
  replace (n <? 0) with false by (symmetry; apply Z.ltb_ge; lia).
  pose proof (formatBits_digits 20 n EmptyString ltac:(lia) eq_refl) as Hd.
  pose proof (formatBits_nonempty 20 n EmptyString ltac:(left; lia)) as Hne.
  pose proof (parseUint_formatBits 20 n EmptyString) as Hp.
  destruct (strconv.formatBits 20 n EmptyString) as [|c r] eqn:E; [congruence|].
  cbn [bytes_all] in Hd. apply andb_true_iff in Hd as [Hc _].
  destruct (is_digit_not_sign c Hc) as [Hplus Hminus].
  unfold strconv.ParseInt. rewrite Hplus, Hminus.
  unfold strconv.ParseUint. rewrite Hp.
  - cbn [strconv.parseUint_loop negb andb].
    rewrite geb_false by lia. reflexivity.
  - change (Z.of_nat 20) with 20. lia.
  - unfold strconv.maxUint64. lia.
Qed.

Lemma bytes_all_impl (P Q : ascii -> bool) s :
  (forall c, P c = true -> Q c = true) -> bytes_all P s = true -> bytes_all Q s = true.
Proof.
  intros HPQ. induction s as [|c r IH]; [reflexivity|].
  cbn [bytes_all]. intros [Hc Hr]%andb_true_iff.
  rewrite (HPQ c Hc), (IH Hr). reflexivity.
Qed.

Lemma bytes_all_no_byte (P : ascii -> bool) c s :
  P c = false -> bytes_all P s = true -> contains_byte c s = false.
Proof.
  intros Hc. induction s as [|d r IH]; [reflexivity|].
  cbn [bytes_all contains_byte]. intros [Hd Hr]%andb_true_iff.
  destruct (Ascii.eqb_spec d c) as [->|_]; [congruence | exact (IH Hr)].
Qed.

Lemma is_digit_plain c : is_digit c = true -> plain c = true.
Proof.
  unfold is_digit, plain, strings.asciiSpace.
  intros [H1 H2]%andb_true_iff. apply Z.leb_le in H1, H2.
  apply andb_true_iff; split; [|apply Z.ltb_lt; lia].
  apply negb_true_iff, orb_false_iff; split.
  - apply andb_false_iff. right. apply Z.leb_gt. lia.
  - apply Z.eqb_neq. lia.
Qed.

(** ** The loop of parseRange *)

Lemma rangeInvalid_false st en size :
  rangeInvalid st en size = false <->
  0 <= st /\ st < size /\ en >= st /\ en < size.
Proof.
  unfold rangeInvalid. rewrite !orb_false_iff, !Z.ltb_ge.
  rewrite !Z.geb_leb, !Z.leb_gt. lia.
Qed.

Lemma parseSpec_ok spec size r :
  parseSpec spec size = Ok r -> rangeValid size r.
Proof.
  unfold parseSpec.
  destruct (strings.Split (strings.TrimSpace spec) "-") as [|p0 [|p1 [|? ?]]];
    try discriminate.
  destruct (specBounds p0 p1 size) as [[st en]|e]; [|discriminate].
  destruct (rangeInvalid st en size) eqn:E; [discriminate|].
  intros [= <-]. apply rangeInvalid_false in E. exact E.
Qed.

Lemma parseSpec_violation spec size p0 p1 st en :
  strings.Split (strings.TrimSpace spec) "-" = [p0; p1] ->
  specBounds p0 p1 size = Ok (st, en) ->
  ~ (0 <= st /\ st < size /\ en >= st /\ en < size) ->
  parseSpec spec size = Err InvalidRange.
Proof.
  intros Hs Hb Hv. unfold parseSpec. rewrite Hs, Hb.
  destruct (rangeInvalid st en size) eqn:E; [reflexivity|].
  apply rangeInvalid_false in E. contradiction.
Qed.

Lemma parseRange_loop_ok size : forall specs acc ranges,
  Forall (rangeValid size) acc ->
  parseRange_loop specs size acc = Ok ranges ->
  Forall (rangeValid size) ranges.
Proof.
  induction specs as [|spec rest IH]; intros acc ranges Hacc; cbn [parseRange_loop].
  - intros [= <-]. exact Hacc.
  - destruct (parseSpec spec size) as [r|e] eqn:E; [|discriminate].
    apply IH, Forall_app. split; [exact Hacc|].
    constructor; [exact (parseSpec_ok _ _ _ E) | constructor].
Qed.

Lemma parseRange_loop_err size spec e : forall specs acc,
  In spec specs -> parseSpec spec size = Err e ->
  exists e', parseRange_loop specs size acc = Err e'.
Proof.
  induction specs as [|spec' rest IH]; intros acc Hin He; [destruct Hin|].
  cbn [parseRange_loop].
  destruct (parseSpec spec' size) as [r|e'] eqn:E; [|eauto].
  destruct Hin as [->|Hin]; [congruence|].
  exact (IH _ Hin He).
Qed.

Lemma parseRange_loop_length size : forall specs acc ranges,
  parseRange_loop specs size acc = Ok ranges ->
  length ranges = (length acc + length specs)%nat.
Proof.
  induction specs as [|spec rest IH]; intros acc ranges; cbn [parseRange_loop].
  - intros [= <-]. simpl. lia.
  - destruct (parseSpec spec size) as [r|e]; [|discriminate].
    intros H. rewrite (IH _ _ H), length_app. simpl. lia.
Qed.

Lemma parseRange_valid s size ranges :
  parseRange s size = Ok ranges -> Forall (rangeValid size) ranges.
Proof.
  unfold parseRange.
  destruct (strings.HasPrefix s "bytes="); cbn [negb]; [|discriminate].
  apply parseRange_loop_ok. constructor.
Qed.

(** C3: parseRange fails as a whole as soon as one spec of the list has
    a start or end outside [0 <= start <= end < size], whatever the other
    specs are; and every range of a successful parse satisfies the four
    conditions. *)
Theorem parseRange_all_or_nothing (s : string) (size : Z) :
  (forall spec p0 p1 st en,
      In spec (rangeSpecs s) ->
      strings.Split (strings.TrimSpace spec) "-" = [p0; p1] ->
      specBounds p0 p1 size = Ok (st, en) ->
      ~ (0 <= st /\ st < size /\ en >= st /\ en < size) ->
      exists e, parseRange s size = Err e)
  /\ (forall ranges,
         parseRange s size = Ok ranges -> Forall (rangeValid size) ranges).
Proof.
  split.
  - intros spec p0 p1 st en Hin Hs Hb Hv. unfold parseRange.
    destruct (strings.HasPrefix s "bytes="); cbn [negb]; [|eauto].
    eapply parseRange_loop_err; [exact Hin|].
    exact (parseSpec_violation _ _ _ _ _ _ Hs Hb Hv).
  - intros ranges. apply parseRange_valid.
Qed.

Lemma parseRange_all_or_nothing_witness :
  (exists e, parseRange "bytes=0-1, 7-2000 ,5-6" 1000 = Err e)
  /\ Forall (rangeValid 1000) [ {| start := 0; end_ := 1 |}; {| start := 5; end_ := 6 |} ].
Proof.
  split.
  - apply (proj1 (parseRange_all_or_nothing "bytes=0-1, 7-2000 ,5-6" 1000)
             " 7-2000 " "7" "2000" 7 2000).
    + vm_compute. right. left. reflexivity.
    + vm_compute. reflexivity.
    + vm_compute. reflexivity.
    + lia.
  - apply (proj2 (parseRange_all_or_nothing "bytes=0-1,5-6" 1000)).
    vm_compute. reflexivity.
Defined.

(** ** Suffix ranges *)

Lemma FormatInt_digits n :
  0 <= n -> exists c r, strconv.FormatInt n = String c r
                        /\ bytes_all is_digit (String c r) = true.
Proof.
  intros Hn. unfold strconv.FormatInt. rewrite (proj2 (Z.ltb_ge n 0) Hn).
  pose proof (formatBits_digits 20 n EmptyString Hn eq_refl) as Hd.
  pose proof (formatBits_nonempty 20 n EmptyString ltac:(left; lia)) as Hne.
  destruct (strconv.formatBits 20 n EmptyString) as [|c r]; [congruence|].
  eauto.
Qed.

(** A spec [-d], with [d] a string of digits, splits into the empty
    string and [d]. *)
Lemma suffix_spec_parts d :
  bytes_all is_digit d = true ->
  strings.Split (strings.TrimSpace (String "-" d)) "-" = [EmptyString; d]
  /\ strings.Split (String "-" d) "," = [String "-" d].
Proof.
  intros Hd.
  assert (Hcomma : contains_byte "," d = false)
    by (apply (bytes_all_no_byte is_digit); [reflexivity | exact Hd]).
  assert (Hminus : contains_byte "-" d = false)
    by (apply (bytes_all_no_byte is_digit); [reflexivity | exact Hd]).
  split.
  - rewrite TrimSpace_plain.
    + rewrite Split_sep_first, (Split_no_sep _ _ Hminus). reflexivity.
    + cbn [bytes_all]. apply andb_true_iff. split; [reflexivity|].
      exact (bytes_all_impl _ _ _ is_digit_plain Hd).
  - apply Split_no_sep. cbn [contains_byte]. exact Hcomma.
Qed.

Lemma parseRange_suffix_digits d size n :
  bytes_all is_digit d = true ->
  strconv.ParseInt d = Ok n ->
  1 <= size <= int64.max -> 1 <= n <= int64.max ->
  parseRange ("bytes=" +:+ String "-" d) size
  = Ok [ {| start := Z.max 0 (size - n); end_ := size - 1 |} ].
Proof.
  intros Hd Hp Hs Hn. unfold int64.max in *.
  destruct (suffix_spec_parts d Hd) as (Hparts & Hspecs).
  unfold parseRange. rewrite !append_String, append_Empty.
  change (strings.HasPrefix (String "b" (String "y" (String "t" (String "e"
            (String "s" (String "=" (String "-" d))))))) "bytes=") with true.
  cbn [negb].
  change (strings.TrimPrefix (String "b" (String "y" (String "t" (String "e"
            (String "s" (String "=" (String "-" d))))))) "bytes=")
    with (String "-" d).
  rewrite Hspecs. cbn [parseRange_loop]. unfold parseSpec. rewrite Hparts.
  unfold specBounds. change (string_eqb EmptyString "") with true.
  cbv iota. rewrite Hp. unfold int64.sub.
  rewrite !int64_wrap_small by (unfold int64.in_range, int64.min, int64.max; lia).
  assert (Hst : (if size - n <? 0 then 0 else size - n) = Z.max 0 (size - n)).
  { destruct (Z.ltb_spec (size - n) 0); lia. }
  rewrite Hst.
  rewrite (proj2 (rangeInvalid_false (Z.max 0 (size - n)) (size - 1) size)) by lia.
  reflexivity.
Qed.

(** C4 (amended): for a resource size [S] and a suffix length [N], both
    between 1 and the largest int64, the header [bytes=-N] parses to the
    single range [(max(0, S-N), S-1)]; so [bytes=-500] gives
    [(S-500, S-1)] when [S >= 500] and [(0, S-1)] when [S < 500]. *)
Theorem parseRange_suffix (S N : Z) :
  1 <= S <= int64.max -> 1 <= N <= int64.max ->
  parseRange ("bytes=-" +:+ strconv.FormatInt N) S
  = Ok [ {| start := Z.max 0 (S - N); end_ := S - 1 |} ]
  /\ (500 <= S ->
      parseRange "bytes=-500" S = Ok [ {| start := S - 500; end_ := S - 1 |} ])
  /\ (S < 500 ->
      parseRange "bytes=-500" S = Ok [ {| start := 0; end_ := S - 1 |} ]).
Proof.
  intros HS HN.
  assert (Hgen : forall n, 1 <= n <= int64.max ->
            parseRange ("bytes=-" +:+ strconv.FormatInt n) S
            = Ok [ {| start := Z.max 0 (S - n); end_ := S - 1 |} ]).
  { intros n Hn.
    destruct (FormatInt_digits n ltac:(lia)) as (c & r & E & Hd).
    pose proof (ParseInt_FormatInt n ltac:(lia)) as Hp.
    rewrite E in *.
    exact (parseRange_suffix_digits _ S n Hd Hp HS Hn). }
  split; [exact (Hgen N HN)|].
  pose proof (Hgen 500 ltac:(unfold int64.max; lia)) as H500.
  change ("bytes=-" +:+ strconv.FormatInt 500) with "bytes=-500" in H500.
  split; intros H; rewrite H500; do 3 f_equal; lia.
Qed.

Lemma parseRange_suffix_witness :
  parseRange ("bytes=-" +:+ strconv.FormatInt 300) 1000
  = Ok [ {| start := Z.max 0 (1000 - 300); end_ := 1000 - 1 |} ]
  /\ (500 <= 1000 ->
      parseRange "bytes=-500" 1000 = Ok [ {| start := 1000 - 500; end_ := 1000 - 1 |} ])
  /\ (1000 < 500 ->
      parseRange "bytes=-500" 1000 = Ok [ {| start := 0; end_ := 1000 - 1 |} ]).
Proof.
  apply (parseRange_suffix 1000 300); unfold int64.max; lia.
Defined.

(** The claim fails for a suffix length that does not fit an int64:
    ParseInt reports a range error and the whole header is refused. *)
Lemma parseRange_suffix_too_long :
  1 <= 1 /\ 1 <= 2 ^ 63
  /\ strconv.FormatInt (2 ^ 63) = "9223372036854775808"
  /\ parseRange ("bytes=-" +:+ strconv.FormatInt (2 ^ 63)) 1
     = Err (NumError strconv.ErrRange)
  /\ parseRange ("bytes=-" +:+ strconv.FormatInt (2 ^ 63)) 1
     <> Ok [ {| start := Z.max 0 (1 - 2 ^ 63); end_ := 1 - 1 |} ].
Proof.
  split; [lia|]. split; [lia|]. split; [vm_compute; reflexivity|].
  assert (H : parseRange ("bytes=-" +:+ strconv.FormatInt (2 ^ 63)) 1
              = Err (NumError strconv.ErrRange)) by (vm_compute; reflexivity).
  split; [exact H|]. rewrite H. discriminate.
Qed.

(** ** Paths: examples *)

Example Clean_ex1 : filepath.Clean "/srv/files/../../etc/passwd" = "/etc/passwd".
Proof. vm_compute. reflexivity. Qed.

Example Clean_ex2 : filepath.Clean "a//b/./c/.." = "a/b".
Proof. vm_compute. reflexivity. Qed.

Example Clean_ex3 : filepath.Clean "../../a/.." = "../..".
Proof. vm_compute. reflexivity. Qed.

Example Clean_ex4 : filepath.Clean "/.." = "/" /\ filepath.Clean "a/.." = "."
                    /\ filepath.Clean "/" = "/" /\ filepath.Clean "//a//" = "/a".
Proof. vm_compute. auto. Qed.

Example Join_ex1 : filepath.Join ["/root"; "../root2"] = "/root2".
Proof. vm_compute. reflexivity. Qed.

Example Join_ex2 : filepath.Join ["/root"; ""] = "/root" /\ filepath.Join [""; "a"] = "a".
Proof. vm_compute. auto. Qed.

Example Base_ex : filepath.Base "../../etc/passwd" = "passwd"
                  /\ filepath.Base "a/b/" = "b" /\ filepath.Base "///" = "/"
                  /\ filepath.Base "" = "." /\ filepath.Base "a/.." = "..".
Proof. vm_compute. auto 10. Qed.

Example Dir_ex : filepath.Dir "a/b" = "a" /\ filepath.Dir "a" = "."
                 /\ filepath.Dir "/a" = "/" /\ filepath.Dir "/a/b/" = "/a/b".
Proof. vm_compute. auto 10. Qed.

(** ** Downloads *)

Lemma securityCheck_None env sys path w msg w' msg' :
  securityCheck env sys path w msg = None ->
  securityCheck env sys path w' msg' = None.
Proof.
  unfold securityCheck.
  destruct (filepath.Abs (os.Getwd sys) path) as [cleanPath|e]; [|discriminate].
  destruct (negb _); [discriminate | reflexivity].
Qed.

Lemma servesFile_withMethod env sys r file S m :
  servesFile env sys r file S -> servesFile env sys (withMethod m r) file S.
Proof.
  unfold servesFile, downloadPath. cbn [withMethod http.URL_Path].
  intros (Hc & Ho & Hi & Hs). split; [|split; [|split]]; try assumption.
  exact (securityCheck_None _ _ _ _ _ _ _ Hc).
Qed.

Lemma string_eqb_eq a b : string_eqb a b = true <-> a = b.
Proof. apply String.eqb_eq. Qed.

Lemma string_eqb_neq a b : string_eqb a b = false <-> a <> b.
Proof. apply String.eqb_neq. Qed.

Lemma string_eqb_refl a : string_eqb a a = true.
Proof. apply String.eqb_refl. Qed.

Lemma downloadHandler_served env sys r file S :
  http.Method r = "GET" \/ http.Method r = "HEAD" ->
  servesFile env sys r file S ->
  downloadHandler env sys r = sendFile r file S (commonHeaders env r).
Proof.
  intros Hm (Hc & Ho & (info & Hstat & Hdir & Hsize) & _).
  unfold downloadHandler, commonHeaders. fold (downloadPath env r).
  assert (Hmeth : negb (string_eqb (http.Method r) http.MethodGet)
                  && negb (string_eqb (http.Method r) http.MethodHead) = false).
  { destruct Hm as [-> | ->]; reflexivity. }
  rewrite Hmeth, Hc, Ho, Hstat, Hdir, Hsize.
  destruct (mimePolicy env (downloadPath env r)) as [contentType disposition].
  reflexivity.
Qed.

Ltac http_simpl :=
  cbn [http.Header_Set http.Header_Del http.WriteHeader http.Write http.Error
       http.NewResponseWriter http.status http.header http.body http.bodyAllowed
       http.StatusOK http.StatusPartialContent
       http.StatusRequestedRangeNotSatisfiable http.StatusInternalServerError
       Z.eqb Pos.eqb negb].

(** C6: a download without Range header answers 200 with
    Accept-Ranges: bytes and Content-Length: S, and the whole file as
    body; the HEAD request gets the same status and headers and no
    body. *)
Theorem download_whole_file env sys r file S :
  servesFile env sys r file S ->
  http.Header_Get r "Range" = "" ->
  let get := downloadHandler env sys (withMethod "GET" r) in
  let head := downloadHandler env sys (withMethod "HEAD" r) in
  http.status get = 200
  /\ http.header get !! "Accept-Ranges" = Some "bytes"
  /\ http.header get !! "Content-Length" = Some (strconv.FormatInt S)
  /\ http.body get = os.contents file
  /\ http.status head = 200
  /\ http.header head = http.header get
  /\ http.body head = "".
Proof.
  intros Hs Hr get head.
  pose proof (downloadHandler_served env sys (withMethod "GET" r) file S
     ltac:(left; reflexivity) (servesFile_withMethod _ _ _ _ _ _ Hs)) as Hget.
  pose proof (downloadHandler_served env sys (withMethod "HEAD" r) file S
     ltac:(right; reflexivity) (servesFile_withMethod _ _ _ _ _ _ Hs)) as Hhead.
  subst get head. rewrite Hget, Hhead. unfold sendFile, commonHeaders.
  change (http.Header_Get (withMethod "GET" r) "Range") with (http.Header_Get r "Range").
  change (http.Header_Get (withMethod "HEAD" r) "Range") with (http.Header_Get r "Range").
  rewrite Hr.
  change (string_eqb "" "") with true.
  change (string_eqb (http.Method (withMethod "GET" r)) http.MethodHead) with false.
  change (string_eqb (http.Method (withMethod "HEAD" r)) http.MethodHead) with true.
  change (downloadPath env (withMethod "GET" r)) with (downloadPath env r).
  change (downloadPath env (withMethod "HEAD" r)) with (downloadPath env r).
  http_simpl. cbn [withMethod http.Method].
  change (string_eqb "GET" http.MethodHead) with false. cbn [negb].
  split; [reflexivity|]. split; [by simplify_map_eq|]. split; [by simplify_map_eq|].
  split; [reflexivity|]. split; [reflexivity|]. split; reflexivity.
Qed.

Lemma demo_servesFile_notes range :
  servesFile demoEnv demoSys (request "GET" "/download/notes.txt" range)
    (regular "notes.txt" "hello world") 11.
Proof.
  split; [|split; [|split; [|split]]].
  - vm_compute. reflexivity.
  - vm_compute. reflexivity.
  - eexists. split; [reflexivity|]. split; reflexivity.
  - reflexivity.
  - vm_compute. discriminate.
Defined.

Lemma download_whole_file_witness :
  let r := request "GET" "/download/notes.txt" "" in
  let get := downloadHandler demoEnv demoSys (withMethod "GET" r) in
  let head := downloadHandler demoEnv demoSys (withMethod "HEAD" r) in
  http.status get = 200
  /\ http.header get !! "Accept-Ranges" = Some "bytes"
  /\ http.header get !! "Content-Length" = Some (strconv.FormatInt 11)
  /\ http.body get = "hello world"
  /\ http.status head = 200
  /\ http.header head = http.header get
  /\ http.body head = "".
Proof.
  exact (download_whole_file demoEnv demoSys (request "GET" "/download/notes.txt" "")
           (regular "notes.txt" "hello world") 11
           (demo_servesFile_notes "") eq_refl).
Defined.

Lemma length_substring s : forall n m,
  (n + m <= String.length s)%nat -> String.length (String.substring n m s) = m.
Proof.
  induction s as [|c r IH]; intros n m H.
  - simpl in H. assert (n = 0%nat) by lia. assert (m = 0%nat) by lia. subst. reflexivity.
  - destruct n as [|n]; cbn [String.substring].
    + destruct m as [|m]; [reflexivity|]. cbn [String.length] in *. f_equal.
      apply IH. lia.
    + apply IH. cbn [String.length] in H. lia.
Qed.

Lemma single_range_bounds s S st en :
  parseRange s S = Ok [ {| start := st; end_ := en |} ] -> 0 <= st <= en /\ en < S.
Proof.
  intros H. apply parseRange_valid in H. inversion H as [|? ? Hv _]; subst.
  unfold rangeValid in Hv. cbn [start end_] in Hv. lia.
Qed.

Lemma parseRange_header_nonempty s S ranges :
  parseRange s S = Ok ranges -> string_eqb s "" = false.
Proof. destruct s; [discriminate | reflexivity]. Qed.

Lemma contentLength_exact st en S :
  0 <= st <= en -> en < S -> S <= int64.max ->
  int64.add (int64.sub en st) 1 = en - st + 1.
Proof.
  unfold int64.max. intros H1 H2 H3. unfold int64.add, int64.sub.
  rewrite (int64_wrap_small (en - st))
    by (unfold int64.in_range, int64.min, int64.max; lia).
  apply int64_wrap_small. unfold int64.in_range, int64.min, int64.max. lia.
Qed.

(** C2: when the Range header parses to the single range (start, end),
    the download answers 206 with Content-Range: bytes start-end/S and
    Content-Length: end-start+1; the body of the GET reply has exactly
    end-start+1 bytes, those of the file from offset start to offset end;
    the HEAD reply has the same status and headers and no body. *)
Theorem download_single_range env sys r file S st en :
  servesFile env sys r file S ->
  parseRange (http.Header_Get r "Range") S = Ok [ {| start := st; end_ := en |} ] ->
  let get := downloadHandler env sys (withMethod "GET" r) in
  let head := downloadHandler env sys (withMethod "HEAD" r) in
  (0 <= st <= en /\ en < S)
  /\ http.status get = 206
  /\ http.header get !! "Content-Range"
     = Some ("bytes " +:+ strconv.FormatInt st +:+ "-" +:+ strconv.FormatInt en
             +:+ "/" +:+ strconv.FormatInt S)
  /\ http.header get !! "Content-Length" = Some (strconv.FormatInt (en - st + 1))
  /\ len (http.body get) = en - st + 1
  /\ (forall i, 0 <= i < en - st + 1 ->
        String.get (Z.to_nat i) (http.body get)
        = String.get (Z.to_nat (st + i)) (os.contents file))
  /\ http.status head = 206
  /\ http.header head = http.header get
  /\ http.body head = "".
Proof.
  intros Hs Hp get head.
  pose proof (single_range_bounds _ _ _ _ Hp) as Hb.
  pose proof (parseRange_header_nonempty _ _ _ Hp) as Hne.
  pose proof (downloadHandler_served env sys (withMethod "GET" r) file S
     ltac:(left; reflexivity) (servesFile_withMethod _ _ _ _ _ _ Hs)) as Hget.
  pose proof (downloadHandler_served env sys (withMethod "HEAD" r) file S
     ltac:(right; reflexivity) (servesFile_withMethod _ _ _ _ _ _ Hs)) as Hhead.
  destruct Hs as (_ & _ & _ & HS & Hmax).
  subst get head. rewrite Hget, Hhead. unfold sendFile, commonHeaders.
  change (http.Header_Get (withMethod "GET" r) "Range") with (http.Header_Get r "Range").
  change (http.Header_Get (withMethod "HEAD" r) "Range") with (http.Header_Get r "Range").
  rewrite Hne, Hp. cbn [start end_].
  rewrite (contentLength_exact st en S) by tauto.
  unfold os.Seek. rewrite (proj2 (Z.ltb_ge st 0)) by lia.
  change (downloadPath env (withMethod "GET" r)) with (downloadPath env r).
  change (downloadPath env (withMethod "HEAD" r)) with (downloadPath env r).
  http_simpl. cbn [withMethod http.Method].
  change (string_eqb "GET" http.MethodHead) with false.
  change (string_eqb "HEAD" http.MethodHead) with true.
  cbn [negb]. http_simpl. rewrite append_Empty.
  split; [exact Hb|]. split; [reflexivity|].
  split; [by simplify_map_eq|]. split; [by simplify_map_eq|].
  assert (Hlen : (Z.to_nat st + Z.to_nat (en - st + 1) <= String.length (os.contents file))%nat).
  { unfold len in HS. lia. }
  split; [|split; [|split; [reflexivity | split; reflexivity]]].
  - unfold len, os.readAt. rewrite length_substring by exact Hlen. lia.
  - intros i Hi. unfold os.readAt.
    rewrite String.substring_correct1 by lia.
    f_equal. lia.
Qed.

Lemma demo_servesFile_empty range :
  servesFile demoEnv demoSys (request "GET" "/download/empty.txt" range)
    (regular "empty.txt" "") 0.
Proof.
  split; [|split; [|split; [|split]]].
  - vm_compute. reflexivity.
  - vm_compute. reflexivity.
  - eexists. split; [reflexivity|]. split; reflexivity.
  - reflexivity.
  - vm_compute. discriminate.
Defined.

Lemma download_single_range_witness :
  let r := request "GET" "/download/notes.txt" "bytes=6-10" in
  let get := downloadHandler demoEnv demoSys (withMethod "GET" r) in
  let head := downloadHandler demoEnv demoSys (withMethod "HEAD" r) in
  (0 <= 6 <= 10 /\ 10 < 11)
  /\ http.status get = 206
  /\ http.header get !! "Content-Range"
     = Some ("bytes " +:+ strconv.FormatInt 6 +:+ "-" +:+ strconv.FormatInt 10
             +:+ "/" +:+ strconv.FormatInt 11)
  /\ http.header get !! "Content-Length" = Some (strconv.FormatInt (10 - 6 + 1))
  /\ len (http.body get) = 10 - 6 + 1
  /\ (forall i, 0 <= i < 10 - 6 + 1 ->
        String.get (Z.to_nat i) (http.body get)
        = String.get (Z.to_nat (6 + i)) "hello world")
  /\ http.status head = 206
  /\ http.header head = http.header get
  /\ http.body head = "".
Proof.
  apply (download_single_range demoEnv demoSys
           (request "GET" "/download/notes.txt" "bytes=6-10")
           (regular "notes.txt" "hello world") 11 6 10).
  - exact (demo_servesFile_notes "bytes=6-10").
  - vm_compute. reflexivity.
Defined.

Example download_single_range_run :
  http.body (downloadHandler demoEnv demoSys
               (request "GET" "/download/notes.txt" "bytes=6-10")) = "world".
Proof. vm_compute. reflexivity. Qed.

(** The refusal of a range: status, Content-Range and the message. *)
Lemma sendFile_refused r file S w :
  http.status w = 0 ->
  string_eqb (http.Header_Get r "Range") "" = false ->
  (forall range, parseRange (http.Header_Get r "Range") S <> Ok [range]) ->
  let w' := sendFile r file S w in
  http.status w' = 416
  /\ http.header w' !! "Content-Range" = Some ("bytes */" +:+ strconv.FormatInt S)
  /\ http.body w'
     = if http.bodyAllowed w then http.body w +:+ ("Invalid range" +:+ http.newline)
       else http.body w.
Proof.
  intros Hst Hne Hnot. unfold sendFile. rewrite Hne.
  assert (Hrefuse :
    forall w1, http.status w1 = 0 ->
      http.status (http.Error w1 "Invalid range" http.StatusRequestedRangeNotSatisfiable) = 416
      /\ http.header (http.Error w1 "Invalid range" http.StatusRequestedRangeNotSatisfiable)
         = <["X-Content-Type-Options" := "nosniff"]>
             (<["Content-Type" := "text/plain; charset=utf-8"]>
                (delete "Content-Length" (http.header w1)))
      /\ http.body (http.Error w1 "Invalid range" http.StatusRequestedRangeNotSatisfiable)
         = if http.bodyAllowed w1 then http.body w1 +:+ ("Invalid range" +:+ http.newline)
           else http.body w1).
  { intros [h s b a] Hs. cbn [http.status] in Hs. subst s. http_simpl. auto. }
  assert (Hset : forall k v, http.status (http.Header_Set k v w) = 0
                             /\ http.header (http.Header_Set k v w) = <[k := v]> (http.header w)
                             /\ http.body (http.Header_Set k v w) = http.body w
                             /\ http.bodyAllowed (http.Header_Set k v w) = http.bodyAllowed w).
  { intros k v. unfold http.Header_Set. rewrite Hst. cbn. auto. }
  set (w1 := http.Header_Set "Content-Range" ("bytes */" +:+ strconv.FormatInt S) w).
  destruct (Hset "Content-Range" ("bytes */" +:+ strconv.FormatInt S)) as (H1 & H2 & H3 & H4).
  fold w1 in H1, H2, H3, H4.
  destruct (Hrefuse w1 H1) as (R1 & R2 & R3).
  assert (Hall : let w' := http.Error w1 "Invalid range" http.StatusRequestedRangeNotSatisfiable in
            http.status w' = 416
            /\ http.header w' !! "Content-Range" = Some ("bytes */" +:+ strconv.FormatInt S)
            /\ http.body w'
               = if http.bodyAllowed w then http.body w +:+ ("Invalid range" +:+ http.newline)
                 else http.body w).
  { cbv zeta. rewrite R1, R2, R3, H2, H3, H4. split; [reflexivity|]. split; [|reflexivity].
    rewrite lookup_insert_ne by discriminate. rewrite lookup_insert_ne by discriminate.
    rewrite lookup_delete_ne by discriminate. apply lookup_insert_eq. }
  destruct (parseRange (http.Header_Get r "Range") S) as [[|range [|? ?]]|e] eqn:E;
    try exact Hall.
  exfalso. exact (Hnot range eq_refl).
Qed.

Lemma commonHeaders_fresh env r :
  http.status (commonHeaders env r) = 0
  /\ http.body (commonHeaders env r) = ""
  /\ http.bodyAllowed (commonHeaders env r) = negb (string_eqb (http.Method r) http.MethodHead).
Proof. unfold commonHeaders. http_simpl. auto. Qed.

(** C5 (amended): a download whose Range header has a non-empty value
    that does not parse, or parses to a number of ranges other than
    one, answers 416 with Content-Range: bytes */S; the body of the GET
    reply is the plain text message [Invalid range] and a newline, that
    of the HEAD reply is empty. *)
Theorem download_range_refused env sys r file S :
  servesFile env sys r file S ->
  http.Header_Get r "Range" <> "" ->
  (forall range, parseRange (http.Header_Get r "Range") S <> Ok [range]) ->
  let get := downloadHandler env sys (withMethod "GET" r) in
  let head := downloadHandler env sys (withMethod "HEAD" r) in
  http.status get = 416
  /\ http.header get !! "Content-Range" = Some ("bytes */" +:+ strconv.FormatInt S)
  /\ http.body get = "Invalid range" +:+ http.newline
  /\ http.status head = 416
  /\ http.header head !! "Content-Range" = Some ("bytes */" +:+ strconv.FormatInt S)
  /\ http.body head = "".
Proof.
  intros Hs Hne Hnot get head.
  assert (Hne' : string_eqb (http.Header_Get r "Range") "" = false).
  { destruct (string_eqb _ _) eqn:E; [|reflexivity].
    apply string_eqb_eq in E. contradiction. }
  pose proof (downloadHandler_served env sys (withMethod "GET" r) file S
     ltac:(left; reflexivity) (servesFile_withMethod _ _ _ _ _ _ Hs)) as Hget.
  pose proof (downloadHandler_served env sys (withMethod "HEAD" r) file S
     ltac:(right; reflexivity) (servesFile_withMethod _ _ _ _ _ _ Hs)) as Hhead.
  subst get head. rewrite Hget, Hhead.
  destruct (commonHeaders_fresh env (withMethod "GET" r)) as (G1 & G2 & G3).
  destruct (commonHeaders_fresh env (withMethod "HEAD" r)) as (H1 & H2 & H3).
  destruct (sendFile_refused (withMethod "GET" r) file S _ G1 Hne' Hnot) as (A1 & A2 & A3).
  destruct (sendFile_refused (withMethod "HEAD" r) file S _ H1 Hne' Hnot) as (B1 & B2 & B3).
  rewrite G2, G3 in A3. rewrite H2, H3 in B3.
  repeat (split; [assumption|]). assumption.
Qed.

Lemma download_range_refused_witness :
  let r := request "GET" "/download/notes.txt" "bytes=5-1, 2-3" in
  let get := downloadHandler demoEnv demoSys (withMethod "GET" r) in
  let head := downloadHandler demoEnv demoSys (withMethod "HEAD" r) in
  http.status get = 416
  /\ http.header get !! "Content-Range" = Some ("bytes */" +:+ strconv.FormatInt 11)
  /\ http.body get = "Invalid range" +:+ http.newline
  /\ http.status head = 416
  /\ http.header head !! "Content-Range" = Some ("bytes */" +:+ strconv.FormatInt 11)
  /\ http.body head = "".
Proof.
  apply (download_range_refused demoEnv demoSys
           (request "GET" "/download/notes.txt" "bytes=5-1, 2-3")
           (regular "notes.txt" "hello world") 11).
  - exact (demo_servesFile_notes "bytes=5-1, 2-3").
  - vm_compute. discriminate.
  - intros range. vm_compute. discriminate.
Defined.

(** The body of a refused range is not empty: the reply to a GET
    carries the message of [http.Error]. *)
Lemma download_range_refused_body :
  let r := request "GET" "/download/notes.txt" "bytes=20-30" in
  servesFile demoEnv demoSys r (regular "notes.txt" "hello world") 11
  /\ http.Header_Get r "Range" = "bytes=20-30"
  /\ parseRange "bytes=20-30" 11 = Err InvalidRange
  /\ http.status (downloadHandler demoEnv demoSys r) = 416
  /\ http.body (downloadHandler demoEnv demoSys r) <> "".
Proof.
  split; [exact (demo_servesFile_notes "bytes=20-30")|].
  vm_compute. repeat split; discriminate.
Qed.

(** ** Empty resources *)

Lemma parseSpec_size0 spec : exists e, parseSpec spec 0 = Err e.
Proof.
  unfold parseSpec.
  destruct (strings.Split (strings.TrimSpace spec) "-") as [|p0 [|p1 [|? ?]]]; eauto.
  destruct (specBounds p0 p1 0) as [[st en]|e]; eauto.
  assert (H : rangeInvalid st en 0 = true).
  { unfold rangeInvalid. destruct (Z.ltb_spec st 0) as [H|H]; [reflexivity|].
    cbn [orb]. rewrite (proj2 (Z.geb_le st 0)) by lia. reflexivity. }
  rewrite H. eauto.
Qed.

Lemma parseRange_size0 s : exists e, parseRange s 0 = Err e.
Proof.
  unfold parseRange. destruct (strings.HasPrefix s "bytes="); cbn [negb]; eauto.
  pose proof (Split_nonempty (strings.TrimPrefix s "bytes=") ",") as Hne.
  destruct (strings.Split (strings.TrimPrefix s "bytes=") ",") as [|spec rest];
    [congruence|].
  cbn [parseRange_loop]. destruct (parseSpec_size0 spec) as [e ->]. eauto.
Qed.

Lemma parseRange_suffix0 size :
  int64.in_range size -> parseRange "bytes=-0" size = Err InvalidRange.
Proof.
  intros Hr. unfold parseRange.
  change (strings.HasPrefix "bytes=-0" "bytes=") with true. cbn [negb].
  change (strings.Split (strings.TrimPrefix "bytes=-0" "bytes=") ",") with ["-0"].
  cbn [parseRange_loop]. unfold parseSpec.
  change (strings.Split (strings.TrimSpace "-0") "-") with [EmptyString; "0"].
  unfold specBounds. change (string_eqb EmptyString "") with true. cbv iota.
  change (strconv.ParseInt "0") with (@Ok strconv.NumError Z 0).
  unfold int64.sub. rewrite Z.sub_0_r, (int64_wrap_small size Hr).
  assert (H : rangeInvalid (if size <? 0 then 0 else size)
                (int64.wrap (size - 1)) size = true).
  { unfold rangeInvalid. destruct (Z.ltb_spec size 0) as [H|H].
    - cbn [Z.ltb Z.compare orb]. rewrite (proj2 (Z.geb_le 0 size)) by lia. reflexivity.
    - rewrite (proj2 (Z.geb_le size size)) by lia. apply orb_true_iff. left.
      apply orb_true_iff. left. apply orb_true_r. }
  rewrite H. reflexivity.
Qed.

(** C10: on a resource of size 0 parseRange fails for every header
    value; the suffix spec [bytes=-0] fails for every size; so a
    download of an empty file with a (non-empty) Range header answers
    416. *)
Theorem empty_resource_unsatisfiable :
  (forall s, exists e, parseRange s 0 = Err e)
  /\ (forall size, int64.in_range size -> exists e, parseRange "bytes=-0" size = Err e)
  /\ (forall env sys r file,
         servesFile env sys r file 0 ->
         http.Header_Get r "Range" <> "" ->
         http.status (downloadHandler env sys (withMethod "GET" r)) = 416
         /\ http.status (downloadHandler env sys (withMethod "HEAD" r)) = 416).
Proof.
  split; [exact parseRange_size0|].
  split; [intros size Hr; rewrite (parseRange_suffix0 size Hr); eauto|].
  intros env sys r file Hs Hne.
  assert (Hne' : string_eqb (http.Header_Get r "Range") "" = false).
  { destruct (string_eqb _ _) eqn:E; [|reflexivity].
    apply string_eqb_eq in E. contradiction. }
  assert (Hnot : forall range, parseRange (http.Header_Get r "Range") 0 <> Ok [range]).
  { intros range. destruct (parseRange_size0 (http.Header_Get r "Range")) as [e ->].
    discriminate. }
  rewrite (downloadHandler_served env sys (withMethod "GET" r) file 0
     ltac:(left; reflexivity) (servesFile_withMethod _ _ _ _ _ _ Hs)).
  rewrite (downloadHandler_served env sys (withMethod "HEAD" r) file 0
     ltac:(right; reflexivity) (servesFile_withMethod _ _ _ _ _ _ Hs)).
  destruct (commonHeaders_fresh env (withMethod "GET" r)) as (G1 & _).
  destruct (commonHeaders_fresh env (withMethod "HEAD" r)) as (H1 & _).
  split.
  - exact (proj1 (sendFile_refused (withMethod "GET" r) file 0 _ G1 Hne' Hnot)).
  - exact (proj1 (sendFile_refused (withMethod "HEAD" r) file 0 _ H1 Hne' Hnot)).
Qed.

Lemma empty_resource_unsatisfiable_witness :
  (exists e, parseRange "bytes=-0" 1000 = Err e)
  /\ http.status (downloadHandler demoEnv demoSys
                    (withMethod "GET" (request "GET" "/download/empty.txt" "bytes=0-"))) = 416
  /\ http.status (downloadHandler demoEnv demoSys
                    (withMethod "HEAD" (request "GET" "/download/empty.txt" "bytes=0-"))) = 416.
Proof.
  split.
  - apply (proj1 (proj2 empty_resource_unsatisfiable) 1000).
    unfold int64.in_range, int64.min, int64.max. lia.
  - apply (proj2 (proj2 empty_resource_unsatisfiable) demoEnv demoSys
             (request "GET" "/download/empty.txt" "bytes=0-") (regular "empty.txt" "")).
    + exact (demo_servesFile_empty "bytes=0-").
    + vm_compute. discriminate.
Defined.

(** A Range header whose value is empty is no Range request to the
    handler: [r.Header.Get] gives the empty string, as it does without
    the header, and the empty file is served whole with 200. *)
Lemma empty_range_value_served :
  let r := {| http.Method := "GET"; http.URL_Path := "/download/empty.txt";
              http.Query := []; http.Header := {[ "Range" := [EmptyString] ]};
              http.Multipart := None |} in
  servesFile demoEnv demoSys r (regular "empty.txt" EmptyString) 0
  /\ http.Header r !! "Range" = Some [EmptyString]
  /\ http.Header_Get r "Range" = EmptyString
  /\ http.status (downloadHandler demoEnv demoSys r) = 200
  /\ http.body (downloadHandler demoEnv demoSys r) = EmptyString.
Proof.
  cbv zeta. split.
  - split; [|split; [|split; [|split]]].
    + vm_compute. reflexivity.
    + vm_compute. reflexivity.
    + eexists. split; [reflexivity|]. split; reflexivity.
    + reflexivity.
    + vm_compute. discriminate.
  - vm_compute. repeat split; reflexivity.
Qed.

(** ** The containment check *)

(** The check lets a path through exactly when the cleaned working
    directory is a prefix of the cleaned path, as strings. *)
Lemma securityCheck_prefix env sys path w msg cleanPath cleanWorkingDir :
  filepath.Abs (os.Getwd sys) path = Ok cleanPath ->
  filepath.Abs (os.Getwd sys) (workingDir env) = Ok cleanWorkingDir ->
  securityCheck env sys path w msg
  = if strings.HasPrefix cleanPath cleanWorkingDir then None
    else Some (http.Error w "Access denied" http.StatusForbidden).
Proof.
  intros Hp Hw. unfold securityCheck. rewrite Hp, Hw.
  destruct (strings.HasPrefix cleanPath cleanWorkingDir); reflexivity.
Qed.

(** ** Directory listings *)

Lemma listFiles_omap requestedPath : forall entries files,
  listFiles requestedPath entries files
  = files ++ omap (fileInfoOf requestedPath) entries.
Proof.
  induction entries as [|entry rest IH]; intros files; cbn [listFiles omap list_omap].
  - rewrite app_nil_r. reflexivity.
  - unfold fileInfoOf at 1. destruct (os.Info entry) as [entryInfo|e].
    + rewrite IH, <- app_assoc. reflexivity.
    + apply IH.
Qed.

Lemma browseHandler_listing env sys r info entries :
  http.Method r = "GET" ->
  securityCheck env sys (browsePath env r) (http.NewResponseWriter r) "Invalid path" = None ->
  os.StatPath sys (browsePath env r) = Ok info -> os.IsDir info = true ->
  os.ReadDir sys (browsePath env r) = Ok entries ->
  browseHandler env sys r
  = renderPage env "browse.html"
      (Some (listingPage (browseRelPath r) (listFiles (browseRelPath r) entries [])))
      (http.Header_Set "Content-Type" "text/html; charset=utf-8" (http.NewResponseWriter r)).
Proof.
  intros Hm Hc Hst Hd Hrd. unfold browseHandler.
  fold (browseRelPath r). fold (browsePath env r).
  rewrite Hm, Hc, Hst, Hd, Hrd. reflexivity.
Qed.

(** C9: the listing holds one entry for each directory entry whose
    metadata can be read, in order, and none for the others; the page
    is rendered from it and the reply is 200 whatever entries cannot be
    read; an empty directory gives the empty listing. *)
Theorem listing_skips_unreadable env sys r info entries :
  http.Method r = "GET" ->
  securityCheck env sys (browsePath env r) (http.NewResponseWriter r) "Invalid path" = None ->
  os.StatPath sys (browsePath env r) = Ok info -> os.IsDir info = true ->
  os.ReadDir sys (browsePath env r) = Ok entries ->
  let files := listFiles (browseRelPath r) entries [] in
  files = omap (fileInfoOf (browseRelPath r)) entries
  /\ (forall entry, In entry entries -> is_ok (os.Info entry) = true ->
        exists f, In f files /\ fileInfoOf (browseRelPath r) entry = Some f
                  /\ Name f = os.entryName entry)
  /\ (forall f, In f files ->
        exists entry, In entry entries /\ is_ok (os.Info entry) = true
                      /\ Name f = os.entryName entry)
  /\ (entries = [] -> files = [])
  /\ (forall page,
        ExecuteTemplate env "browse.html" (Some (listingPage (browseRelPath r) files)) = Ok page ->
        http.status (browseHandler env sys r) = 200
        /\ http.body (browseHandler env sys r) = page).
Proof.
  intros Hm Hc Hst Hd Hrd files.
  assert (Hfiles : files = omap (fileInfoOf (browseRelPath r)) entries).
  { subst files. rewrite listFiles_omap. reflexivity. }
  split; [exact Hfiles|]. split; [|split; [|split]].
  - intros entry Hin Hok. unfold fileInfoOf at 1.
    destruct (os.Info entry) as [entryInfo|e] eqn:E; [|discriminate].
    eexists. split; [|split; reflexivity].
    rewrite Hfiles. apply list_elem_of_In, list_elem_of_omap.
    exists entry. split; [apply list_elem_of_In, Hin|].
    unfold fileInfoOf. rewrite E. reflexivity.
  - intros f Hin. rewrite Hfiles in Hin.
    apply list_elem_of_In, list_elem_of_omap in Hin as (entry & Hin & Hf).
    exists entry. split; [apply list_elem_of_In, Hin|].
    unfold fileInfoOf in Hf. destruct (os.Info entry); [|discriminate].
    injection Hf as <-. split; reflexivity.
  - intros ->. reflexivity.
  - intros page Hpage.
    rewrite (browseHandler_listing env sys r info entries Hm Hc Hst Hd Hrd).
    fold files. unfold renderPage. rewrite Hpage.
    assert (Hget : http.bodyAllowed (http.NewResponseWriter r) = true).
    { cbn [http.NewResponseWriter http.bodyAllowed]. rewrite Hm. reflexivity. }
    http_simpl. rewrite Hm. cbn. auto.
Qed.

Lemma listing_skips_unreadable_witness :
  let r := request "GET" "/" "" in
  map Name (listFiles (browseRelPath r)
              match os.ReadDir demoSys "/srv/files" with Ok es => es | Err _ => [] end [])
  = ["empty.txt"; "notes.txt"]
  /\ http.status (browseHandler demoEnv demoSys r) = 200.
Proof.
  pose proof (listing_skips_unreadable demoEnv demoSys (request "GET" "/" "")
                (directory "files") _ eq_refl eq_refl eq_refl eq_refl eq_refl) as H.
  split; [reflexivity|].
  exact (proj1 (proj2 (proj2 (proj2 (proj2 H))) "browse.html" eq_refl)).
Defined.

(** ** Paths *)

Lemma Split_app_sep sep b : forall a,
  strings.Split (a +:+ String sep b) sep = strings.Split a sep ++ strings.Split b sep.
Proof.
  induction a as [|c a IH].
  - rewrite append_Empty. apply Split_sep_first.
  - rewrite append_String. cbn [strings.Split]. rewrite IH.
    destruct (Ascii.eqb c sep); [reflexivity|].
    pose proof (Split_nonempty a sep) as Hne.
    destruct (strings.Split a sep) as [|w ws]; [congruence | reflexivity].
Qed.

Lemma Split_elems_no_sep sep : forall s,
  Forall (fun e => contains_byte sep e = false) (strings.Split s sep).
Proof.
  induction s as [|c r IH]; cbn [strings.Split].
  - constructor; [reflexivity | constructor].
  - destruct (Ascii.eqb c sep) eqn:E.
    + constructor; [reflexivity | exact IH].
    + destruct (strings.Split r sep) as [|w ws].
      * constructor; [|constructor]. cbn [contains_byte]. rewrite E. reflexivity.
      * inversion IH as [|? ? Hw Hws]; subst.
        constructor; [|exact Hws]. cbn [contains_byte]. rewrite E. exact Hw.
Qed.

Lemma isName_spec e :
  isName e = true <->
  e <> "" /\ e <> "." /\ e <> ".." /\ contains_byte "/" e = false.
Proof.
  unfold isName, filepath.Separator.
  rewrite !andb_true_iff, !negb_true_iff.
  rewrite !string_eqb_neq. tauto.
Qed.

Lemma joinSep_cons e es :
  es <> [] -> filepath.joinSep (e :: es) = e +:+ String "/" (filepath.joinSep es).
Proof. destruct es; [congruence | reflexivity]. Qed.

Lemma append_assoc (a b c : string) : (a +:+ b) +:+ c = a +:+ (b +:+ c).
Proof. induction a as [|x a IH]; [reflexivity|]. rewrite !append_String, IH. reflexivity. Qed.

Lemma append_Empty_r (a : string) : a +:+ "" = a.
Proof. induction a as [|x a IH]; [reflexivity|]. rewrite append_String, IH. reflexivity. Qed.

Lemma joinSep_snoc es n :
  es <> [] ->
  filepath.joinSep (es ++ [n]) = filepath.joinSep es +:+ String "/" n.
Proof.
  induction es as [|e es IH]; [congruence|]. intros _.
  destruct es as [|e' es].
  - reflexivity.
  - change ((e :: e' :: es) ++ [n]) with (e :: ((e' :: es) ++ [n])).
    rewrite joinSep_cons by (destruct es; discriminate).
    rewrite IH by discriminate.
    rewrite (joinSep_cons e (e' :: es)) by discriminate.
    rewrite append_assoc, append_String. reflexivity.
Qed.

Lemma Split_joinSep es :
  es <> [] -> Forall (fun e => contains_byte "/" e = false) es ->
  strings.Split (filepath.joinSep es) "/" = es.
Proof.
  induction es as [|e es IH]; [congruence|]. intros _ Hall.
  inversion Hall as [|? ? He Hes]; subst.
  destruct es as [|e' es].
  - cbn [filepath.joinSep]. apply Split_no_sep, He.
  - rewrite joinSep_cons by discriminate.
    rewrite Split_app_sep, (Split_no_sep _ _ He), IH by (discriminate || assumption).
    reflexivity.
Qed.

Lemma isName_no_sep e : isName e = true -> contains_byte "/" e = false.
Proof. intros H. apply isName_spec in H. tauto. Qed.

Lemma cleanStep_name rooted out e :
  isName e = true -> filepath.cleanStep rooted out e = e :: out.
Proof.
  intros H. apply isName_spec in H as (H1 & H2 & H3 & _).
  unfold filepath.cleanStep.
  rewrite (proj2 (string_eqb_neq e "") H1), (proj2 (string_eqb_neq e ".") H2),
    (proj2 (string_eqb_neq e "..") H3). reflexivity.
Qed.

Lemma cleanStep_skip rooted out e :
  e = "" \/ e = "." -> filepath.cleanStep rooted out e = out.
Proof. intros [-> | ->]; reflexivity. Qed.

Lemma cleanStep_dotdot out :
  Forall (fun e => isName e = true) out ->
  filepath.cleanStep true out ".." = tl out.
Proof.
  intros H. unfold filepath.cleanStep. cbn [string_eqb String.eqb Ascii.eqb orb].
  change (string_eqb ".." "" || string_eqb ".." ".") with false.
  change (string_eqb ".." "..") with true. cbv iota.
  destruct out as [|top rest]; [reflexivity|].
  inversion H as [|? ? Htop _]; subst. apply isName_spec in Htop as (_ & _ & H3 & _).
  rewrite (proj2 (string_eqb_neq top "..") H3). reflexivity.
Qed.

Lemma fold_cleanStep_names rooted es : forall out,
  Forall (fun e => isName e = true) es ->
  fold_left (filepath.cleanStep rooted) es out = rev es ++ out.
Proof.
  induction es as [|e es IH]; intros out Hall; [reflexivity|].
  inversion Hall as [|? ? He Hes]; subst.
  cbn [fold_left rev]. rewrite (cleanStep_name rooted out e He), (IH _ Hes).
  rewrite <- app_assoc. reflexivity.
Qed.

(** The elements that [Clean] keeps of a rooted path are names. *)
Lemma fold_cleanStep_rooted elems : forall out,
  Forall (fun e => contains_byte "/" e = false) elems ->
  Forall (fun e => isName e = true) out ->
  Forall (fun e => isName e = true) (fold_left (filepath.cleanStep true) elems out).
Proof.
  induction elems as [|e elems IH]; intros out Hel Hout; [exact Hout|].
  inversion Hel as [|? ? He Hrest]; subst. cbn [fold_left]. apply IH; [exact Hrest|].
  unfold filepath.cleanStep.
  destruct (string_eqb e "") eqn:E1; [exact Hout|].
  destruct (string_eqb e ".") eqn:E2; [exact Hout|]. cbn [orb].
  destruct (string_eqb e "..") eqn:E3.
  - destruct out as [|top rest]; [constructor|].
    inversion Hout as [|? ? Htop Hr]; subst.
    apply isName_spec in Htop as (_ & _ & H3 & _).
    rewrite (proj2 (string_eqb_neq top "..") H3). exact Hr.
  - constructor; [|exact Hout].
    unfold isName. rewrite E1, E2, E3. unfold filepath.Separator. rewrite He. reflexivity.
Qed.

Lemma IsAbs_inv path : filepath.IsAbs path = true -> exists r, path = String "/" r.
Proof.
  destruct path as [|c r]; [discriminate|].
  unfold filepath.IsAbs. cbn [strings.HasPrefix].
  intros H. apply andb_true_iff in H as [H _]. apply Ascii.eqb_eq in H. subst. eauto.
Qed.

(** [Clean] of an absolute path is the absolute path of names. *)
Lemma Clean_rooted path :
  filepath.IsAbs path = true ->
  filepath.Clean path = rootedPath (filepath.cleanElems true path)
  /\ Forall (fun e => isName e = true) (filepath.cleanElems true path).
Proof.
  intros H. destruct (IsAbs_inv path H) as [r ->]. split.
  - unfold filepath.Clean. rewrite H. reflexivity.
  - unfold filepath.cleanElems. apply Forall_rev.
    apply fold_cleanStep_rooted; [apply Split_elems_no_sep | constructor].
Qed.

Lemma cleanAbs_rootedPath path :
  cleanAbs path -> exists es, Forall (fun e => isName e = true) es /\ path = rootedPath es.
Proof.
  intros [Habs Hclean]. destruct (Clean_rooted path Habs) as [Hc Hn].
  exists (filepath.cleanElems true path). split; [exact Hn | congruence].
Qed.

Lemma Split_rootedPath es :
  Forall (fun e => isName e = true) es ->
  strings.Split (rootedPath es) "/" = "" :: (if es is [] then [""] else es).
Proof.
  intros Hn. unfold rootedPath, filepath.Separator. rewrite Split_sep_first. f_equal.
  destruct es as [|e es']; [reflexivity|].
  apply Split_joinSep; [discriminate|].
  eapply Forall_impl; [exact Hn|]. intros x Hx. exact (isName_no_sep x Hx).
Qed.

(** What [Clean] makes of a clean absolute path followed by a separator
    and more elements. *)
Lemma Clean_rootedPath_app es x :
  Forall (fun e => isName e = true) es ->
  filepath.Clean (rootedPath es +:+ String "/" x)
  = rootedPath (rev (fold_left (filepath.cleanStep true) (strings.Split x "/") (rev es))).
Proof.
  intros Hn. unfold filepath.Clean, rootedPath at 1.
  rewrite append_String. fold (rootedPath es).
  change (String filepath.Separator (filepath.joinSep es +:+ String "/" x))
    with (rootedPath es +:+ String "/" x).
  assert (Habs : filepath.IsAbs (rootedPath es +:+ String "/" x) = true) by reflexivity.
  rewrite Habs. unfold rootedPath at 2. f_equal. f_equal.
  unfold filepath.cleanElems, filepath.Separator. f_equal.
  rewrite Split_app_sep, fold_left_app, (Split_rootedPath es Hn).
  f_equal. cbn [fold_left]. rewrite (cleanStep_skip true [] "") by auto.
  destruct es as [|e es']; [reflexivity|].
  rewrite (fold_cleanStep_names true (e :: es') [] Hn), app_nil_r. reflexivity.
Qed.

Lemma Clean_rootedPath es :
  Forall (fun e => isName e = true) es -> filepath.Clean (rootedPath es) = rootedPath es.
Proof.
  intros Hn.
  destruct (Clean_rooted (rootedPath es) eq_refl) as [-> _]. f_equal.
  unfold filepath.cleanElems, filepath.Separator. rewrite (Split_rootedPath es Hn).
  cbn [fold_left]. rewrite (cleanStep_skip true [] "") by auto.
  destruct es as [|e es'].
  - reflexivity.
  - rewrite (fold_cleanStep_names true (e :: es') [] Hn), app_nil_r. apply rev_involutive.
Qed.

Lemma rootedPath_nonempty es : string_eqb (rootedPath es) "" = false.
Proof. reflexivity. Qed.

Lemma Join_rootedPath es x :
  Forall (fun e => isName e = true) es ->
  filepath.Join [rootedPath es; x]
  = rootedPath (rev (fold_left (filepath.cleanStep true) (strings.Split x "/") (rev es))).
Proof.
  intros Hn. cbn [filepath.Join]. rewrite rootedPath_nonempty.
  cbn [filepath.joinSep]. apply Clean_rootedPath_app, Hn.
Qed.

(** Joining a name to a clean absolute path puts the name directly
    under it. *)
Lemma Join_rootedPath_name es n :
  Forall (fun e => isName e = true) es -> isName n = true ->
  filepath.Join [rootedPath es; n] = rootedPath (es ++ [n]).
Proof.
  intros Hn Hname. rewrite (Join_rootedPath es n Hn).
  rewrite (Split_no_sep n "/" (isName_no_sep n Hname)). cbn [fold_left].
  rewrite (cleanStep_name true (rev es) n Hname). cbn [rev].
  rewrite rev_involutive. reflexivity.
Qed.

Lemma Join_rootedPath_dot es :
  Forall (fun e => isName e = true) es ->
  filepath.Join [rootedPath es; "."] = rootedPath es
  /\ filepath.Join [rootedPath es; "/"] = rootedPath es.
Proof.
  intros Hn. rewrite !(Join_rootedPath es _ Hn).
  change (strings.Split "." "/") with ["."].
  change (strings.Split "/" "/") with [""; ""].
  cbn [fold_left]. rewrite !cleanStep_skip by auto.
  rewrite rev_involutive. auto.
Qed.

Lemma Join_rootedPath_dotdot es :
  Forall (fun e => isName e = true) es ->
  filepath.Join [rootedPath es; ".."] = rootedPath (removelast es).
Proof.
  intros Hn. rewrite (Join_rootedPath es _ Hn).
  change (strings.Split ".." "/") with [".."]. cbn [fold_left].
  rewrite cleanStep_dotdot by (apply Forall_rev, Hn).
  f_equal. destruct es as [|e es' _] using rev_ind; [reflexivity|].
  rewrite rev_app_distr. cbn [rev app tl]. rewrite rev_involutive.
  rewrite removelast_last. reflexivity.
Qed.

Lemma upToLastSep_app n : contains_byte "/" n = false -> forall a,
  filepath.upToLastSep (a +:+ String "/" n) = a +:+ "/".
Proof.
  intros Hn. induction a as [|c a IH].
  - rewrite !append_Empty. cbn [filepath.upToLastSep contains_byte].
    unfold filepath.Separator. rewrite Ascii.eqb_refl. f_equal.
    destruct n as [|d n']; [reflexivity|].
    cbn [filepath.upToLastSep]. unfold filepath.Separator. rewrite Hn. reflexivity.
  - rewrite !append_String. cbn [filepath.upToLastSep]. rewrite IH.
    assert (H : contains_byte filepath.Separator (String c (a +:+ String "/" n)) = true).
    { clear IH. cbn [contains_byte]. destruct (Ascii.eqb c filepath.Separator); [reflexivity|].
      induction a as [|d a IHa].
      - rewrite append_Empty. cbn [contains_byte]. unfold filepath.Separator.
        rewrite Ascii.eqb_refl. reflexivity.
      - rewrite append_String. cbn [contains_byte].
        destruct (Ascii.eqb d filepath.Separator); [reflexivity | exact IHa]. }
    rewrite H. reflexivity.
Qed.

(** A clean absolute path with a last element [n] is the path before
    it, a separator, and [n]. *)
Lemma rootedPath_snoc es n :
  rootedPath (es ++ [n])
  = (if es is [] then "" else rootedPath es) +:+ String "/" n.
Proof.
  destruct es as [|e es']; [reflexivity|].
  unfold rootedPath. rewrite joinSep_snoc by discriminate. reflexivity.
Qed.

Lemma Dir_rootedPath_snoc es n :
  Forall (fun e => isName e = true) es -> isName n = true ->
  filepath.Dir (rootedPath (es ++ [n])) = rootedPath es.
Proof.
  intros Hn Hname. unfold filepath.Dir.
  rewrite rootedPath_snoc, (upToLastSep_app n (isName_no_sep n Hname)).
  destruct es as [|e es']; [reflexivity|].
  rewrite (Clean_rootedPath_app (e :: es') "" Hn).
  change (strings.Split "" "/") with [""]. cbn [fold_left].
  rewrite cleanStep_skip by auto. rewrite rev_involutive. reflexivity.
Qed.

Lemma Dir_rootedPath es :
  Forall (fun e => isName e = true) es ->
  filepath.Dir (rootedPath es) = rootedPath (removelast es).
Proof.
  intros Hn. destruct es as [|n es' _] using rev_ind; [reflexivity|].
  apply Forall_app in Hn as [Hes Hn1]. inversion Hn1; subst.
  rewrite removelast_last. apply Dir_rootedPath_snoc; assumption.
Qed.

Lemma lastElem_app l1 l2 acc :
  fold_left (fun acc e => if string_eqb e "" then acc else Some e) (l1 ++ l2) acc
  = fold_left (fun acc e => if string_eqb e "" then acc else Some e) l2
      (fold_left (fun acc e => if string_eqb e "" then acc else Some e) l1 acc).
Proof. apply fold_left_app. Qed.

Lemma Base_rootedPath_snoc es n :
  isName n = true -> filepath.Base (rootedPath (es ++ [n])) = n.
Proof.
  intros Hname. rewrite rootedPath_snoc.
  set (a := if es is [] then "" else rootedPath es).
  unfold filepath.Base.
  destruct (a +:+ String "/" n) as [|c r] eqn:E.
  { destruct a; discriminate E. }
  rewrite <- E. unfold filepath.Separator. rewrite Split_app_sep.
  rewrite (Split_no_sep n "/" (isName_no_sep n Hname)).
  unfold filepath.lastElem. rewrite lastElem_app. cbn [fold_left].
  apply isName_spec in Hname as (H1 & _).
  rewrite (proj2 (string_eqb_neq n "") H1). reflexivity.
Qed.

Lemma lastElem_cases elems :
  Forall (fun e => contains_byte "/" e = false) elems ->
  filepath.lastElem elems = None
  \/ exists e, filepath.lastElem elems = Some e /\ e <> "" /\ contains_byte "/" e = false.
Proof.
  intros Hall. unfold filepath.lastElem.
  assert (Hgen : forall acc,
    (acc = None \/ exists e, acc = Some e /\ e <> "" /\ contains_byte "/" e = false) ->
    let res := fold_left (fun acc e => if string_eqb e "" then acc else Some e) elems acc in
    res = None \/ exists e, res = Some e /\ e <> "" /\ contains_byte "/" e = false).
  { induction Hall as [|e elems He _ IH]; intros acc Hacc; [exact Hacc|].
    cbn [fold_left]. apply IH.
    destruct (string_eqb e "") eqn:E; [exact Hacc|].
    right. exists e. apply string_eqb_neq in E. auto. }
  apply Hgen. left. reflexivity.
Qed.

(** The base name of any file name is a name, or one of [.], [..] and
    the separator. *)
Lemma Base_cases f :
  filepath.Base f = "." \/ filepath.Base f = ".." \/ filepath.Base f = "/"
  \/ isName (filepath.Base f) = true.
Proof.
  unfold filepath.Base. destruct f as [|c r]; [auto|].
  destruct (lastElem_cases (strings.Split (String c r) filepath.Separator)
              (Split_elems_no_sep _ _)) as [-> | (e & -> & Hne & Hns)]; [auto|].
  destruct (string_eqb e ".") eqn:E1; [apply string_eqb_eq in E1; auto|].
  destruct (string_eqb e "..") eqn:E2; [apply string_eqb_eq in E2; auto|].
  right. right. right. apply isName_spec.
  apply string_eqb_neq in E1, E2. auto.
Qed.

(** ** Uploads *)

Lemma insert_dir_ok (fs : gmap string os.node) path :
  fsOk fs -> fs !! filepath.Dir path = Some os.NDir ->
  fsOk (<[path := os.NDir]> fs).
Proof.
  intros [Hroot Hclosed] Hparent.
  assert (Hkeep : forall q, fs !! q = Some os.NDir ->
                            <[path := os.NDir]> fs !! q = Some os.NDir).
  { intros q Hq. destruct (decide (path = q)) as [->|Hne].
    - apply lookup_insert_eq.
    - rewrite lookup_insert_ne by exact Hne. exact Hq. }
  split; [exact (Hkeep _ Hroot)|].
  intros p Hp. apply Hkeep.
  destruct (decide (path = p)) as [->|Hne]; [exact Hparent|].
  rewrite lookup_insert_ne in Hp by exact Hne. exact (Hclosed p Hp).
Qed.

Lemma insert_dir_files (fs0 fs : gmap string os.node) path :
  fs0 !! path = None ->
  (forall p d, fs !! p = Some (os.NFile d) <-> fs0 !! p = Some (os.NFile d)) ->
  forall p d, <[path := os.NDir]> fs !! p = Some (os.NFile d) <-> fs0 !! p = Some (os.NFile d).
Proof.
  intros Hnone Hsame p d. destruct (decide (path = p)) as [->|Hne].
  - rewrite lookup_insert_eq, Hnone. split; discriminate.
  - rewrite lookup_insert_ne by exact Hne. apply Hsame.
Qed.

(** [MkdirAll] on a clean absolute path: the directory exists
    afterwards, the tree stays well-formed and no file changes. *)
Lemma MkdirAll_fuel_ok fuel : forall es (fs fs' : gmap string os.node),
  Forall (fun e => isName e = true) es -> fsOk fs ->
  os.MkdirAll_fuel fuel (rootedPath es) fs = Ok fs' ->
  fsOk fs' /\ fs' !! rootedPath es = Some os.NDir
  /\ forall p d, fs' !! p = Some (os.NFile d) <-> fs !! p = Some (os.NFile d).
Proof.
  induction fuel as [|fuel IH]; intros es fs fs' Hn Hok; cbn [os.MkdirAll_fuel];
    destruct (fs !! rootedPath es) as [[data|]|] eqn:E; try discriminate;
    try (intros [= <-]; split; [exact Hok | split; [exact E | reflexivity]]).
  rewrite (Dir_rootedPath es Hn).
  destruct (string_eqb (rootedPath (removelast es)) "/"
            || string_eqb (rootedPath (removelast es)) ".") eqn:Etop.
  - intros [= <-].
    assert (Hparent : rootedPath (removelast es) = "/").
    { apply orb_true_iff in Etop as [H|H]; apply string_eqb_eq in H;
        [exact H | discriminate H]. }
    split; [|split].
    + apply insert_dir_ok; [exact Hok|].
      rewrite (Dir_rootedPath es Hn), Hparent. exact (proj1 Hok).
    + apply lookup_insert_eq.
    + apply insert_dir_files; [exact E | reflexivity].
  - destruct (os.MkdirAll_fuel fuel (rootedPath (removelast es)) fs) as [fs1|e] eqn:E1;
      [|discriminate].
    intros [= <-].
    assert (Hn' : Forall (fun e => isName e = true) (removelast es)).
    { destruct es as [|n es' _] using rev_ind; [constructor|].
      rewrite removelast_last. apply Forall_app in Hn. tauto. }
    destruct (IH _ _ _ Hn' Hok E1) as (Hok1 & Hdir1 & Hfiles1).
    split; [|split].
    + apply insert_dir_ok; [exact Hok1|].
      rewrite (Dir_rootedPath es Hn). exact Hdir1.
    + apply lookup_insert_eq.
    + apply insert_dir_files; [exact E | exact Hfiles1].
Qed.

Lemma Create_ok path (fs fs2 : gmap string os.node) :
  os.Create path fs = Ok fs2 ->
  fs !! path <> Some os.NDir /\ fs2 = <[path := os.NFile ""]> fs.
Proof.
  unfold os.Create. destruct (fs !! path) as [[data|]|] eqn:E.
  - intros [= <-]. split; [discriminate | reflexivity].
  - discriminate.
  - destruct (fs !! filepath.Dir path) as [[?|]|]; try discriminate.
    intros [= <-]. split; [discriminate | reflexivity].
Qed.

Lemma CopyTo_effect path src room (fs : gmap string os.node) :
  exists written,
    snd (os.CopyTo path src room fs) = <[path := os.NFile written]> fs
    /\ (fst (os.CopyTo path src room fs) = Ok tt -> written = src).
Proof.
  unfold os.CopyTo. destruct room as [k|].
  - destruct (k <? String.length src)%nat; eexists; (split; [reflexivity|]);
      [discriminate | reflexivity].
  - eexists. split; reflexivity.
Qed.

(** The directory of an upload is a clean absolute path. *)
Lemma uploadTarget_rooted env subDir :
  cleanAbs (workingDir env) ->
  exists es, Forall (fun e => isName e = true) es /\ uploadTarget env subDir = rootedPath es.
Proof.
  intros Hwd. destruct (cleanAbs_rootedPath _ Hwd) as (ws & Hws & Ewd).
  unfold uploadTarget. destruct (string_eqb subDir ""); [eauto|].
  rewrite Ewd, (Join_rootedPath ws _ Hws). eexists. split; [|reflexivity].
  apply Forall_rev, fold_cleanStep_rooted;
    [apply Split_elems_no_sep | apply Forall_rev, Hws].
Qed.

Lemma Error_status r msg code :
  code <> 0 -> http.status (http.Error (http.NewResponseWriter r) msg code) = code.
Proof.
  intros H. destruct code; [congruence | reflexivity | reflexivity].
Qed.

Lemma securityCheck_refusal env sys path r msg w' :
  securityCheck env sys path (http.NewResponseWriter r) msg = Some w' ->
  http.status w' = 400 \/ http.status w' = 403.
Proof.
  unfold securityCheck.
  destruct (filepath.Abs (os.Getwd sys) path) as [cleanPath|e].
  - destruct (negb _); [|discriminate]. intros [= <-]. right. reflexivity.
  - intros [= <-]. left. reflexivity.
Qed.

(** The effects of uploadHandler on the files, stage by stage. *)
Lemma uploadHandler_post env sys room (fs : gmap string os.node) r form header :
  http.Method r = "POST" ->
  http.ParseMultipartForm r (Z.shiftl 100 20) = Ok form ->
  http.FormFile form "file" = Ok header ->
  let subDir := http.FormValue r form "directory" in
  let targetDir := uploadTarget env subDir in
  let dst := filepath.Join [targetDir; filepath.Base (http.Filename header)] in
  let w := fst (uploadHandler env sys room fs r) in
  let fs' := snd (uploadHandler env sys room fs r) in
  (fs' = fs /\ http.status w <> 303)
  \/ exists fs1,
       ((subDir = "" /\ fs1 = fs) \/ (subDir <> "" /\ os.MkdirAll targetDir fs = Ok fs1))
       /\ ((exists e, os.Create dst fs1 = Err e /\ fs' = fs1 /\ http.status w <> 303)
           \/ (exists fs2, os.Create dst fs1 = Ok fs2
                 /\ fs' = snd (os.CopyTo dst (http.Content header) room fs2)
                 /\ (http.status w = 303 ->
                     fst (os.CopyTo dst (http.Content header) room fs2) = Ok tt))).
Proof.
  intros Hm Hform Hfile subDir targetDir dst w fs'.
  subst w fs'. unfold uploadHandler. rewrite Hm.
  change (string_eqb "POST" http.MethodGet) with false.
  change (string_eqb "POST" http.MethodPost) with true.
  cbn [negb]. rewrite Hform, Hfile.
  fold subDir. fold targetDir. fold dst.
  assert (Hstage : forall fs1,
    let res :=
      match os.Create dst fs1 with
      | Err e =>
          (http.Error (http.NewResponseWriter r) ("Error creating file: " +:+ os.errorText e)
             http.StatusInternalServerError, fs1)
      | Ok fs2 =>
          match os.CopyTo dst (http.Content header) room fs2 with
          | (Err e, fs3) =>
              (http.Error (http.NewResponseWriter r) ("Error saving file: " +:+ os.errorText e)
                 http.StatusInternalServerError, fs3)
          | (Ok _, fs3) =>
              (http.Redirect (http.NewResponseWriter r)
                 ((if negb (string_eqb subDir "") then "/" +:+ filepath.Clean subDir else "/")
                  +:+ "?upload=success") http.StatusSeeOther, fs3)
          end
      end in
    (exists e, os.Create dst fs1 = Err e /\ snd res = fs1 /\ http.status (fst res) <> 303)
    \/ (exists fs2, os.Create dst fs1 = Ok fs2
          /\ snd res = snd (os.CopyTo dst (http.Content header) room fs2)
          /\ (http.status (fst res) = 303 ->
              fst (os.CopyTo dst (http.Content header) room fs2) = Ok tt))).
  { intros fs1. cbv zeta. destruct (os.Create dst fs1) as [fs2|e].
    - right. exists fs2. split; [reflexivity|].
      destruct (os.CopyTo dst (http.Content header) room fs2) as [[[]|e] fs3];
        cbn [fst snd]; (split; [reflexivity|]).
      + reflexivity.
      + rewrite Error_status by discriminate. discriminate.
    - left. exists e. cbn [fst snd]. rewrite Error_status by discriminate.
      split; [reflexivity|]. split; [reflexivity | discriminate]. }
  destruct (string_eqb subDir "") eqn:Esub; cbn [negb].
  - right. exists fs. split; [left; split; [apply string_eqb_eq, Esub | reflexivity]|].
    specialize (Hstage fs). cbv zeta in Hstage. rewrite ?Esub in Hstage. cbn [negb] in Hstage.
    exact Hstage.
  - destruct (securityCheck env sys targetDir (http.NewResponseWriter r)
                "Invalid directory path") as [w'|] eqn:Esec.
    + left. cbn [fst snd]. split; [reflexivity|].
      destruct (securityCheck_refusal _ _ _ _ _ _ Esec) as [-> | ->]; discriminate.
    + destruct (os.MkdirAll targetDir fs) as [fs1|e] eqn:Emk.
      * right. exists fs1.
        split; [right; split; [apply string_eqb_neq, Esub | reflexivity]|].
        specialize (Hstage fs1). cbv zeta in Hstage. rewrite ?Esub in Hstage.
        cbn [negb] in Hstage. exact Hstage.
      * left. cbn [fst snd]. rewrite Error_status by discriminate.
        split; [reflexivity | discriminate].
Qed.

(** After the checks of the handler the target directory exists and
    the tree is well-formed; the files are those before the request. *)
Lemma upload_stage1 env (fs fs1 : gmap string os.node) subDir es :
  Forall (fun e => isName e = true) es ->
  uploadTarget env subDir = rootedPath es ->
  fsOk fs -> fs !! workingDir env = Some os.NDir ->
  (subDir = "" /\ fs1 = fs)
  \/ (subDir <> "" /\ os.MkdirAll (uploadTarget env subDir) fs = Ok fs1) ->
  fsOk fs1 /\ fs1 !! rootedPath es = Some os.NDir
  /\ forall p d, fs1 !! p = Some (os.NFile d) <-> fs !! p = Some (os.NFile d).
Proof.
  intros Hes Ht Hok Hwd [[-> ->] | [Hne Hmk]].
  - split; [exact Hok|]. split; [|reflexivity].
    rewrite <- Ht. exact Hwd.
  - rewrite Ht in Hmk. exact (MkdirAll_fuel_ok _ _ _ _ Hes Hok Hmk).
Qed.

(** A file can be created under a name of [Base] only when that name is
    a proper name: the other names lead to the directory itself or to
    its parent. *)
Lemma Create_base_name (fs1 fs2 : gmap string os.node) es f :
  Forall (fun e => isName e = true) es ->
  fsOk fs1 -> fs1 !! rootedPath es = Some os.NDir ->
  os.Create (filepath.Join [rootedPath es; filepath.Base f]) fs1 = Ok fs2 ->
  isName (filepath.Base f) = true.
Proof.
  intros Hes [_ Hclosed] Hdir Hcreate.
  apply Create_ok in Hcreate as [Hnot _].
  destruct (Base_cases f) as [E | [E | [E | E]]]; [| | |exact E]; exfalso; apply Hnot;
    rewrite E.
  - rewrite (proj1 (Join_rootedPath_dot es Hes)). exact Hdir.
  - rewrite (Join_rootedPath_dotdot es Hes), <- (Dir_rootedPath es Hes).
    exact (Hclosed _ Hdir).
  - rewrite (proj2 (Join_rootedPath_dot es Hes)). exact Hdir.
Qed.

(** C8: the file of an upload goes to the base name of the file name
    the client gives, directly in the target directory.  The base name
    holds no separator (or is the separator alone); no file other than
    the destination is created, changed or removed; when the request
    creates or changes the destination, its directory is the target
    directory and its name is that base name; and a successful upload
    leaves the whole content there. *)
Theorem upload_stays_in_target env sys room (fs : gmap string os.node) r form header :
  cleanAbs (workingDir env) -> fsOk fs -> fs !! workingDir env = Some os.NDir ->
  http.Method r = "POST" ->
  http.ParseMultipartForm r (Z.shiftl 100 20) = Ok form ->
  http.FormFile form "file" = Ok header ->
  let targetDir := uploadTarget env (http.FormValue r form "directory") in
  let name := filepath.Base (http.Filename header) in
  let dst := filepath.Join [targetDir; name] in
  let w := fst (uploadHandler env sys room fs r) in
  let fs' := snd (uploadHandler env sys room fs r) in
  (name = "/" \/ contains_byte "/" name = false)
  /\ (forall p data, p <> dst ->
        (fs' !! p = Some (os.NFile data) <-> fs !! p = Some (os.NFile data)))
  /\ (forall data,
        fs' !! dst = Some (os.NFile data) -> fs !! dst <> Some (os.NFile data) ->
        isName name = true
        /\ filepath.Dir dst = targetDir /\ filepath.Base dst = name)
  /\ (http.status w = 303 ->
        isName name = true
        /\ fs' !! dst = Some (os.NFile (http.Content header))
        /\ filepath.Dir dst = targetDir /\ filepath.Base dst = name).
Proof.
  intros Hwd Hok Hwdir Hm Hform Hfile targetDir name dst w fs'.
  destruct (uploadTarget_rooted env (http.FormValue r form "directory") Hwd)
    as (es & Hes & Ht).
  pose proof (uploadHandler_post env sys room fs r form header Hm Hform Hfile) as Hpost.
  cbv zeta in Hpost. fold targetDir name dst w fs' in Hpost.
  assert (Hplace : forall fs1 fs2,
            (http.FormValue r form "directory" = "" /\ fs1 = fs)
            \/ (http.FormValue r form "directory" <> ""
                /\ os.MkdirAll targetDir fs = Ok fs1) ->
            os.Create dst fs1 = Ok fs2 ->
            isName name = true /\ filepath.Dir dst = targetDir /\ filepath.Base dst = name).
  { intros fs1 fs2 Hst Hcreate.
    destruct (upload_stage1 env fs fs1 _ es Hes Ht Hok Hwdir Hst) as (Hok1 & Hdir1 & _).
    subst dst. fold targetDir in Ht. rewrite Ht in Hcreate |- *.
    pose proof (Create_base_name fs1 fs2 es _ Hes Hok1 Hdir1 Hcreate) as Hname.
    fold name in Hname. split; [exact Hname|].
    rewrite (Join_rootedPath_name es name Hes Hname).
    split; [apply Dir_rootedPath_snoc | apply Base_rootedPath_snoc]; assumption. }
  split; [|split; [|split]].
  - destruct (Base_cases (http.Filename header)) as [E | [E | [E | E]]]; fold name in E.
    + right. rewrite E. reflexivity.
    + right. rewrite E. reflexivity.
    + left. exact E.
    + right. exact (isName_no_sep name E).
  - intros p data Hne.
    destruct Hpost as [[-> _] | (fs1 & Hst & Hrest)]; [reflexivity|].
    destruct (upload_stage1 env fs fs1 _ es Hes Ht Hok Hwdir Hst) as (_ & _ & Hfiles1).
    destruct Hrest as [(e & _ & -> & _) | (fs2 & Hcreate & -> & _)]; [apply Hfiles1|].
    destruct (CopyTo_effect dst (http.Content header) room fs2) as (written & -> & _).
    apply Create_ok in Hcreate as [_ ->].
    rewrite !lookup_insert_ne by (intros Heq; apply Hne; symmetry; exact Heq).
    apply Hfiles1.
  - intros data Hp Hnew.
    destruct Hpost as [[Hsame _] | (fs1 & Hst & Hrest)].
    { rewrite Hsame in Hp. contradiction. }
    destruct (upload_stage1 env fs fs1 _ es Hes Ht Hok Hwdir Hst) as (_ & _ & Hfiles1).
    destruct Hrest as [(e & _ & Hsame & _) | (fs2 & Hcreate & Hfs' & _)].
    { rewrite Hsame in Hp. apply Hfiles1 in Hp. contradiction. }
    exact (Hplace fs1 fs2 Hst Hcreate).
  - intros H303.
    destruct Hpost as [[_ Hno] | (fs1 & Hst & Hrest)]; [contradiction|].
    destruct Hrest as [(e & _ & _ & Hno) | (fs2 & Hcreate & Hfs' & Hcopy)]; [contradiction|].
    destruct (Hplace fs1 fs2 Hst Hcreate) as (Hname & Hdir & Hbase).
    split; [exact Hname|]. split; [|auto].
    destruct (CopyTo_effect dst (http.Content header) room fs2) as (written & Hw & Hall).
    rewrite Hfs', Hw, (Hall (Hcopy H303)). apply lookup_insert_eq.
Qed.

Lemma demoFs_ok : fsOk demoFs.
Proof.
  split; [reflexivity|]. intros p Hp. unfold demoFs in Hp.
  repeat (rewrite lookup_insert in Hp; case_decide;
          [subst p; vm_compute; reflexivity|]).
  rewrite lookup_empty in Hp. discriminate Hp.
Defined.

Lemma demoEnv_cleanAbs : cleanAbs (workingDir demoEnv).
Proof. split; vm_compute; reflexivity. Defined.

Lemma upload_stays_in_target_witness :
  let r := uploadRequest "sub" "../../etc/passwd" "hello" in
  let res := uploadHandler demoEnv demoSys None demoFs r in
  http.status (fst res) = 303
  /\ snd res !! "/srv/files/sub/passwd" = Some (os.NFile "hello")
  /\ (forall p data, p <> "/srv/files/sub/passwd" ->
        (snd res !! p = Some (os.NFile data) <-> demoFs !! p = Some (os.NFile data)))
  /\ filepath.Dir "/srv/files/sub/passwd" = "/srv/files/sub".
Proof.
  pose proof (upload_stays_in_target demoEnv demoSys None demoFs
                (uploadRequest "sub" "../../etc/passwd" "hello") _ _
                demoEnv_cleanAbs demoFs_ok eq_refl eq_refl eq_refl eq_refl) as H.
  cbv zeta in H. destruct H as (_ & Hframe & _ & Hdone).
  split; [vm_compute; reflexivity|]. split; [vm_compute; reflexivity|].
  split; [exact Hframe|].
  exact (proj1 (proj2 (proj2 (Hdone eq_refl)))).
Defined.

Example upload_dotdot_refused :
  let res := uploadHandler demoEnv demoSys None demoFs (uploadRequest "" "x/.." "hello") in
  http.status (fst res) = 500 /\ snd res = demoFs.
Proof. vm_compute. split; reflexivity. Qed.

(** ** The size of uploads *)

Lemma length_repeatByte n c : String.length (repeatByte n c) = n.
Proof. induction n as [|n IH]; [reflexivity|]. cbn [repeatByte String.length]. rewrite IH. reflexivity. Qed.

(** An upload of one file part into the root of the demo world is
    accepted whatever the size of the part. *)
Lemma upload_any_size data :
  let res := uploadHandler demoEnv demoSys None demoFs (uploadRequest "" "big.bin" data) in
  http.status (fst res) = 303
  /\ snd res !! "/srv/files/big.bin" = Some (os.NFile data).
Proof. vm_compute. split; reflexivity. Qed.

(** The claim fails for a body above 100 MiB: a file part of 100 MiB
    and one byte is stored and the reply is the redirect 303. *)
Lemma upload_above_100MiB_accepted :
  let data := repeatByte (Z.to_nat (Z.shiftl 100 20 + 1)) "a" in
  let r := uploadRequest "" "big.bin" data in
  let res := uploadHandler demoEnv demoSys None demoFs r in
  payloadSize r > Z.shiftl 100 20
  /\ http.status (fst res) = 303
  /\ snd res !! "/srv/files/big.bin" = Some (os.NFile data).
Proof.
  intros data r res. split; [|exact (upload_any_size data)].
  unfold payloadSize, r, uploadRequest. cbn [http.Multipart].
  change (string_eqb "" "") with true. cbn [app fold_right http.Data].
  unfold len, data. rewrite length_repeatByte, Z2Nat.id; [|rewrite Z.shiftl_mul_pow2; lia].
  lia.
Qed.

Lemma readForm_too_large : forall parts budget form,
  0 <= budget -> valueBytes parts > budget ->
  http.readForm parts budget form = Err http.ErrMessageTooLarge.
Proof.
  induction parts as [|p rest IH]; intros budget form Hb Hv; cbn [valueBytes] in Hv.
  - lia.
  - cbn [http.readForm].
    destruct (string_eqb (http.FormName p) "") eqn:En; cbn [negb andb] in Hv.
    + apply IH; assumption.
    + destruct (string_eqb (http.FileName p) "") eqn:Ef.
      * destruct (Z.ltb_spec (budget - len (http.Data p)) 0) as [Hlt|Hge]; [reflexivity|].
        apply IH; lia.
      * apply IH; assumption.
Qed.

Lemma upload_form_error env sys room (fs : gmap string os.node) r e :
  http.Method r = "POST" ->
  http.ParseMultipartForm r (Z.shiftl 100 20) = Err e ->
  http.status (fst (uploadHandler env sys room fs r)) = 400
  /\ snd (uploadHandler env sys room fs r) = fs.
Proof.
  intros Hm He. unfold uploadHandler. rewrite Hm.
  change (string_eqb "POST" http.MethodGet) with false.
  change (string_eqb "POST" http.MethodPost) with true.
  cbn [negb]. rewrite He. cbn [fst snd].
  rewrite Error_status by discriminate. split; reflexivity.
Qed.

(** C7 (amended): an upload whose body is not a multipart form, or
    whose plain values hold more than the 100 MiB memory bound of
    ParseMultipartForm and its reserve of 10 MiB, fails with status 400
    before any file is created or written.  (File parts are not
    bounded.) *)
Theorem upload_form_refused env sys room (fs : gmap string os.node) r :
  http.Method r = "POST" ->
  (forall parts, http.Multipart r = Some parts ->
                 valueBytes parts > Z.shiftl 100 20 + 10 * 2 ^ 20) ->
  http.status (fst (uploadHandler env sys room fs r)) = 400
  /\ snd (uploadHandler env sys room fs r) = fs.
Proof.
  intros Hm Hlarge.
  assert (He : exists e, http.ParseMultipartForm r (Z.shiftl 100 20) = Err e).
  { unfold http.ParseMultipartForm.
    destruct (http.Multipart r) as [parts|] eqn:E; [|eauto].
    rewrite readForm_too_large; [eauto | | exact (Hlarge parts eq_refl)].
    rewrite Z.shiftl_mul_pow2; lia. }
  destruct He as [e He]. exact (upload_form_error env sys room fs r e Hm He).
Qed.

Lemma upload_form_refused_witness :
  let dir := repeatByte (Z.to_nat (Z.shiftl 100 20 + 10 * 2 ^ 20 + 1)) "d" in
  let r := uploadRequest dir "a.txt" "hello" in
  http.status (fst (uploadHandler demoEnv demoSys None demoFs r)) = 400
  /\ snd (uploadHandler demoEnv demoSys None demoFs r) = demoFs.
Proof.
  intros dir r. apply (upload_form_refused demoEnv demoSys None demoFs r); [reflexivity|].
  intros parts [= <-]. cbn [valueBytes app http.FormName http.FileName http.Data].
  change (negb (string_eqb "file" "") && string_eqb "a.txt" "") with false.
  change (negb (string_eqb "directory" "") && string_eqb "" "") with true. cbv iota.
  unfold len, dir. rewrite length_repeatByte, Z2Nat.id; rewrite ?Z.shiftl_mul_pow2; lia.
Defined.

(** A body that is no multipart form is refused in the same way. *)
Example upload_not_multipart :
  http.status (fst (uploadHandler demoEnv demoSys None demoFs
                      (request "POST" "/upload" ""))) = 400
  /\ snd (uploadHandler demoEnv demoSys None demoFs (request "POST" "/upload" "")) = demoFs.
Proof.
  apply (upload_form_error demoEnv demoSys None demoFs _ http.ErrNotMultipart);
    reflexivity.
Qed.

(** ** The containment check and the sibling of the root *)

(** C1 (the code departs from the claim): with the root [/srv/files],
    the sibling directory [/srv/files2] is neither the root nor under
    it, yet the check lets it through, because [/srv/files] is a prefix
    of [/srv/files2] as a string: the upload whose form names the
    directory [../files2] writes there, the browse request lists it and
    the download request serves its file.  A path that does not start
    with the characters of the root is refused with 403. *)
Theorem sibling_directory_not_denied :
  let root := workingDir demoEnv in
  let upload := uploadRequest "../files2" "x.txt" "data" in
  let browse := request "GET" "/../files2" "" in
  let download := request "GET" "/download/../files2/secret.txt" "" in
  root = "/srv/files"
  /\ uploadTarget demoEnv "../files2" = "/srv/files2"
  /\ browsePath demoEnv browse = "/srv/files2"
  /\ downloadPath demoEnv download = "/srv/files2/secret.txt"
  /\ strings.HasPrefix "/srv/files2" (root +:+ "/") = false
  /\ string_eqb "/srv/files2" root = false
  /\ http.status (fst (uploadHandler demoEnv demoSys None demoFs upload)) = 303
  /\ snd (uploadHandler demoEnv demoSys None demoFs upload) !! "/srv/files2/x.txt"
     = Some (os.NFile "data")
  /\ http.status (browseHandler demoEnv demoSys browse) = 200
  /\ http.status (downloadHandler demoEnv demoSys download) = 200
  /\ http.body (downloadHandler demoEnv demoSys download) = "secret"
  /\ http.status (downloadHandler demoEnv demoSys
                    (request "GET" "/download/../../etc/passwd" "")) = 403.
Proof.
  cbv zeta. split; [reflexivity|].
  vm_compute. repeat split; reflexivity.
Qed.

(** ** Full ranges *)

Lemma bytes_all_app P a b :
  bytes_all P (a +:+ b) = bytes_all P a && bytes_all P b.
Proof.
  induction a as [|c a IH]; [reflexivity|].
  rewrite append_String. cbn [bytes_all]. rewrite IH, andb_assoc. reflexivity.
Qed.

(** The spec [A-B], with [A] and [B] non-empty strings of digits. *)
Lemma parseRange_full_digits dA dB A B size :
  bytes_all is_digit dA = true -> bytes_all is_digit dB = true ->
  strconv.ParseInt dA = Ok A -> strconv.ParseInt dB = Ok B ->
  0 <= A <= B -> B < size ->
  parseRange ("bytes=" +:+ dA +:+ String "-" dB) size
  = Ok [ {| start := A; end_ := B |} ].
Proof.
  intros HdA HdB HpA HpB HAB HBs.
  assert (HneA : string_eqb dA "" = false) by (destruct dA; [discriminate HpA | reflexivity]).
  assert (HneB : string_eqb dB "" = false) by (destruct dB; [discriminate HpB | reflexivity]).
  assert (Hall : bytes_all (fun c => is_digit c || Ascii.eqb c "-") (dA +:+ String "-" dB) = true).
  { rewrite bytes_all_app. cbn [bytes_all].
    rewrite (bytes_all_impl is_digit _ dA), (bytes_all_impl is_digit _ dB);
      try assumption; try (intros c ->; reflexivity).
    rewrite orb_true_r. reflexivity. }
  assert (Hplain : bytes_all plain (dA +:+ String "-" dB) = true).
  { refine (bytes_all_impl _ _ _ _ Hall).
    intros c [Hc|Hc]%orb_true_iff; [exact (is_digit_plain c Hc)|].
    apply Ascii.eqb_eq in Hc. subst c. reflexivity. }
  assert (Hcomma : contains_byte "," (dA +:+ String "-" dB) = false).
  { apply (bytes_all_no_byte (fun c => is_digit c || Ascii.eqb c "-"));
      [reflexivity | exact Hall]. }
  unfold parseRange. rewrite !append_String, append_Empty.
  change (strings.HasPrefix (String "b" (String "y" (String "t" (String "e"
            (String "s" (String "=" (dA +:+ String "-" dB))))))) "bytes=") with true.
  cbn [negb].
  change (strings.TrimPrefix (String "b" (String "y" (String "t" (String "e"
            (String "s" (String "=" (dA +:+ String "-" dB))))))) "bytes=")
    with (dA +:+ String "-" dB).
  rewrite (Split_no_sep _ _ Hcomma). cbn [parseRange_loop]. unfold parseSpec.
  rewrite (TrimSpace_plain _ Hplain), Split_app_sep.
  rewrite (Split_no_sep dA "-"), (Split_no_sep dB "-")
    by (apply (bytes_all_no_byte is_digit); [reflexivity | assumption]).
  cbn [app]. unfold specBounds. rewrite HneA, HneB, HpA, HpB.
  rewrite (proj2 (rangeInvalid_false A B size)) by lia. reflexivity.
Qed.

(** A header [bytes=A-B] with [0 <= A <= B < S] parses to the single
    range [(A, B)]. *)
Lemma parseRange_full A B S :
  0 <= A <= B -> B < S -> S <= int64.max ->
  parseRange ("bytes=" +:+ strconv.FormatInt A +:+ "-" +:+ strconv.FormatInt B) S
  = Ok [ {| start := A; end_ := B |} ].
Proof.
  intros HAB HBS HS.
  destruct (FormatInt_digits A ltac:(lia)) as (cA & rA & EA & HdA).
  destruct (FormatInt_digits B ltac:(lia)) as (cB & rB & EB & HdB).
  pose proof (ParseInt_FormatInt A ltac:(lia)) as HpA.
  pose proof (ParseInt_FormatInt B ltac:(lia)) as HpB.
  rewrite EA, EB in *.
  exact (parseRange_full_digits _ _ A B S HdA HdB HpA HpB HAB HBS).
Qed.

(** * Further properties *)

(** ** Range headers with one spec *)

Lemma specChar_plain c : specChar c = true -> plain c = true.
Proof.
  unfold specChar. intros [Hc|Hc]%orb_true_iff; [exact (is_digit_plain c Hc)|].
  apply Ascii.eqb_eq in Hc. subst c. reflexivity.
Qed.

Lemma digits_specChar d : bytes_all is_digit d = true -> bytes_all specChar d = true.
Proof.
  apply bytes_all_impl. intros c Hc. unfold specChar. rewrite Hc. reflexivity.
Qed.

(** A header with one spec of digits and dashes is parsed by one turn
    of the loop. *)
Lemma parseRange_one_spec spec size :
  bytes_all specChar spec = true ->
  parseRange ("bytes=" +:+ spec) size
  = match parseSpec spec size with Ok r => Ok [r] | Err e => Err e end.
Proof.
  intros Hall.
  assert (Hcomma : contains_byte "," spec = false)
    by (apply (bytes_all_no_byte specChar); [reflexivity | exact Hall]).
  unfold parseRange. rewrite !append_String, append_Empty.
  change (strings.HasPrefix (String "b" (String "y" (String "t" (String "e"
            (String "s" (String "=" spec)))))) "bytes=") with true.
  cbn [negb].
  change (strings.TrimPrefix (String "b" (String "y" (String "t" (String "e"
            (String "s" (String "=" spec)))))) "bytes=") with spec.
  rewrite (Split_no_sep _ _ Hcomma). cbn [parseRange_loop].
  destruct (parseSpec spec size); reflexivity.
Qed.

Lemma parseSpec_parts spec size p0 p1 :
  bytes_all specChar spec = true ->
  strings.Split spec "-" = [p0; p1] ->
  parseSpec spec size
  = match specBounds p0 p1 size with
    | Err e => Err e
    | Ok (st, en) =>
        if rangeInvalid st en size then Err InvalidRange
        else Ok {| start := st; end_ := en |}
    end.
Proof.
  intros Hall Hs. unfold parseSpec.
  rewrite (TrimSpace_plain _ (bytes_all_impl _ _ _ specChar_plain Hall)), Hs.
  reflexivity.
Qed.

Lemma digits_no_dash d :
  bytes_all is_digit d = true -> strings.Split d "-" = [d].
Proof.
  intros Hd. apply Split_no_sep.
  apply (bytes_all_no_byte is_digit); [reflexivity | exact Hd].
Qed.

Lemma FormatInt_parts n :
  0 <= n <= int64.max ->
  bytes_all is_digit (strconv.FormatInt n) = true
  /\ string_eqb (strconv.FormatInt n) "" = false
  /\ strconv.ParseInt (strconv.FormatInt n) = Ok n.
Proof.
  intros Hn. destruct (FormatInt_digits n ltac:(lia)) as (c & r & E & Hd).
  pose proof (ParseInt_FormatInt n Hn) as Hp. rewrite E in *. auto.
Qed.

(** The spec [N-]: from byte [N] to the end. *)
Lemma parseSpec_open N S :
  0 <= N <= int64.max -> 0 <= S <= int64.max ->
  parseSpec (strconv.FormatInt N +:+ "-") S
  = if rangeInvalid N (S - 1) S then Err InvalidRange
    else Ok {| start := N; end_ := S - 1 |}.
Proof.
  intros HN HS. destruct (FormatInt_parts N HN) as (Hd & Hne & Hp).
  rewrite (parseSpec_parts _ S (strconv.FormatInt N) "").
  - unfold specBounds. rewrite Hne, Hp. change (string_eqb "" "") with true. cbv iota.
    unfold int64.sub. rewrite int64_wrap_small; [reflexivity|].
    unfold int64.in_range, int64.min, int64.max in *. lia.
  - rewrite bytes_all_app, (digits_specChar _ Hd). reflexivity.
  - rewrite Split_app_sep, (digits_no_dash _ Hd). reflexivity.
Qed.

(** The spec [N-M]. *)
Lemma parseSpec_closed N M S :
  0 <= N <= int64.max -> 0 <= M <= int64.max ->
  parseSpec (strconv.FormatInt N +:+ "-" +:+ strconv.FormatInt M) S
  = if rangeInvalid N M S then Err InvalidRange
    else Ok {| start := N; end_ := M |}.
Proof.
  intros HN HM. destruct (FormatInt_parts N HN) as (Hd & Hne & Hp).
  destruct (FormatInt_parts M HM) as (Hd' & Hne' & Hp').
  rewrite (parseSpec_parts _ S (strconv.FormatInt N) (strconv.FormatInt M)).
  - unfold specBounds. rewrite Hne, Hne', Hp, Hp'. reflexivity.
  - change ("-" +:+ strconv.FormatInt M) with (String "-" (strconv.FormatInt M)).
    rewrite bytes_all_app. cbn [bytes_all].
    rewrite (digits_specChar _ Hd), (digits_specChar _ Hd'). reflexivity.
  - change ("-" +:+ strconv.FormatInt M) with (String "-" (strconv.FormatInt M)).
    rewrite Split_app_sep, (digits_no_dash _ Hd), (digits_no_dash _ Hd'). reflexivity.
Qed.

Lemma open_specChar N :
  0 <= N <= int64.max -> bytes_all specChar (strconv.FormatInt N +:+ "-") = true.
Proof.
  intros HN. destruct (FormatInt_parts N HN) as (Hd & _).
  rewrite bytes_all_app, (digits_specChar _ Hd). reflexivity.
Qed.

Lemma closed_specChar N M :
  0 <= N <= int64.max -> 0 <= M <= int64.max ->
  bytes_all specChar (strconv.FormatInt N +:+ "-" +:+ strconv.FormatInt M) = true.
Proof.
  intros HN HM. destruct (FormatInt_parts N HN) as (Hd & _).
  destruct (FormatInt_parts M HM) as (Hd' & _).
  change ("-" +:+ strconv.FormatInt M) with (String "-" (strconv.FormatInt M)).
  rewrite bytes_all_app. cbn [bytes_all].
  rewrite (digits_specChar _ Hd), (digits_specChar _ Hd'). reflexivity.
Qed.

(** X1: the header [bytes=N-] with [0 <= N < S] parses to the single
    range from [N] to the last byte, [(N, S-1)]; so [bytes=500-] on a
    resource of more than 500 bytes gives [(500, S-1)]. *)
Theorem parseRange_open_ended (N S : Z) :
  0 <= N < S -> S <= int64.max ->
  parseRange ("bytes=" +:+ strconv.FormatInt N +:+ "-") S
  = Ok [ {| start := N; end_ := S - 1 |} ].
Proof.
  intros HN HS.
  rewrite (parseRange_one_spec _ S (open_specChar N ltac:(lia))).
  rewrite (parseSpec_open N S) by lia.
  rewrite (proj2 (rangeInvalid_false N (S - 1) S)) by lia. reflexivity.
Qed.

Lemma parseRange_open_ended_witness :
  parseRange ("bytes=" +:+ strconv.FormatInt 500 +:+ "-") 1200
  = Ok [ {| start := 500; end_ := 1200 - 1 |} ].
Proof. apply (parseRange_open_ended 500 1200); unfold int64.max; lia. Defined.

(** X2: a header [bytes=A-B] with [0 <= A <= B < S] parses to the
    single range [(A, B)]. *)
Theorem parseRange_closed (A B S : Z) :
  0 <= A <= B -> B < S -> S <= int64.max ->
  parseRange ("bytes=" +:+ strconv.FormatInt A +:+ "-" +:+ strconv.FormatInt B) S
  = Ok [ {| start := A; end_ := B |} ].
Proof.
  intros HAB HB HS.
  rewrite (parseRange_one_spec _ S (closed_specChar A B ltac:(lia) ltac:(lia))).
  rewrite (parseSpec_closed A B S) by lia.
  rewrite (proj2 (rangeInvalid_false A B S)) by lia. reflexivity.
Qed.

Lemma parseRange_closed_witness :
  parseRange ("bytes=" +:+ strconv.FormatInt 100 +:+ "-" +:+ strconv.FormatInt 199) 1000
  = Ok [ {| start := 100; end_ := 199 |} ].
Proof. apply (parseRange_closed 100 199 1000); unfold int64.max; lia. Defined.

(** ** Refused and composed ranges *)

Lemma download_refused env sys r file S :
  http.Method r = "GET" \/ http.Method r = "HEAD" ->
  servesFile env sys r file S ->
  http.Header_Get r "Range" <> "" ->
  (forall range, parseRange (http.Header_Get r "Range") S <> Ok [range]) ->
  http.status (downloadHandler env sys r) = 416
  /\ http.header (downloadHandler env sys r) !! "Content-Range"
     = Some ("bytes */" +:+ strconv.FormatInt S).
Proof.
  intros Hm Hs Hne Hnot.
  rewrite (downloadHandler_served env sys r file S Hm Hs).
  destruct (commonHeaders_fresh env r) as (H0 & _).
  apply string_eqb_neq in Hne.
  destruct (sendFile_refused r file S _ H0 Hne Hnot) as (H1 & H2 & _). auto.
Qed.

Lemma servesFile_size env sys r file S : servesFile env sys r file S -> 0 <= S <= int64.max.
Proof. intros (_ & _ & _ & -> & H). unfold len in *. lia. Qed.

Lemma digit_is_digit c : is_digit c = true -> strconv.digit c = Some (byte_val c - 48).
Proof. unfold is_digit, strconv.digit. cbv zeta. intros ->. reflexivity. Qed.

(** On a string of digits [ParseUint] gives the number the digits
    denote, when it gives a number. *)
Lemma parseUint_loop_decimal s : forall n v,
  bytes_all is_digit s = true ->
  strconv.parseUint_loop s n = Ok v -> v = decimal_from n s.
Proof.
  induction s as [|c r IH]; intros n v Hd Hp.
  - cbn in Hp. injection Hp as <-. reflexivity.
  - cbn [bytes_all] in Hd. apply andb_true_iff in Hd as [Hc Hr].
    cbn [strconv.parseUint_loop decimal_from] in *.
    rewrite (digit_is_digit c Hc) in Hp.
    destruct (n >=? strconv.maxUint64 / 10 + 1); [discriminate Hp|].
    cbv zeta in Hp.
    destruct (n * 10 + (byte_val c - 48) >? strconv.maxUint64); [discriminate Hp|].
    rewrite (IH _ _ Hr Hp). f_equal. lia.
Qed.

Lemma ParseInt_decimal s v :
  bytes_all is_digit s = true -> strconv.ParseInt s = Ok v -> v = decimal s.
Proof.
  intros Hd Hp. destruct s as [|c r]; [discriminate Hp|].
  pose proof Hd as Hd'. cbn [bytes_all] in Hd'. apply andb_true_iff in Hd' as [Hc _].
  destruct (is_digit_not_sign c Hc) as [Hplus Hminus].
  unfold strconv.ParseInt in Hp. rewrite Hplus, Hminus in Hp.
  unfold strconv.ParseUint in Hp.
  destruct (strconv.parseUint_loop (String c r) 0) as [un|e] eqn:Eun; [|discriminate Hp].
  cbv zeta in Hp. cbn [negb andb] in Hp.
  destruct (un >=? 2 ^ 63); [discriminate Hp|]. injection Hp as <-.
  exact (parseUint_loop_decimal _ _ _ Hd Eun).
Qed.

(** A spec whose start lies at or beyond the size is refused, whether
    its numbers fit 64 bits or not. *)
Lemma parseSpec_beyond a b S :
  a <> "" -> bytes_all is_digit a = true -> bytes_all is_digit b = true ->
  S <= decimal a ->
  exists e, parseSpec (a +:+ String "-" b) S = Err e.
Proof.
  intros Ha Hda Hdb Hbig.
  assert (Hinv : forall st en, strconv.ParseInt a = Ok st -> rangeInvalid st en S = true).
  { intros st en Hp. rewrite (ParseInt_decimal a st Hda Hp).
    unfold rangeInvalid. rewrite (proj2 (Z.geb_le (decimal a) S)) by lia.
    rewrite orb_true_r. reflexivity. }
  rewrite (parseSpec_parts _ S a b).
  - unfold specBounds. rewrite (proj2 (string_eqb_neq a "") Ha).
    destruct (string_eqb b "").
    + destruct (strconv.ParseInt a) as [st|e] eqn:Ea; [|eauto].
      rewrite (Hinv st _ eq_refl). eauto.
    + destruct (strconv.ParseInt a) as [st|e] eqn:Ea; [|eauto].
      destruct (strconv.ParseInt b) as [en|e]; [|eauto].
      rewrite (Hinv st _ eq_refl). eauto.
  - rewrite bytes_all_app. cbn [bytes_all].
    rewrite (digits_specChar _ Hda), (digits_specChar _ Hdb). reflexivity.
  - rewrite Split_app_sep, (digits_no_dash _ Hda), (digits_no_dash _ Hdb). reflexivity.
Qed.

(** X3: a Range header that names a start at or beyond the size of the
    file, [bytes=N-] or [bytes=N-M] with [N] and [M] decimal numbers of
    any length and [N >= S], is answered 416 with Content-Range:
    bytes */S, also when a number does not fit 64 bits. *)
Theorem range_start_beyond_size env sys r file (S : Z) (N M : string) :
  http.Method r = "GET" \/ http.Method r = "HEAD" ->
  servesFile env sys r file S ->
  N <> "" -> bytes_all is_digit N = true -> bytes_all is_digit M = true ->
  S <= decimal N ->
  http.Header_Get r "Range" = "bytes=" +:+ N +:+ "-" +:+ M ->
  http.status (downloadHandler env sys r) = 416
  /\ http.header (downloadHandler env sys r) !! "Content-Range"
     = Some ("bytes */" +:+ strconv.FormatInt S).
Proof.
  intros Hm Hs HN HdN HdM Hbig Hh.
  change ("-" +:+ M) with (String "-" M) in Hh.
  apply (download_refused env sys r file S Hm Hs).
  - rewrite Hh. discriminate.
  - intros range. rewrite Hh.
    rewrite (parseRange_one_spec (N +:+ String "-" M) S).
    + destruct (parseSpec_beyond N M S HN HdN HdM Hbig) as [e ->]. discriminate.
    + rewrite bytes_all_app. cbn [bytes_all].
      rewrite (digits_specChar _ HdN), (digits_specChar _ HdM). reflexivity.
Qed.

Lemma range_start_beyond_size_witness :
  let open := downloadHandler demoEnv demoSys
                (request "GET" "/download/notes.txt" "bytes=99999999999999999999-") in
  let closed := downloadHandler demoEnv demoSys
                  (request "HEAD" "/download/notes.txt" "bytes=11-99999999999999999999") in
  (http.status open = 416
   /\ http.header open !! "Content-Range" = Some ("bytes */" +:+ strconv.FormatInt 11))
  /\ (http.status closed = 416
      /\ http.header closed !! "Content-Range" = Some ("bytes */" +:+ strconv.FormatInt 11)).
Proof.
  cbv zeta. split.
  - apply (range_start_beyond_size demoEnv demoSys
             (request "GET" "/download/notes.txt" "bytes=99999999999999999999-")
             (regular "notes.txt" "hello world") 11 "99999999999999999999" "").
    + left. reflexivity.
    + exact (demo_servesFile_notes "bytes=99999999999999999999-").
    + discriminate.
    + reflexivity.
    + reflexivity.
    + vm_compute. discriminate.
    + reflexivity.
  - apply (range_start_beyond_size demoEnv demoSys
             (request "HEAD" "/download/notes.txt" "bytes=11-99999999999999999999")
             (regular "notes.txt" "hello world") 11 "11" "99999999999999999999").
    + right. reflexivity.
    + exact (servesFile_withMethod _ _ _ _ _ "HEAD"
               (demo_servesFile_notes "bytes=11-99999999999999999999")).
    + discriminate.
    + reflexivity.
    + reflexivity.
    + vm_compute. discriminate.
    + reflexivity.
Defined.

Lemma Split_sep_length sep : forall s,
  contains_byte sep s = true -> (2 <= length (strings.Split s sep))%nat.
Proof.
  induction s as [|c r IH]; [discriminate|].
  cbn [contains_byte strings.Split]. destruct (Ascii.eqb c sep).
  - intros _. pose proof (Split_nonempty r sep).
    destruct (strings.Split r sep); [congruence | simpl; lia].
  - intros H. specialize (IH H).
    destruct (strings.Split r sep); simpl in *; lia.
Qed.

Lemma HasPrefix_inv p : forall s,
  strings.HasPrefix s p = true -> s = p +:+ strings.drop (String.length p) s.
Proof.
  induction p as [|c p IH]; intros s H; [reflexivity|].
  destruct s as [|d s]; [discriminate|]. cbn [strings.HasPrefix] in H.
  apply andb_true_iff in H as [Hc Hp]. apply Ascii.eqb_eq in Hc. subst d.
  cbn [String.length strings.drop]. rewrite append_String. f_equal. exact (IH s Hp).
Qed.

Lemma rangeSpecs_comma h :
  strings.HasPrefix h "bytes=" = true -> contains_byte "," h = true ->
  (2 <= length (rangeSpecs h))%nat.
Proof.
  intros Hp Hc. unfold rangeSpecs. apply Split_sep_length.
  unfold strings.TrimPrefix. rewrite Hp.
  rewrite (HasPrefix_inv _ _ Hp) in Hc. exact Hc.
Qed.

Lemma parseRange_length h S ranges :
  parseRange h S = Ok ranges -> length ranges = length (rangeSpecs h).
Proof.
  unfold parseRange, rangeSpecs.
  destruct (strings.HasPrefix h "bytes="); cbn [negb]; [|discriminate].
  intros H. apply parseRange_loop_length in H. exact H.
Qed.

(** X4: parseRange returns one range for each comma-separated spec, so
    a header that holds a comma never parses to a single range: the
    download answers 416 to every such header, also when each of its
    ranges is valid. *)
Theorem range_list_refused env sys r file S :
  http.Method r = "GET" \/ http.Method r = "HEAD" ->
  servesFile env sys r file S ->
  contains_byte "," (http.Header_Get r "Range") = true ->
  (forall ranges, parseRange (http.Header_Get r "Range") S = Ok ranges ->
                  length ranges = length (rangeSpecs (http.Header_Get r "Range"))
                  /\ (2 <= length ranges)%nat)
  /\ http.status (downloadHandler env sys r) = 416
  /\ http.header (downloadHandler env sys r) !! "Content-Range"
     = Some ("bytes */" +:+ strconv.FormatInt S).
Proof.
  intros Hm Hs Hc.
  assert (Hlen : forall ranges, parseRange (http.Header_Get r "Range") S = Ok ranges ->
            length ranges = length (rangeSpecs (http.Header_Get r "Range"))
            /\ (2 <= length ranges)%nat).
  { intros ranges Hp. pose proof (parseRange_length _ _ _ Hp) as Hl. split; [exact Hl|].
    rewrite Hl. apply rangeSpecs_comma; [|exact Hc].
    unfold parseRange in Hp.
    destruct (strings.HasPrefix (http.Header_Get r "Range") "bytes="); [reflexivity|].
    discriminate Hp. }
  split; [exact Hlen|].
  apply (download_refused env sys r file S Hm Hs).
  - intros E. rewrite E in Hc. discriminate Hc.
  - intros range Hp. destruct (Hlen _ Hp) as [_ H2]. simpl in H2. lia.
Qed.

Lemma range_list_refused_witness :
  let r := request "GET" "/download/notes.txt" "bytes=0-4,6-10" in
  parseRange "bytes=0-4,6-10" 11
  = Ok [ {| start := 0; end_ := 4 |}; {| start := 6; end_ := 10 |} ]
  /\ http.status (downloadHandler demoEnv demoSys r) = 416
  /\ http.header (downloadHandler demoEnv demoSys r) !! "Content-Range"
     = Some ("bytes */" +:+ strconv.FormatInt 11).
Proof.
  split; [vm_compute; reflexivity|].
  apply (range_list_refused demoEnv demoSys
           (request "GET" "/download/notes.txt" "bytes=0-4,6-10")
           (regular "notes.txt" "hello world") 11).
  - left. reflexivity.
  - exact (demo_servesFile_notes "bytes=0-4,6-10").
  - reflexivity.
Defined.

(** The body of the reply to a GET with one range. *)
Lemma download_range_body env sys r file S st en :
  http.Method r = "GET" ->
  servesFile env sys r file S ->
  parseRange (http.Header_Get r "Range") S = Ok [ {| start := st; end_ := en |} ] ->
  http.status (downloadHandler env sys r) = 206
  /\ http.body (downloadHandler env sys r) = os.readAt file st (en - st + 1).
Proof.
  intros Hm Hs Hp.
  pose proof (single_range_bounds _ _ _ _ Hp) as Hb.
  pose proof (parseRange_header_nonempty _ _ _ Hp) as Hne.
  rewrite (downloadHandler_served env sys r file S (or_introl Hm) Hs).
  destruct Hs as (_ & _ & _ & HS & Hmax).
  unfold sendFile, commonHeaders. rewrite Hne, Hp. cbn [start end_].
  rewrite (contentLength_exact st en S) by tauto.
  unfold os.Seek. rewrite (proj2 (Z.ltb_ge st 0)) by lia.
  rewrite Hm. change (string_eqb "GET" http.MethodHead) with false.
  http_simpl. rewrite Hm. change (string_eqb "GET" http.MethodHead) with false.
  cbn [negb]. http_simpl. rewrite append_Empty. auto.
Qed.

Lemma substring_app s : forall a n m,
  String.substring a n s +:+ String.substring (a + n) m s = String.substring a (n + m) s.
Proof.
  induction s as [|c s IH]; intros a n m.
  - destruct a, n, m; reflexivity.
  - destruct a as [|a].
    + destruct n as [|n]; [reflexivity|].
      cbn [Nat.add String.substring]. rewrite append_String. f_equal.
      exact (IH 0%nat n m).
    + cbn [Nat.add String.substring]. apply IH.
Qed.

Lemma substring_all s : String.substring 0 (String.length s) s = s.
Proof.
  induction s as [|c s IH]; [reflexivity|].
  cbn [String.length String.substring]. rewrite IH. reflexivity.
Qed.

(** X5: downloads resume.  The bodies of two GET requests for adjacent
    ranges of a file, [(a, b)] and [(b+1, c)], are together the bytes
    [a] to [c] of the file; when the first starts at 0 and the second
    ends at the last byte, they are together the whole file. *)
Theorem adjacent_ranges_compose env sys r1 r2 file (S a b c : Z) :
  http.Method r1 = "GET" -> http.Method r2 = "GET" ->
  servesFile env sys r1 file S -> servesFile env sys r2 file S ->
  parseRange (http.Header_Get r1 "Range") S = Ok [ {| start := a; end_ := b |} ] ->
  parseRange (http.Header_Get r2 "Range") S = Ok [ {| start := b + 1; end_ := c |} ] ->
  http.body (downloadHandler env sys r1) +:+ http.body (downloadHandler env sys r2)
  = os.readAt file a (c - a + 1)
  /\ (a = 0 -> c = S - 1 ->
      http.body (downloadHandler env sys r1) +:+ http.body (downloadHandler env sys r2)
      = os.contents file).
Proof.
  intros Hm1 Hm2 Hs1 Hs2 Hp1 Hp2.
  destruct (download_range_body env sys r1 file S a b Hm1 Hs1 Hp1) as [_ ->].
  destruct (download_range_body env sys r2 file S (b + 1) c Hm2 Hs2 Hp2) as [_ ->].
  pose proof (single_range_bounds _ _ _ _ Hp1) as Hb1.
  pose proof (single_range_bounds _ _ _ _ Hp2) as Hb2.
  assert (Hall : os.readAt file a (b - a + 1) +:+ os.readAt file (b + 1) (c - (b + 1) + 1)
                 = os.readAt file a (c - a + 1)).
  { unfold os.readAt.
    replace (Z.to_nat (b + 1)) with (Z.to_nat a + Z.to_nat (b - a + 1))%nat by lia.
    rewrite substring_app. f_equal. lia. }
  split; [exact Hall|].
  intros -> ->. rewrite Hall. destruct Hs1 as (_ & _ & _ & HS & _).
  unfold os.readAt. cbn [Z.to_nat].
  replace (Z.to_nat (S - 1 - 0 + 1)) with (String.length (os.contents file))
    by (unfold len in HS; lia).
  apply substring_all.
Qed.

Lemma adjacent_ranges_compose_witness :
  let r1 := request "GET" "/download/notes.txt" "bytes=0-4" in
  let r2 := request "GET" "/download/notes.txt" "bytes=5-" in
  http.body (downloadHandler demoEnv demoSys r1)
  +:+ http.body (downloadHandler demoEnv demoSys r2)
  = "hello world".
Proof.
  refine (proj2 (adjacent_ranges_compose demoEnv demoSys
           (request "GET" "/download/notes.txt" "bytes=0-4")
           (request "GET" "/download/notes.txt" "bytes=5-")
           (regular "notes.txt" "hello world") 11 0 4 10
           eq_refl eq_refl (demo_servesFile_notes "bytes=0-4")
           (demo_servesFile_notes "bytes=5-") _ _) eq_refl eq_refl);
    vm_compute; reflexivity.
Defined.

(** ** The replies of the handlers *)

Lemma Header_Set_fresh k v w :
  http.status w = 0 ->
  http.status (http.Header_Set k v w) = 0
  /\ http.body (http.Header_Set k v w) = http.body w
  /\ http.bodyAllowed (http.Header_Set k v w) = http.bodyAllowed w
  /\ http.header (http.Header_Set k v w) = <[k := v]> (http.header w).
Proof. intros H. unfold http.Header_Set. rewrite H. cbn. auto. Qed.

Lemma Write_reply data w :
  http.status (http.Write data w) = (if http.status w =? 0 then 200 else http.status w)
  /\ http.body (http.Write data w)
     = (if http.bodyAllowed w then http.body w +:+ data else http.body w)
  /\ http.bodyAllowed (http.Write data w) = http.bodyAllowed w.
Proof.
  unfold http.Write, http.WriteHeader.
  destruct (http.status w =? 0); cbn; auto.
Qed.

Lemma WriteHeader_fresh code w :
  http.status w = 0 ->
  http.status (http.WriteHeader code w) = code
  /\ http.body (http.WriteHeader code w) = http.body w
  /\ http.bodyAllowed (http.WriteHeader code w) = http.bodyAllowed w
  /\ http.header (http.WriteHeader code w) = http.header w.
Proof. intros H. unfold http.WriteHeader. rewrite H. cbn. auto. Qed.

(** [http.Error] on a reply whose header is not written yet. *)
Lemma Error_fresh w msg code :
  http.status w = 0 -> code <> 0 ->
  http.status (http.Error w msg code) = code
  /\ http.body (http.Error w msg code)
     = (if http.bodyAllowed w then http.body w +:+ (msg +:+ http.newline) else http.body w).
Proof.
  intros H Hc. destruct w as [h s b a]. cbn [http.status] in H. subst s.
  unfold http.Error. http_simpl.
  destruct code; [congruence | cbn; auto | cbn; auto].
Qed.

(** [http.Error] after the header is written: the status stays. *)
Lemma Error_written w msg code :
  http.status w <> 0 -> http.status (http.Error w msg code) = http.status w.
Proof.
  intros H. destruct w as [h s b a]. cbn [http.status] in *.
  destruct s; [congruence | reflexivity | reflexivity].
Qed.

Lemma Redirect_fresh w url code :
  http.status w = 0 -> http.status (http.Redirect w url code) = code
                       /\ http.body (http.Redirect w url code) = http.body w.
Proof.
  intros H. unfold http.Redirect.
  destruct (Header_Set_fresh "Location" url w H) as (H0 & Hb & _).
  destruct (WriteHeader_fresh code _ H0) as (H1 & H2 & _). rewrite H1, H2, Hb. auto.
Qed.

Lemma renderPage_status env name data w :
  http.status w = 0 ->
  http.status (renderPage env name data w) = 200
  \/ http.status (renderPage env name data w) = 500.
Proof.
  intros H. unfold renderPage.
  destruct (ExecuteTemplate env name data) as [page|written].
  - left. rewrite (proj1 (Write_reply page w)), H. reflexivity.
  - destruct (string_eqb written "").
    + right. apply Error_fresh; [exact H | discriminate].
    + left. destruct (Write_reply written w) as (Hs & _). rewrite H in Hs.
      change (0 =? 0) with true in Hs. cbv iota in Hs.
      rewrite Error_written by (rewrite Hs; discriminate). exact Hs.
Qed.

Lemma Error_new r msg code :
  code <> 0 ->
  http.status (http.Error (http.NewResponseWriter r) msg code) = code
  /\ http.body (http.Error (http.NewResponseWriter r) msg code)
     = (if http.bodyAllowed (http.NewResponseWriter r) then msg +:+ http.newline else "").
Proof.
  intros Hc. destruct (Error_fresh (http.NewResponseWriter r) msg code eq_refl Hc) as [Hs Hb].
  split; [exact Hs|]. rewrite Hb. reflexivity.
Qed.

Lemma securityCheck_Some env sys path r msg w' :
  securityCheck env sys path (http.NewResponseWriter r) msg = Some w' ->
  (http.status w' = 400 \/ http.status w' = 403)
  /\ (http.bodyAllowed (http.NewResponseWriter r) = false -> http.body w' = "").
Proof.
  unfold securityCheck.
  destruct (filepath.Abs (os.Getwd sys) path) as [cleanPath|e].
  - destruct (negb _); [|discriminate]. intros [= <-].
    destruct (Error_new r "Access denied" http.StatusForbidden ltac:(discriminate))
      as [Hs Hbody].
    split; [right; exact Hs|]. intros Hb. rewrite Hbody, Hb. reflexivity.
  - intros [= <-].
    destruct (Error_new r msg http.StatusBadRequest ltac:(discriminate)) as [Hs Hbody].
    split; [left; exact Hs|]. intros Hb. rewrite Hbody, Hb. reflexivity.
Qed.

Lemma sendFile_status r file S w :
  http.status w = 0 ->
  In (http.status (sendFile r file S w)) [200; 206; 416; 500].
Proof.
  intros H. unfold sendFile.
  destruct (string_eqb (http.Header_Get r "Range") "").
  - destruct (Header_Set_fresh "Content-Length" (strconv.FormatInt S) w H) as (H0 & _).
    destruct (WriteHeader_fresh http.StatusOK _ H0) as (H1 & _).
    destruct (negb _).
    + rewrite (proj1 (Write_reply _ _)), H1. simpl. auto.
    + rewrite H1. simpl. auto.
  - set (refuse := http.Error
           (http.Header_Set "Content-Range" ("bytes */" +:+ strconv.FormatInt S) w)
           "Invalid range" http.StatusRequestedRangeNotSatisfiable).
    assert (Hrefuse : http.status refuse = 416).
    { apply Error_fresh; [apply Header_Set_fresh, H | discriminate]. }
    destruct (parseRange (http.Header_Get r "Range") S) as [[|range [|? ?]]|e];
      try (fold refuse; rewrite Hrefuse; simpl; tauto).
    destruct (os.Seek (start range)).
    + match goal with |- context [http.Header_Set "Content-Range" ?v w] =>
        destruct (Header_Set_fresh "Content-Range" v w H) as (H0 & _) end.
      match goal with |- context [http.Header_Set "Content-Length" ?v ?w0] =>
        destruct (Header_Set_fresh "Content-Length" v w0 H0) as (H1 & _) end.
      match goal with |- context [http.WriteHeader http.StatusPartialContent ?w0] =>
        destruct (WriteHeader_fresh http.StatusPartialContent w0 H1) as (H2 & _) end.
      destruct (negb _).
      * rewrite (proj1 (Write_reply _ _)), H2. simpl. auto.
      * rewrite H2. simpl. auto.
    + rewrite (proj1 (Error_fresh w "Error seeking file" http.StatusInternalServerError
                        H ltac:(discriminate))).
      simpl. auto.
Qed.

(** X6: the status codes of the handlers.  browseHandler answers only
    200, 302, 400, 403, 404, 405 or 500; downloadHandler only 200, 206,
    400, 403, 404, 405, 416 or 500; uploadHandler only 200, 303, 400,
    403, 405 or 500. *)
Theorem handler_status_codes env sys room (fs : gmap string os.node) r :
  In (http.status (browseHandler env sys r)) browseStatuses
  /\ In (http.status (downloadHandler env sys r)) downloadStatuses
  /\ In (http.status (fst (uploadHandler env sys room fs r))) uploadStatuses.
Proof.
  assert (Herr : forall msg code, code <> 0 ->
            http.status (http.Error (http.NewResponseWriter r) msg code) = code).
  { intros msg code Hc. apply Error_fresh; [reflexivity | exact Hc]. }
  split; [|split].
  - unfold browseHandler, browseStatuses.
    destruct (negb (string_eqb (http.Method r) http.MethodGet));
      [rewrite Herr by discriminate; simpl; tauto|].
    destruct (securityCheck env sys _ _ _) as [w'|] eqn:Esec.
    { destruct (proj1 (securityCheck_Some _ _ _ _ _ _ Esec)) as [-> | ->]; simpl; tauto. }
    destruct (os.StatPath sys _) as [info|e].
    2:{ destruct (os.IsNotExist e); rewrite Herr by discriminate; simpl; tauto. }
    destruct (negb (os.IsDir info)).
    { match goal with |- context [http.Redirect ?w ?u ?c] =>
        rewrite (proj1 (Redirect_fresh w u c eq_refl)) end. simpl. tauto. }
    destruct (os.ReadDir sys _) as [entries|e];
      [|rewrite Herr by discriminate; simpl; tauto].
    match goal with |- context [renderPage env ?n ?d ?w] =>
      destruct (renderPage_status env n d w eq_refl) as [-> | ->] end; simpl; tauto.
  - unfold downloadHandler, downloadStatuses.
    destruct (negb (string_eqb (http.Method r) http.MethodGet)
              && negb (string_eqb (http.Method r) http.MethodHead));
      [rewrite Herr by discriminate; simpl; tauto|].
    destruct (securityCheck env sys _ _ _) as [w'|] eqn:Esec.
    { destruct (proj1 (securityCheck_Some _ _ _ _ _ _ Esec)) as [-> | ->]; simpl; tauto. }
    destruct (os.Open sys _) as [file|e].
    2:{ destruct (os.IsNotExist e); rewrite Herr by discriminate; simpl; tauto. }
    destruct (os.Stat file) as [fileInfo|e];
      [|rewrite Herr by discriminate; simpl; tauto].
    destruct (os.IsDir fileInfo); [rewrite Herr by discriminate; simpl; tauto|].
    destruct (mimePolicy env _) as [contentType disposition].
    match goal with |- context [sendFile r file ?S ?w] =>
      pose proof (sendFile_status r file S w eq_refl) as Hin end.
    simpl in Hin. simpl. tauto.
  - unfold uploadHandler, uploadStatuses.
    destruct (string_eqb (http.Method r) http.MethodGet).
    { cbn [fst].
      match goal with |- context [renderPage env ?n ?d ?w] =>
        destruct (renderPage_status env n d w eq_refl) as [-> | ->] end; simpl; tauto. }
    destruct (negb (string_eqb (http.Method r) http.MethodPost));
      [cbn [fst]; rewrite Herr by discriminate; simpl; tauto|].
    destruct (http.ParseMultipartForm r _) as [form|e];
      [|cbn [fst]; rewrite Herr by discriminate; simpl; tauto].
    destruct (http.FormFile form "file") as [header|e];
      [|cbn [fst]; rewrite Herr by discriminate; simpl; tauto].
    destruct (negb (string_eqb (http.FormValue r form "directory") "")).
    + destruct (securityCheck env sys _ _ _) as [w'|] eqn:Esec.
      { cbn [fst].
        destruct (proj1 (securityCheck_Some _ _ _ _ _ _ Esec)) as [-> | ->]; simpl; tauto. }
      destruct (os.MkdirAll _ fs) as [fs1|e];
        [|cbn [fst]; rewrite Herr by discriminate; simpl; tauto].
      destruct (os.Create _ fs1) as [fs2|e];
        [|cbn [fst]; rewrite Herr by discriminate; simpl; tauto].
      destruct (os.CopyTo _ _ room fs2) as [[[]|e] fs3]; cbn [fst];
        [match goal with |- context [http.Redirect ?w ?u ?c] =>
           rewrite (proj1 (Redirect_fresh w u c eq_refl)) end
        | rewrite Herr by discriminate];
        simpl; tauto.
    + destruct (os.Create _ fs) as [fs2|e];
        [|cbn [fst]; rewrite Herr by discriminate; simpl; tauto].
      destruct (os.CopyTo _ _ room fs2) as [[[]|e] fs3]; cbn [fst];
        [match goal with |- context [http.Redirect ?w ?u ?c] =>
           rewrite (proj1 (Redirect_fresh w u c eq_refl)) end
        | rewrite Herr by discriminate];
        simpl; tauto.
Qed.

(** ** The containment check on paths inside and outside the root *)

Lemma HasPrefix_app a b : strings.HasPrefix (a +:+ b) a = true.
Proof.
  induction a as [|c a IH]; [reflexivity|].
  rewrite append_String. cbn [strings.HasPrefix]. rewrite Ascii.eqb_refl, IH. reflexivity.
Qed.

Lemma joinSep_app es ns :
  es <> [] -> ns <> [] ->
  filepath.joinSep (es ++ ns) = filepath.joinSep es +:+ String "/" (filepath.joinSep ns).
Proof.
  intros Hes Hns. induction es as [|e es IH]; [congruence|].
  destruct es as [|e' es].
  - cbn [app]. apply joinSep_cons, Hns.
  - change ((e :: e' :: es) ++ ns) with (e :: ((e' :: es) ++ ns)).
    rewrite joinSep_cons by discriminate. rewrite IH by discriminate.
    rewrite (joinSep_cons e (e' :: es)) by discriminate.
    rewrite append_assoc, append_String. reflexivity.
Qed.

Lemma HasPrefix_rootedPath_app es ns :
  strings.HasPrefix (rootedPath (es ++ ns)) (rootedPath es) = true.
Proof.
  destruct es as [|e es]; [reflexivity|].
  destruct ns as [|n ns].
  - rewrite app_nil_r. rewrite <- (append_Empty_r (rootedPath (e :: es))) at 1.
    apply HasPrefix_app.
  - unfold rootedPath. rewrite joinSep_app by discriminate.
    rewrite <- append_String. apply HasPrefix_app.
Qed.

(** Joining a relative path of names to a clean absolute path appends
    the names. *)
Lemma Join_rootedPath_names es ns :
  Forall (fun e => isName e = true) es -> Forall (fun e => isName e = true) ns ->
  filepath.Join [rootedPath es; filepath.joinSep ns] = rootedPath (es ++ ns).
Proof.
  intros Hes Hns. rewrite (Join_rootedPath es _ Hes). f_equal.
  destruct ns as [|n ns].
  - change (strings.Split (filepath.joinSep []) "/") with [""]. cbn [fold_left].
    rewrite cleanStep_skip by auto. rewrite rev_involutive, app_nil_r. reflexivity.
  - rewrite Split_joinSep; [|discriminate|].
    + rewrite (fold_cleanStep_names true (n :: ns) (rev es) Hns).
      rewrite rev_app_distr, !rev_involutive. reflexivity.
    + eapply Forall_impl; [exact Hns|]. intros x Hx. exact (isName_no_sep x Hx).
Qed.

(** Whatever is joined to a clean absolute path, the result is a clean
    absolute path. *)
Lemma Join_rootedPath_clean es x :
  Forall (fun e => isName e = true) es ->
  exists es', Forall (fun e => isName e = true) es'
              /\ filepath.Join [rootedPath es; x] = rootedPath es'.
Proof.
  intros Hes. rewrite (Join_rootedPath es x Hes). eexists. split; [|reflexivity].
  apply Forall_rev, fold_cleanStep_rooted; [apply Split_elems_no_sep | apply Forall_rev, Hes].
Qed.

Lemma Abs_rootedPath {E} (wd : result E string) es :
  Forall (fun e => isName e = true) es ->
  filepath.Abs wd (rootedPath es) = Ok (rootedPath es).
Proof.
  intros Hes. unfold filepath.Abs.
  change (filepath.IsAbs (rootedPath es)) with true. cbv iota.
  rewrite (Clean_rootedPath es Hes). reflexivity.
Qed.

(** With a clean absolute working directory the check compares the
    joined path itself with the working directory. *)
Lemma securityCheck_rooted env sys es x w msg :
  workingDir env = rootedPath es -> Forall (fun e => isName e = true) es ->
  securityCheck env sys (filepath.Join [workingDir env; x]) w msg
  = if strings.HasPrefix (filepath.Join [workingDir env; x]) (workingDir env) then None
    else Some (http.Error w "Access denied" http.StatusForbidden).
Proof.
  intros Hwd Hes. rewrite Hwd.
  destruct (Join_rootedPath_clean es x Hes) as (es' & Hes' & ->).
  apply securityCheck_prefix; [apply Abs_rootedPath, Hes'|].
  rewrite Hwd. apply Abs_rootedPath, Hes.
Qed.

Lemma TrimPrefix_app p x : strings.TrimPrefix (p +:+ x) p = x.
Proof.
  unfold strings.TrimPrefix. rewrite HasPrefix_app.
  induction p as [|c p IH]; [reflexivity|].
  rewrite append_String. cbn [String.length strings.drop]. exact IH.
Qed.

(** X7: a request for a path inside the working directory is never
    refused by the containment check: when the working directory is a
    clean absolute path and the requested path is a sequence of proper
    names, the check lets the browse and the download request through,
    and neither handler answers 403. *)
Theorem inside_never_denied env sys es ns (rb rd : http.Request) :
  workingDir env = rootedPath es ->
  Forall (fun e => isName e = true) es -> Forall (fun e => isName e = true) ns ->
  http.URL_Path rb = "/" +:+ filepath.joinSep ns ->
  http.URL_Path rd = "/download/" +:+ filepath.joinSep ns ->
  browsePath env rb = rootedPath (es ++ ns)
  /\ downloadPath env rd = rootedPath (es ++ ns)
  /\ securityCheck env sys (browsePath env rb) (http.NewResponseWriter rb) "Invalid path" = None
  /\ securityCheck env sys (downloadPath env rd) (http.NewResponseWriter rd) "Invalid path" = None
  /\ http.status (browseHandler env sys rb) <> 403
  /\ http.status (downloadHandler env sys rd) <> 403.
Proof.
  intros Hwd Hes Hns Hb Hd.
  assert (Pb : browsePath env rb = rootedPath (es ++ ns)).
  { unfold browsePath, browseRelPath. rewrite Hb, TrimPrefix_app, Hwd.
    apply Join_rootedPath_names; assumption. }
  assert (Pd : downloadPath env rd = rootedPath (es ++ ns)).
  { unfold downloadPath. rewrite Hd, TrimPrefix_app, Hwd.
    apply Join_rootedPath_names; assumption. }
  assert (Cb : securityCheck env sys (browsePath env rb) (http.NewResponseWriter rb)
                 "Invalid path" = None).
  { unfold browsePath at 1. rewrite (securityCheck_rooted env sys es _ _ _ Hwd Hes).
    fold (browsePath env rb). rewrite Pb, Hwd, HasPrefix_rootedPath_app. reflexivity. }
  assert (Cd : securityCheck env sys (downloadPath env rd) (http.NewResponseWriter rd)
                 "Invalid path" = None).
  { unfold downloadPath at 1. rewrite (securityCheck_rooted env sys es _ _ _ Hwd Hes).
    fold (downloadPath env rd). rewrite Pd, Hwd, HasPrefix_rootedPath_app. reflexivity. }
  repeat (split; [assumption|]).
  assert (Herr : forall (r : http.Request) msg code, code <> 0 ->
            http.status (http.Error (http.NewResponseWriter r) msg code) = code).
  { intros r msg code Hc. apply Error_fresh; [reflexivity | exact Hc]. }
  split.
  - unfold browseHandler. fold (browseRelPath rb). fold (browsePath env rb). rewrite Cb.
    destruct (negb (string_eqb (http.Method rb) http.MethodGet));
      [rewrite Herr by discriminate; discriminate|].
    destruct (os.StatPath sys _) as [info|e].
    2:{ destruct (os.IsNotExist e); rewrite Herr by discriminate; discriminate. }
    destruct (negb (os.IsDir info)).
    { match goal with |- context [http.Redirect ?w ?u ?c] =>
        rewrite (proj1 (Redirect_fresh w u c eq_refl)) end. discriminate. }
    destruct (os.ReadDir sys _) as [entries|e];
      [|rewrite Herr by discriminate; discriminate].
    match goal with |- context [renderPage env ?n ?d ?w] =>
      destruct (renderPage_status env n d w eq_refl) as [-> | ->] end; discriminate.
  - unfold downloadHandler. fold (downloadPath env rd). rewrite Cd.
    destruct (negb (string_eqb (http.Method rd) http.MethodGet)
              && negb (string_eqb (http.Method rd) http.MethodHead));
      [rewrite Herr by discriminate; discriminate|].
    destruct (os.Open sys _) as [file|e].
    2:{ destruct (os.IsNotExist e); rewrite Herr by discriminate; discriminate. }
    destruct (os.Stat file) as [fileInfo|e];
      [|rewrite Herr by discriminate; discriminate].
    destruct (os.IsDir fileInfo); [rewrite Herr by discriminate; discriminate|].
    destruct (mimePolicy env _) as [contentType disposition].
    match goal with |- context [sendFile rd file ?S ?w] =>
      pose proof (sendFile_status rd file S w eq_refl) as Hin end.
    simpl in Hin. intros E. rewrite E in Hin.
    repeat (destruct Hin as [Hin|Hin]; [discriminate Hin|]). exact Hin.
Qed.

Lemma inside_never_denied_witness :
  let rb := request "GET" "/sub/photos" "" in
  let rd := request "GET" "/download/sub/photos" "" in
  browsePath demoEnv rb = "/srv/files/sub/photos"
  /\ http.status (browseHandler demoEnv demoSys rb) <> 403
  /\ http.status (downloadHandler demoEnv demoSys rd) <> 403.
Proof.
  pose proof (inside_never_denied demoEnv demoSys ["srv"; "files"] ["sub"; "photos"]
                (request "GET" "/sub/photos" "") (request "GET" "/download/sub/photos" "")
                eq_refl ltac:(repeat constructor) ltac:(repeat constructor)
                eq_refl eq_refl) as (H1 & _ & _ & _ & H5 & H6).
  split; [exact H1|]. split; assumption.
Defined.



(** X9: an upload that is answered neither 303 nor 500 leaves the file
    tree as it was: the form page, a wrong method, a form that does not
    parse, a missing file part and a refused directory write nothing. *)
Theorem upload_refused_no_effect env sys room (fs : gmap string os.node) r :
  http.status (fst (uploadHandler env sys room fs r)) <> 303 ->
  http.status (fst (uploadHandler env sys room fs r)) <> 500 ->
  snd (uploadHandler env sys room fs r) = fs.
Proof.
  assert (Herr : forall msg code, code <> 0 ->
            http.status (http.Error (http.NewResponseWriter r) msg code) = code).
  { intros msg code Hc. apply Error_fresh; [reflexivity | exact Hc]. }
  unfold uploadHandler.
  destruct (string_eqb (http.Method r) http.MethodGet); [reflexivity|].
  destruct (negb (string_eqb (http.Method r) http.MethodPost)); [reflexivity|].
  destruct (http.ParseMultipartForm r _) as [form|e]; [|reflexivity].
  destruct (http.FormFile form "file") as [header|e]; [|reflexivity].
  destruct (negb (string_eqb (http.FormValue r form "directory") "")).
  - destruct (securityCheck env sys _ _ _) as [w'|]; [reflexivity|].
    destruct (os.MkdirAll _ fs) as [fs1|e]; [|reflexivity].
    destruct (os.Create _ fs1) as [fs2|e]; cbn [fst snd].
    + destruct (os.CopyTo _ _ room fs2) as [[[]|e] fs3]; cbn [fst snd]; intros H303 H500.
      * exfalso. apply H303.
        match goal with |- context [http.Redirect ?w ?u ?c] =>
          exact (proj1 (Redirect_fresh w u c eq_refl)) end.
      * exfalso. apply H500. apply Herr. discriminate.
    + intros _ H500. exfalso. apply H500. apply Herr. discriminate.
  - destruct (os.Create _ fs) as [fs2|e]; cbn [fst snd]; [|reflexivity].
    destruct (os.CopyTo _ _ room fs2) as [[[]|e] fs3]; cbn [fst snd]; intros H303 H500.
    + exfalso. apply H303.
      match goal with |- context [http.Redirect ?w ?u ?c] =>
        exact (proj1 (Redirect_fresh w u c eq_refl)) end.
    + exfalso. apply H500. apply Herr. discriminate.
Qed.

Lemma upload_refused_no_effect_witness :
  snd (uploadHandler demoEnv demoSys None demoFs (request "PUT" "/upload" "")) = demoFs.
Proof.
  apply (upload_refused_no_effect demoEnv demoSys None demoFs (request "PUT" "/upload" ""));
    vm_compute; discriminate.
Defined.


Lemma sameHead_Header_Set key value a b :
  sameHead a b -> sameHead (http.Header_Set key value a) (http.Header_Set key value b).
Proof.
  intros [Hs Hh]. unfold http.Header_Set. rewrite Hs.
  destruct (http.status b =? 0); split; cbn [http.status http.header]; congruence.
Qed.

Lemma sameHead_Header_Del key a b :
  sameHead a b -> sameHead (http.Header_Del key a) (http.Header_Del key b).
Proof.
  intros [Hs Hh]. unfold http.Header_Del. rewrite Hs.
  destruct (http.status b =? 0); split; cbn [http.status http.header]; congruence.
Qed.

Lemma sameHead_WriteHeader code a b :
  sameHead a b -> sameHead (http.WriteHeader code a) (http.WriteHeader code b).
Proof.
  intros [Hs Hh]. unfold http.WriteHeader. rewrite Hs.
  destruct (http.status b =? 0); split; cbn [http.status http.header]; congruence.
Qed.

Lemma sameHead_Write data data' a b :
  sameHead a b -> sameHead (http.Write data a) (http.Write data' b).
Proof.
  intros H. apply (sameHead_WriteHeader http.StatusOK) in H. destruct H as [Hs Hh].
  unfold http.Write. split; cbn [http.status http.header]; assumption.
Qed.

Lemma sameHead_Error msg code a b :
  sameHead a b -> sameHead (http.Error a msg code) (http.Error b msg code).
Proof.
  intros H. unfold http.Error.
  apply sameHead_Write, sameHead_WriteHeader, sameHead_Header_Set, sameHead_Header_Set,
    sameHead_Header_Del, H.
Qed.

(** Once the header is written, a write changes neither the status nor
    the headers. *)
Lemma sameHead_written data code a b :
  code <> 0 ->
  sameHead a b ->
  sameHead (http.Write data (http.WriteHeader code a)) (http.WriteHeader code b).
Proof.
  intros Hc H. apply (sameHead_WriteHeader code) in H. destruct H as [Hs Hh].
  assert (Hn : http.status (http.WriteHeader code a) <> 0).
  { unfold http.WriteHeader. destruct (http.status a =? 0) eqn:E; cbn [http.status].
    - exact Hc.
    - apply Z.eqb_neq, E. }
  unfold http.Write. split; cbn [http.status http.header].
  - rewrite <- Hs. unfold http.WriteHeader at 1.
    apply Z.eqb_neq in Hn. rewrite Hn. reflexivity.
  - rewrite <- Hh. unfold http.WriteHeader at 1.
    apply Z.eqb_neq in Hn. rewrite Hn. reflexivity.
Qed.

Lemma sameHead_sendFile rg rh file S a b :
  http.Method rg = "GET" -> http.Method rh = "HEAD" ->
  http.Header rg = http.Header rh ->
  sameHead a b -> sameHead (sendFile rg file S a) (sendFile rh file S b).
Proof.
  intros Hg Hh HH Hab. unfold sendFile, http.Header_Get. cbv zeta.
  rewrite HH, Hg, Hh.
  change (negb (string_eqb "GET" http.MethodHead)) with true.
  change (negb (string_eqb "HEAD" http.MethodHead)) with false. cbv iota.
  set (rangeHeader := match http.Header rh !! "Range" with
                      | Some (v :: _) => v
                      | _ => EmptyString
                      end).
  destruct (string_eqb rangeHeader "").
  - apply sameHead_written; [discriminate|]. apply sameHead_Header_Set, Hab.
  - destruct (parseRange rangeHeader S) as [[|range [|? ?]]|e];
      try (apply sameHead_Error, sameHead_Header_Set, Hab).
    destruct (os.Seek (start range)); [|apply sameHead_Error, Hab].
    apply sameHead_written; [discriminate|].
    apply sameHead_Header_Set, sameHead_Header_Set, Hab.
Qed.

Lemma downloadHandler_sameHead env sys r :
  sameHead (downloadHandler env sys (withMethod "GET" r))
           (downloadHandler env sys (withMethod "HEAD" r)).
Proof.
  assert (H0 : sameHead (http.NewResponseWriter (withMethod "GET" r))
                        (http.NewResponseWriter (withMethod "HEAD" r)))
    by (split; reflexivity).
  unfold downloadHandler. cbv zeta. cbn [withMethod http.Method http.URL_Path].
  change (negb (string_eqb "GET" http.MethodGet)
          && negb (string_eqb "GET" http.MethodHead)) with false.
  change (negb (string_eqb "HEAD" http.MethodGet)
          && negb (string_eqb "HEAD" http.MethodHead)) with false.
  cbv iota.
  set (fullPath := filepath.Join _).
  unfold securityCheck.
  destruct (filepath.Abs (os.Getwd sys) fullPath) as [cleanPath|e];
    [|apply sameHead_Error, H0].
  cbv zeta. destruct (negb (strings.HasPrefix cleanPath _)); [apply sameHead_Error, H0|].
  destruct (os.Open sys fullPath) as [file|e].
  2:{ destruct (os.IsNotExist e); apply sameHead_Error, H0. }
  destruct (os.Stat file) as [fileInfo|e]; [|apply sameHead_Error, H0].
  destruct (os.IsDir fileInfo); [apply sameHead_Error, H0|].
  destruct (mimePolicy env fullPath) as [contentType disposition].
  apply sameHead_sendFile; try reflexivity.
  apply sameHead_Header_Set, sameHead_Header_Set, sameHead_Header_Set, H0.
Qed.

(** X10: HEAD requests.  For every request, whatever the path, the
    file and the Range header, downloadHandler answers the HEAD request
    with the status and the headers with which it answers the GET
    request: the method decides about nothing but the body. *)
Theorem head_as_get env sys r :
  http.status (downloadHandler env sys (withMethod "HEAD" r))
  = http.status (downloadHandler env sys (withMethod "GET" r))
  /\ http.header (downloadHandler env sys (withMethod "HEAD" r))
     = http.header (downloadHandler env sys (withMethod "GET" r)).
Proof.
  destruct (downloadHandler_sameHead env sys r) as [Hs Hh]. split; congruence.
Qed.

(** ** Uploads read back *)

Lemma HasPrefix_trans c : forall a b,
  strings.HasPrefix a b = true -> strings.HasPrefix b c = true ->
  strings.HasPrefix a c = true.
Proof.
  induction c as [|x c IH]; intros a b Hab Hbc; [reflexivity|].
  destruct b as [|y b]; [discriminate|]. destruct a as [|z a]; [discriminate|].
  cbn [strings.HasPrefix] in *.
  apply andb_true_iff in Hab as [H1 H2]. apply andb_true_iff in Hbc as [H3 H4].
  apply Ascii.eqb_eq in H1, H3. subst.
  rewrite Ascii.eqb_refl. exact (IH _ _ H2 H4).
Qed.

(** The whole file in reply to a GET without Range header. *)
Lemma download_whole_body env sys r file S :
  http.Method r = "GET" ->
  servesFile env sys r file S ->
  http.Header_Get r "Range" = "" ->
  http.status (downloadHandler env sys r) = 200
  /\ http.body (downloadHandler env sys r) = os.contents file
  /\ http.header (downloadHandler env sys r) !! "Content-Length"
     = Some (strconv.FormatInt S).
Proof.
  intros Hm Hs Hr.
  rewrite (downloadHandler_served env sys r file S (or_introl Hm) Hs).
  unfold sendFile, commonHeaders. rewrite Hr, Hm.
  change (string_eqb "" "") with true.
  change (string_eqb "GET" http.MethodHead) with false.
  http_simpl. rewrite Hm. change (string_eqb "GET" http.MethodHead) with false.
  cbn [negb]. split; [reflexivity|]. split; [reflexivity|]. by simplify_map_eq.
Qed.

(** A successful upload passed the check of its directory. *)
Lemma upload_success_checked env sys room (fs : gmap string os.node) r form header :
  http.Method r = "POST" ->
  http.ParseMultipartForm r (Z.shiftl 100 20) = Ok form ->
  http.FormFile form "file" = Ok header ->
  http.status (fst (uploadHandler env sys room fs r)) = 303 ->
  http.FormValue r form "directory" <> "" ->
  securityCheck env sys (uploadTarget env (http.FormValue r form "directory"))
    (http.NewResponseWriter r) "Invalid directory path" = None.
Proof.
  intros Hm Hform Hfile H303 Hsub. revert H303.
  unfold uploadHandler. rewrite Hm.
  change (string_eqb "POST" http.MethodGet) with false.
  change (string_eqb "POST" http.MethodPost) with true.
  cbn [negb]. rewrite Hform, Hfile.
  rewrite (proj2 (string_eqb_neq _ _) Hsub). cbn [negb].
  destruct (securityCheck env sys _ _ _) as [w'|] eqn:Esec; [|reflexivity].
  cbn [fst]. intros H303.
  destruct (proj1 (securityCheck_Some _ _ _ _ _ _ Esec)) as [E|E];
    rewrite E in H303; discriminate.
Qed.

(** X11: what is uploaded can be downloaded.  After an upload that is
    answered 303, a GET request without Range header for the
    destination, served from the file tree the upload left, is answered
    200 with the uploaded content as its body and its length as
    Content-Length. *)
Theorem upload_then_download env sys room mtime (fs : gmap string os.node)
  r form header (r2 : http.Request) :
  cleanAbs (workingDir env) -> fsOk fs -> fs !! workingDir env = Some os.NDir ->
  http.Method r = "POST" ->
  http.ParseMultipartForm r (Z.shiftl 100 20) = Ok form ->
  http.FormFile form "file" = Ok header ->
  len (http.Content header) <= int64.max ->
  http.status (fst (uploadHandler env sys room fs r)) = 303 ->
  http.Method r2 = "GET" -> http.Header_Get r2 "Range" = "" ->
  downloadPath env r2
  = filepath.Join [uploadTarget env (http.FormValue r form "directory");
                   filepath.Base (http.Filename header)] ->
  let fs' := snd (uploadHandler env sys room fs r) in
  let w2 := downloadHandler env (fsReads mtime fs') r2 in
  http.status w2 = 200
  /\ http.body w2 = http.Content header
  /\ http.header w2 !! "Content-Length"
     = Some (strconv.FormatInt (len (http.Content header))).
Proof.
  intros Hwd Hok Hwdir Hm Hform Hfile Hlen H303 Hm2 Hr2 Hpath fs' w2.
  destruct (cleanAbs_rootedPath _ Hwd) as (ws & Hws & Ewd).
  destruct (uploadTarget_rooted env (http.FormValue r form "directory") Hwd)
    as (es & Hes & Ht).
  pose proof (uploadHandler_post env sys room fs r form header Hm Hform Hfile) as Hpost.
  cbv zeta in Hpost. fold fs' in Hpost.
  destruct Hpost as [[_ Hno] | (fs1 & Hst & Hrest)]; [contradiction|].
  destruct Hrest as [(e & _ & _ & Hno) | (fs2 & Hcreate & Hfs' & Hcopy)]; [contradiction|].
  destruct (upload_stage1 env fs fs1 _ es Hes Ht Hok Hwdir Hst) as (Hok1 & Hdir1 & _).
  rewrite Ht in Hcreate, Hfs', Hcopy, Hpath.
  pose proof (Create_base_name fs1 fs2 es _ Hes Hok1 Hdir1 Hcreate) as Hname.
  rewrite (Join_rootedPath_name es _ Hes Hname) in Hfs', Hcopy, Hpath.
  set (dst := rootedPath (es ++ [filepath.Base (http.Filename header)])) in *.
  destruct (CopyTo_effect dst (http.Content header) room fs2) as (written & Hw & Hall).
  assert (Hlook : fs' !! dst = Some (os.NFile (http.Content header))).
  { rewrite Hfs', Hw, (Hall (Hcopy H303)). apply lookup_insert_eq. }
  assert (Hprefix : strings.HasPrefix dst (workingDir env) = true).
  { apply (HasPrefix_trans _ _ (rootedPath es)); [apply HasPrefix_rootedPath_app|].
    destruct (string_eqb (http.FormValue r form "directory") "") eqn:Esub.
    - unfold uploadTarget in Ht. rewrite Esub in Ht. rewrite <- Ht.
      rewrite <- (append_Empty_r (workingDir env)) at 1. apply HasPrefix_app.
    - apply string_eqb_neq in Esub.
      pose proof (upload_success_checked env sys room fs r form header
                    Hm Hform Hfile H303 Esub) as Hc.
      rewrite Ht in Hc.
      rewrite (securityCheck_prefix env sys _ _ _ (rootedPath es) (workingDir env)) in Hc.
      + destruct (strings.HasPrefix (rootedPath es) (workingDir env));
          [reflexivity | discriminate Hc].
      + apply Abs_rootedPath, Hes.
      + rewrite Ewd. apply Abs_rootedPath, Hws. }
  assert (Hserve : servesFile env (fsReads mtime fs') r2
                     {| os.Stat := Ok (nodeInfo mtime dst (os.NFile (http.Content header)));
                        os.contents := http.Content header |}
                     (len (http.Content header))).
  { unfold servesFile. rewrite Hpath. split; [|split; [|split; [|split]]].
    - rewrite (securityCheck_prefix env (fsReads mtime fs') dst _ _ dst (workingDir env)).
      + rewrite Hprefix. reflexivity.
      + apply Abs_rootedPath. apply Forall_app. split; [exact Hes|].
        constructor; [exact Hname | constructor].
      + rewrite Ewd. apply Abs_rootedPath, Hws.
    - cbn [fsReads os.Open]. rewrite Hlook. reflexivity.
    - eexists. split; [reflexivity|]. split; reflexivity.
    - reflexivity.
    - exact Hlen. }
  exact (download_whole_body env (fsReads mtime fs') r2 _ _ Hm2 Hserve Hr2).
Qed.

Lemma upload_then_download_witness :
  let r := uploadRequest "sub" "../../etc/passwd" "hello" in
  let fs' := snd (uploadHandler demoEnv demoSys None demoFs r) in
  let w2 := downloadHandler demoEnv (fsReads (fun _ => 0) fs')
              (request "GET" "/download/sub/passwd" "") in
  http.status w2 = 200 /\ http.body w2 = "hello"
  /\ http.header w2 !! "Content-Length" = Some (strconv.FormatInt 5).
Proof.
  refine (upload_then_download demoEnv demoSys None (fun _ => 0) demoFs
            (uploadRequest "sub" "../../etc/passwd" "hello") _ _
            (request "GET" "/download/sub/passwd" "")
            demoEnv_cleanAbs demoFs_ok eq_refl eq_refl eq_refl eq_refl _ _
            eq_refl eq_refl _).
  - vm_compute. discriminate.
  - vm_compute. reflexivity.
  - vm_compute. reflexivity.
Defined.

Lemma length_append_string (a b : string) :
  String.length (a +:+ b) = (String.length a + String.length b)%nat.
Proof.
  induction a as [|c a IH]; [reflexivity|].
  rewrite append_String. cbn [String.length]. rewrite IH. reflexivity.
Qed.

Lemma rootedPath_snoc_neq es n : n <> "" -> rootedPath (es ++ [n]) <> rootedPath es.
Proof.
  intros Hn E. apply (f_equal String.length) in E.
  rewrite rootedPath_snoc, length_append_string in E.
  destruct n as [|c n]; [congruence|].
  destruct es as [|e es].
  - vm_compute in E. lia.
  - cbn [String.length] in E. lia.
Qed.

(** X12: what is uploaded is listed.  After an upload that is answered
    303, the listing of the target directory, read from the file tree
    the upload left, holds an entry for the file, under its base name
    and with the length of the uploaded content as its size. *)
Theorem upload_then_listed env sys room mtime (fs : gmap string os.node)
  r form header (rb : http.Request) :
  cleanAbs (workingDir env) -> fsOk fs -> fs !! workingDir env = Some os.NDir ->
  http.Method r = "POST" ->
  http.ParseMultipartForm r (Z.shiftl 100 20) = Ok form ->
  http.FormFile form "file" = Ok header ->
  http.status (fst (uploadHandler env sys room fs r)) = 303 ->
  http.Method rb = "GET" ->
  browsePath env rb = uploadTarget env (http.FormValue r form "directory") ->
  let fs' := snd (uploadHandler env sys room fs r) in
  exists files f,
    browseHandler env (fsReads mtime fs') rb
    = renderPage env "browse.html" (Some (listingPage (browseRelPath rb) files))
        (http.Header_Set "Content-Type" "text/html; charset=utf-8"
           (http.NewResponseWriter rb))
    /\ In f files
    /\ Name f = filepath.Base (http.Filename header)
    /\ Size f = len (http.Content header)
    /\ IsDir f = false.
Proof.
  intros Hwd Hok Hwdir Hm Hform Hfile H303 Hmb Hpath fs'.
  destruct (cleanAbs_rootedPath _ Hwd) as (ws & Hws & Ewd).
  destruct (uploadTarget_rooted env (http.FormValue r form "directory") Hwd)
    as (es & Hes & Ht).
  pose proof (uploadHandler_post env sys room fs r form header Hm Hform Hfile) as Hpost.
  cbv zeta in Hpost. fold fs' in Hpost.
  destruct Hpost as [[_ Hno] | (fs1 & Hst & Hrest)]; [contradiction|].
  destruct Hrest as [(e & _ & _ & Hno) | (fs2 & Hcreate & Hfs' & Hcopy)]; [contradiction|].
  destruct (upload_stage1 env fs fs1 _ es Hes Ht Hok Hwdir Hst) as (Hok1 & Hdir1 & _).
  rewrite Ht in Hcreate, Hfs', Hcopy, Hpath.
  pose proof (Create_base_name fs1 fs2 es _ Hes Hok1 Hdir1 Hcreate) as Hname.
  rewrite (Join_rootedPath_name es _ Hes Hname) in Hfs', Hcopy, Hcreate.
  set (name := filepath.Base (http.Filename header)) in *.
  set (dst := rootedPath (es ++ [name])) in *.
  destruct (CopyTo_effect dst (http.Content header) room fs2) as (written & Hw & Hall).
  rewrite Hw, (Hall (Hcopy H303)) in Hfs'.
  apply Create_ok in Hcreate as [_ ->].
  assert (Hne : dst <> rootedPath es).
  { apply rootedPath_snoc_neq. apply isName_spec in Hname. tauto. }
  assert (Hlook : fs' !! dst = Some (os.NFile (http.Content header))).
  { rewrite Hfs'. apply lookup_insert_eq. }
  assert (Hdir' : fs' !! rootedPath es = Some os.NDir).
  { rewrite Hfs', !lookup_insert_ne by exact Hne. exact Hdir1. }
  (* the check of the browse request *)
  assert (Hprefix : strings.HasPrefix (rootedPath es) (workingDir env) = true).
  { destruct (string_eqb (http.FormValue r form "directory") "") eqn:Esub.
    - unfold uploadTarget in Ht. rewrite Esub in Ht. rewrite <- Ht.
      rewrite <- (append_Empty_r (workingDir env)) at 1. apply HasPrefix_app.
    - apply string_eqb_neq in Esub.
      pose proof (upload_success_checked env sys room fs r form header
                    Hm Hform Hfile H303 Esub) as Hc.
      rewrite Ht in Hc.
      rewrite (securityCheck_prefix env sys _ _ _ (rootedPath es) (workingDir env)) in Hc.
      + destruct (strings.HasPrefix (rootedPath es) (workingDir env));
          [reflexivity | discriminate Hc].
      + apply Abs_rootedPath, Hes.
      + rewrite Ewd. apply Abs_rootedPath, Hws. }
  assert (Hcheck : securityCheck env (fsReads mtime fs') (browsePath env rb)
                     (http.NewResponseWriter rb) "Invalid path" = None).
  { rewrite Hpath.
    rewrite (securityCheck_prefix env (fsReads mtime fs') _ _ _ (rootedPath es)
               (workingDir env)).
    - rewrite Hprefix. reflexivity.
    - apply Abs_rootedPath, Hes.
    - rewrite Ewd. apply Abs_rootedPath, Hws. }
  set (entries := @sorting.merge_sort _ entryLe entryLe_dec
                    (map (nodeEntry mtime)
                       (filter (fun pn => childOf (rootedPath es) pn = true)
                          (map_to_list fs')))).
  assert (Hread : os.ReadDir (fsReads mtime fs') (browsePath env rb) = Ok entries).
  { rewrite Hpath. cbn [fsReads os.ReadDir]. rewrite Hdir'. reflexivity. }
  assert (Hstat : os.StatPath (fsReads mtime fs') (browsePath env rb)
                  = Ok (nodeInfo mtime (rootedPath es) os.NDir)).
  { rewrite Hpath. cbn [fsReads os.StatPath]. rewrite Hdir'. reflexivity. }
  exists (listFiles (browseRelPath rb) entries []).
  assert (Hentry : In (nodeEntry mtime (dst, os.NFile (http.Content header))) entries).
  { apply list_elem_of_In. unfold entries. rewrite sorting.merge_sort_Permutation.
    apply list_elem_of_In, in_map, list_elem_of_In, list_elem_of_filter. split.
    - unfold childOf. cbn [fst].
      unfold dst at 1. rewrite (Dir_rootedPath_snoc es name Hes Hname), string_eqb_refl.
      rewrite (proj2 (string_eqb_neq _ _) Hne). reflexivity.
    - apply elem_of_map_to_list. exact Hlook. }
  destruct (fileInfoOf (browseRelPath rb)
              (nodeEntry mtime (dst, os.NFile (http.Content header)))) as [f|] eqn:Ef;
    [|discriminate Ef].
  exists f. split; [|split].
  - exact (browseHandler_listing env (fsReads mtime fs') rb _ entries Hmb Hcheck Hstat
             eq_refl Hread).
  - rewrite listFiles_omap. cbn [app]. apply list_elem_of_In, list_elem_of_omap.
    eexists. split; [apply list_elem_of_In, Hentry | exact Ef].
  - unfold fileInfoOf in Ef. cbn [nodeEntry os.Info] in Ef. injection Ef as <-.
    cbn [Name Size IsDir nodeEntry os.entryName os.entryIsDir nodeInfo os.Size fst snd].
    split; [|split; reflexivity].
    unfold dst. apply Base_rootedPath_snoc, Hname.
Qed.

Lemma upload_then_listed_witness :
  let r := uploadRequest "sub" "../../etc/passwd" "hello" in
  let fs' := snd (uploadHandler demoEnv demoSys None demoFs r) in
  exists files f,
    browseHandler demoEnv (fsReads (fun _ => 0) fs') (request "GET" "/sub" "")
    = renderPage demoEnv "browse.html" (Some (listingPage "sub" files))
        (http.Header_Set "Content-Type" "text/html; charset=utf-8"
           (http.NewResponseWriter (request "GET" "/sub" "")))
    /\ In f files /\ Name f = "passwd" /\ Size f = 5 /\ IsDir f = false.
Proof.
  refine (upload_then_listed demoEnv demoSys None (fun _ => 0) demoFs
            (uploadRequest "sub" "../../etc/passwd" "hello") _ _
            (request "GET" "/sub" "")
            demoEnv_cleanAbs demoFs_ok eq_refl eq_refl eq_refl eq_refl _
            eq_refl _).
  - vm_compute. reflexivity.
  - vm_compute. reflexivity.
Defined.
(** * The template functions *)

Lemma formatSize_loop_inv size : 0 <= size <= int64.max ->
  forall fuel n div exp,
  div = 1024 ^ (Z.of_nat exp + 1) -> div <= size -> n = size / div ->
  n < 1024 ^ Z.of_nat fuel ->
  exists k, formatSize_loop fuel n div exp = (1024 ^ (Z.of_nat k + 1), k)
            /\ 1024 ^ (Z.of_nat k + 1) <= size < 1024 * 1024 ^ (Z.of_nat k + 1).
Proof.
  intros Hsize. induction fuel as [|fuel IH]; intros n div exp Hdiv Hle Hn Hfuel.
  - assert (Hn0 : n <= 0) by (cbn in Hfuel; lia).
    assert (0 < div) by (subst div; apply Z.pow_pos_nonneg; lia).
    assert (1 <= size / div) by (apply Z.div_le_lower_bound; lia). lia.
  - assert (Hpos : 0 < div) by (subst div; apply Z.pow_pos_nonneg; lia).
    cbn [formatSize_loop]. destruct (n >=? 1024) eqn:Hge.
    + assert (Hn1024 : 1024 <= n) by lia.
      assert (Hbig : div * 1024 <= size).
      { subst n. pose proof (Z.mul_div_le size div Hpos). nia. }
      rewrite int64_wrap_small
        by (unfold int64.in_range, int64.min, int64.max in *; lia).
      rewrite Z.quot_div_nonneg by lia.
      apply IH.
      * subst div. rewrite Nat2Z.inj_succ, <- Z.add_1_r.
        rewrite (Z.pow_add_r 1024 (Z.of_nat exp + 1) 1) by lia. reflexivity.
      * exact Hbig.
      * subst n. rewrite Z.div_div by lia. reflexivity.
      * rewrite Nat2Z.inj_succ, Z.pow_succ_r in Hfuel by lia.
        apply Z.div_lt_upper_bound; lia.
    + exists exp. assert (Hlt : n < 1024) by lia.
      pose proof (Z.div_mod size div ltac:(lia)) as Hdm.
      pose proof (Z.mod_pos_bound size div Hpos) as Hmod.
      rewrite <- Hn in Hdm. subst div. split; [reflexivity|]. split; [exact Hle|nia].
Qed.

(** X13: formatSize never runs off its table of units.  For every
    64-bit size of 1024 or more the loop ends with a divisor
    [1024^(k+1)] that did not overflow, with [k <= 5] and the size
    between the divisor and 1024 times the divisor; formatSize then
    prints the float64 quotient of the size by the divisor with one
    decimal, a space, the [k]-th of the letters K, M, G, T, P, E, and
    B. *)
Theorem formatSize_unit size :
  1024 <= size <= int64.max ->
  exists k unit,
    (k <= 5)%nat
    /\ nth_error (list_ascii_of_string "KMGTPE") k = Some unit
    /\ 1024 ^ (Z.of_nat k + 1) <= size < 1024 * 1024 ^ (Z.of_nat k + 1)
    /\ formatSize size
       = Some (formatFloat1
                 (float64_div (float64 size) (float64 (1024 ^ (Z.of_nat k + 1))))
               +:+ String " " (String unit "B")).
Proof.
  intros Hsize. unfold formatSize.
  replace (size <? 1024) with false by (symmetry; apply Z.ltb_ge; lia).
  cbv zeta. rewrite Z.quot_div_nonneg by lia.
  assert (Hfuel : size / 1024 < 1024 ^ Z.of_nat 64).
  { apply Z.div_lt_upper_bound; [lia|]. unfold int64.max in Hsize.
    change (1024 ^ Z.of_nat 64) with (2 ^ 640). lia. }
  destruct (formatSize_loop_inv size ltac:(lia) 64%nat
              (size / 1024) 1024 0%nat eq_refl ltac:(lia) eq_refl Hfuel)
    as (k & -> & Hk).
  assert (Hk5 : (k <= 5)%nat).
  { destruct (le_lt_dec k 5) as [|Hgt]; [assumption|exfalso].
    assert (1024 ^ 7 <= 1024 ^ (Z.of_nat k + 1)) by (apply Z.pow_le_mono_r; lia).
    unfold int64.max in Hsize. lia. }
  assert (Hnth : exists unit, nth_error (list_ascii_of_string "KMGTPE") k = Some unit).
  { do 6 (destruct k as [|k]; [eexists; reflexivity|]). lia. }
  destruct Hnth as (unit & Hnth). exists k, unit. rewrite Hnth. auto.
Qed.

Lemma formatSize_unit_witness :
  exists k unit,
    (k <= 5)%nat
    /\ nth_error (list_ascii_of_string "KMGTPE") k = Some unit
    /\ 1024 ^ (Z.of_nat k + 1) <= 5000000 < 1024 * 1024 ^ (Z.of_nat k + 1)
    /\ formatSize 5000000
       = Some (formatFloat1
                 (float64_div (float64 5000000) (float64 (1024 ^ (Z.of_nat k + 1))))
               +:+ String " " (String unit "B")).
Proof. apply (formatSize_unit 5000000). unfold int64.max. lia. Defined.

(** What formatSize prints for some sizes; the quotient is rounded to
    one decimal, so that a size just below the next unit reads 1024.0. *)
Example formatSize_ex :
  formatSize 0 = Some "0 B"
  /\ formatSize 1023 = Some "1023 B"
  /\ formatSize 1024 = Some "1.0 KB"
  /\ formatSize 1280 = Some "1.2 KB"
  /\ formatSize 1536 = Some "1.5 KB"
  /\ formatSize 1048575 = Some "1024.0 KB"
  /\ formatSize 5000000 = Some "4.8 MB"
  /\ formatSize 9223372036854775807 = Some "8.0 EB".
Proof. vm_compute. repeat split; reflexivity. Qed.

(** ** Clean on relative paths *)

Lemma cleanStep_dotdot_rel out :
  Forall (fun e => e = "..") out -> filepath.cleanStep false out ".." = ".." :: out.
Proof.
  intros H. unfold filepath.cleanStep. cbn [string_eqb String.eqb Ascii.eqb Bool.eqb orb].
  change (string_eqb ".." "..") with true. cbv iota.
  destruct out as [|top rest]; [reflexivity|].
  inversion H; subst. reflexivity.
Qed.

Lemma fold_cleanStep_dotdots dl : forall acc,
  Forall (fun e => e = "..") dl -> Forall (fun e => e = "..") acc ->
  fold_left (filepath.cleanStep false) dl acc = rev dl ++ acc.
Proof.
  induction dl as [|d dl IH]; intros acc Hdl Hacc; [reflexivity|].
  inversion Hdl as [|? ? Hd Hrest]; subst. cbn [fold_left rev].
  rewrite (cleanStep_dotdot_rel acc Hacc), IH by (try constructor; auto).
  rewrite <- app_assoc. reflexivity.
Qed.

(** The elements that [Clean] keeps of a relative path, the last one
    first: names, and before them only [..]. *)
Lemma fold_cleanStep_rel elems : forall ns ds,
  Forall (fun e => contains_byte "/" e = false) elems ->
  Forall (fun e => isName e = true) ns -> Forall (fun e => e = "..") ds ->
  exists ns' ds',
    fold_left (filepath.cleanStep false) elems (ns ++ ds) = ns' ++ ds'
    /\ Forall (fun e => isName e = true) ns' /\ Forall (fun e => e = "..") ds'.
Proof.
  induction elems as [|e elems IH]; intros ns ds Hel Hns Hds; [eauto|].
  inversion Hel as [|? ? He Hrest]; subst. cbn [fold_left].
  unfold filepath.cleanStep.
  destruct (string_eqb e "") eqn:E1; [apply IH; assumption|].
  destruct (string_eqb e ".") eqn:E2; [apply IH; assumption|]. cbn [orb].
  destruct (string_eqb e "..") eqn:E3.
  - apply string_eqb_eq in E3. subst e.
    destruct ns as [|n ns'].
    + cbn [app]. destruct ds as [|d ds'].
      * apply (IH [] [".."]); auto.
      * inversion Hds; subst. change (string_eqb ".." "..") with true. cbv iota.
        apply (IH [] (".." :: ".." :: ds')); auto.
    + inversion Hns as [|? ? Hn Hns']; subst. cbn [app].
      apply isName_spec in Hn as (_ & _ & H3 & _).
      rewrite (proj2 (string_eqb_neq n "..") H3). apply IH; assumption.
  - apply (IH (e :: ns) ds); auto. constructor; [|exact Hns].
    unfold isName. rewrite E1, E2, E3. unfold filepath.Separator. rewrite He. reflexivity.
Qed.

Lemma joinSep_head c e es :
  exists rest, filepath.joinSep (String c e :: es) = String c rest.
Proof. destruct es; cbn [filepath.joinSep]; rewrite ?append_String; eauto. Qed.

(** A relative path of [..] elements followed by names is clean. *)
Lemma Clean_relative ns ds :
  Forall (fun e => isName e = true) ns -> Forall (fun e => e = "..") ds ->
  ns ++ ds <> [] ->
  let body := filepath.joinSep (rev (ns ++ ds)) in
  filepath.Clean body = body /\ filepath.IsAbs body = false
  /\ strings.Split body "/" = rev (ns ++ ds).
Proof.
  intros Hns Hds Hne body.
  assert (Hkept : Forall (fun e => e <> "" /\ contains_byte "/" e = false)
                    (rev (ns ++ ds))).
  { apply Forall_rev, Forall_app. split.
    - eapply Forall_impl; [exact Hns|]. intros e He. apply isName_spec in He.
      destruct He as (H1 & _ & _ & H4). split; assumption.
    - eapply Forall_impl; [exact Hds|]. intros e He. cbv beta in He. subst e.
      split; [discriminate|reflexivity]. }
  assert (Hne' : rev (ns ++ ds) <> []).
  { intros E. apply (f_equal (@rev string)) in E. rewrite rev_involutive in E.
    exact (Hne E). }
  assert (Hsplit : strings.Split body "/" = rev (ns ++ ds)).
  { apply Split_joinSep; [exact Hne'|].
    eapply Forall_impl; [exact Hkept|]. intros e He. exact (proj2 He). }
  destruct (rev (ns ++ ds)) as [|e es] eqn:Erev; [congruence|].
  inversion Hkept as [|? ? [He1 He2] _]; subst.
  destruct e as [|c e']; [congruence|].
  destruct (joinSep_head c e' es) as [rest Hrest].
  assert (Hc : Ascii.eqb c "/" = false).
  { cbn [contains_byte] in He2. destruct (Ascii.eqb c "/"); [discriminate|reflexivity]. }
  assert (Habs : filepath.IsAbs body = false).
  { unfold body, filepath.IsAbs. rewrite Hrest. cbn [strings.HasPrefix]. rewrite Hc.
    reflexivity. }
  split; [|split; [exact Habs | exact Hsplit]].
  unfold filepath.Clean. fold body. rewrite Habs.
  assert (Hel : filepath.cleanElems false body = String c e' :: es).
  { unfold filepath.cleanElems, filepath.Separator. rewrite Hsplit, <- Erev.
    rewrite rev_app_distr, fold_left_app.
    rewrite (fold_cleanStep_dotdots (rev ds) []) by (try apply Forall_rev; auto).
    rewrite fold_cleanStep_names by (apply Forall_rev; exact Hns).
    rewrite !rev_involutive, app_nil_r, <- rev_app_distr, Erev. reflexivity. }
  unfold body at 1. rewrite Hrest. rewrite Hel. fold body. unfold body at 1.
  rewrite Hrest. reflexivity.
Qed.

(** X14: joining what splitPath gives.  For every path, joinPath of
    the components of splitPath is the cleaned path without a leading
    separator: a relative path comes back cleaned, an absolute path
    comes back relative. *)
Theorem joinPath_splitPath (path : string) :
  joinPath (splitPath path) = strings.TrimPrefix (filepath.Clean path) "/".
Proof.
  unfold joinPath, splitPath, filepath.Separator.
  destruct (string_eqb path "") eqn:Eempty.
  { apply string_eqb_eq in Eempty. subst path. reflexivity. }
  destruct (filepath.IsAbs path) eqn:Habs.
  - destruct (Clean_rooted path Habs) as [-> Hn].
    rewrite (Split_rootedPath _ Hn).
    destruct (filepath.cleanElems true path) as [|e es]; [reflexivity|].
    change (filepath.Join ("" :: e :: es)) with (filepath.Join (e :: es)).
    assert (He : string_eqb e "" = false).
    { inversion Hn as [|? ? He _]; subst. apply isName_spec in He.
      apply string_eqb_neq. tauto. }
    cbn [filepath.Join]. rewrite He.
    pose proof (Clean_relative (rev (e :: es)) [] ltac:(apply Forall_rev; exact Hn)
                  ltac:(constructor)) as Hrel.
    rewrite app_nil_r, rev_involutive in Hrel.
    destruct Hrel as (Hc & _ & _).
    { intros E. apply (f_equal (@rev string)) in E. rewrite rev_involutive in E.
      discriminate E. }
    rewrite Hc. unfold rootedPath, strings.TrimPrefix, filepath.Separator.
    cbn [strings.HasPrefix Ascii.eqb Bool.eqb andb String.length strings.drop].
    reflexivity.
  - destruct path as [|c0 p0]; [discriminate Eempty|].
    set (path := String c0 p0) in *.
    destruct (fold_cleanStep_rel (strings.Split path "/") [] []
                (Split_elems_no_sep "/" path) ltac:(constructor) ltac:(constructor))
      as (ns & ds & Hfold & Hns & Hds).
    assert (Hel : filepath.cleanElems false path = rev (ns ++ ds)).
    { unfold filepath.cleanElems, filepath.Separator. cbn [app] in Hfold.
      rewrite Hfold. reflexivity. }
    assert (Hclean : filepath.Clean path
                     = if string_eqb (filepath.joinSep (rev (ns ++ ds))) ""
                       then "." else filepath.joinSep (rev (ns ++ ds))).
    { unfold filepath.Clean, path. fold path. rewrite Habs, Hel. reflexivity. }
    rewrite Hclean.
    destruct (ns ++ ds) as [|x xs] eqn:Eout; [reflexivity|].
    destruct (Clean_relative ns ds Hns Hds ltac:(rewrite Eout; discriminate))
      as (Hc & Hnabs & Hsplit).
    rewrite Eout in Hc, Hnabs, Hsplit.
    set (body := filepath.joinSep (rev (x :: xs))) in *.
    assert (Hbody : string_eqb body "" = false).
    { destruct body; [|reflexivity]. vm_compute in Hc. discriminate Hc. }
    rewrite Hbody, Hsplit.
    destruct (rev (x :: xs)) as [|e es] eqn:Erev.
    { vm_compute in Hbody. discriminate Hbody. }
    assert (He : string_eqb e "" = false).
    { destruct e; [|reflexivity]. exfalso.
      assert (Hin : In "" (x :: xs)).
      { apply in_rev. rewrite Erev. left. reflexivity. }
      rewrite <- Eout in Hin. apply in_app_or in Hin as [Hin | Hin].
      - rewrite List.Forall_forall in Hns. apply Hns in Hin. discriminate Hin.
      - rewrite List.Forall_forall in Hds. apply Hds in Hin. discriminate Hin. }
    cbn [filepath.Join]. rewrite He. fold body. rewrite Hc.
    unfold strings.TrimPrefix. unfold filepath.IsAbs in Hnabs. rewrite Hnabs.
    reflexivity.
Qed.

(** * The start of the server *)

Lemma Clean_cleanAbs path : filepath.IsAbs path = true -> cleanAbs (filepath.Clean path).
Proof.
  intros Habs. destruct (Clean_rooted path Habs) as [-> Hn].
  split; [reflexivity | apply Clean_rootedPath, Hn].
Qed.

(** X15: the working directory that [main] sets from a [-dir] flag.
    When the current directory that the system reports is an absolute
    path, the directory that the server starts with is a clean absolute
    path, as the path checks of the handlers expect, and it is a
    directory on disk. *)
Theorem main_workingDir_clean sys dirFlag workingDir :
  dirFlag <> "" ->
  (forall d, os.Getwd sys = Ok d -> filepath.IsAbs d = true) ->
  setWorkingDir sys dirFlag = Ok workingDir ->
  cleanAbs workingDir
  /\ exists info, os.StatPath sys workingDir = Ok info /\ os.IsDir info = true.
Proof.
  intros Hflag Hwd. unfold setWorkingDir.
  rewrite (proj2 (string_eqb_neq dirFlag "") Hflag). cbn [negb].
  destruct (filepath.Abs (os.Getwd sys) dirFlag) as [dir|e] eqn:Eabs; [|discriminate].
  destruct (os.StatPath sys dir) as [info|e] eqn:Estat; [|discriminate].
  destruct (os.IsDir info) eqn:Edir; [|discriminate]. cbn [negb].
  intros [= <-]. split; [|eauto].
  unfold filepath.Abs in Eabs. destruct (filepath.IsAbs dirFlag) eqn:Habs.
  - injection Eabs as <-. apply Clean_cleanAbs, Habs.
  - destruct (os.Getwd sys) as [d|e] eqn:Egetwd; [|discriminate].
    injection Eabs as <-.
    destruct (IsAbs_inv d (Hwd d eq_refl)) as [r ->].
    cbn [filepath.Join]. change (string_eqb (String "/" r) "") with false. cbv iota.
    apply Clean_cleanAbs.
    cbn [filepath.joinSep]. rewrite append_String. reflexivity.
Qed.

Lemma main_workingDir_clean_witness :
  cleanAbs "/srv/files"
  /\ exists info, os.StatPath demoSys "/srv/files" = Ok info /\ os.IsDir info = true.
Proof.
  apply (main_workingDir_clean demoSys "srv/./files2/../files/").
  - discriminate.
  - intros d [= <-]. reflexivity.
  - reflexivity.
Defined.

(** * MIME types *)






















Lemma registerExt_agree lower m v t ext :
  m <> "" -> tablesAgree t -> tablesAgree (mime.registerExt lower m v t ext).
Proof.
  intros Hm [Hdom Hval]. unfold mime.registerExt. cbv zeta.
  destruct (string_eqb (strings.TrimSpace ext) ""); [split; assumption|].
  set (key := mime.ToLower lower _). split; cbn [mime.customMIMETypes mime.customMIMEViewable].
  - intros x. destruct (decide (key = x)) as [->|Hne].
    + rewrite !lookup_insert_eq. split; eauto.
    + rewrite !lookup_insert_ne by exact Hne. apply Hdom.
  - intros x m'. destruct (decide (key = x)) as [->|Hne].
    + rewrite lookup_insert_eq. intros [= <-]. exact Hm.
    + rewrite lookup_insert_ne by exact Hne. apply Hval.
Qed.

Lemma fold_registerExt_agree lower m v exts : forall t,
  m <> "" -> tablesAgree t ->
  tablesAgree (fold_left (mime.registerExt lower m v) exts t).
Proof.
  induction exts as [|ext exts IH]; intros t Hm Ht; [exact Ht|].
  cbn [fold_left]. apply IH; [exact Hm|]. apply registerExt_agree; assumption.
Qed.

Lemma parseMapping_agree lower t mapping :
  tablesAgree t -> tablesAgree (mime.parseMapping lower t mapping).
Proof.
  intros Ht. unfold mime.parseMapping. cbv zeta.
  destruct (string_eqb (strings.TrimSpace mapping) ""); [exact Ht|].
  destruct (strings.Split (strings.TrimSpace mapping) ":") as [|p0 [|p1 [|p2 ps]]];
    try exact Ht.
  destruct (string_eqb (strings.TrimSpace p0) "" || string_eqb (strings.TrimSpace p1) "");
    [exact Ht|].
  destruct (mime.HasSuffix (strings.TrimSpace p1) ",v").
  - destruct (string_eqb _ "") eqn:E; [exact Ht|].
    apply fold_registerExt_agree; [|exact Ht]. apply string_eqb_neq, E.
  - destruct (string_eqb _ "") eqn:E; [exact Ht|].
    apply fold_registerExt_agree; [|exact Ht]. apply string_eqb_neq, E.
Qed.

(** X17: the two tables of custom types stay in step.  Whatever the
    input is, parseCustomMIMETypes leaves the table of types and the
    table of the viewable flags with the same extensions, and maps no
    extension to the empty type. *)
Theorem parseCustomMIMETypes_agree lower input t :
  tablesAgree t -> tablesAgree (mime.parseCustomMIMETypes lower input t).
Proof.
  unfold mime.parseCustomMIMETypes. generalize (strings.Split input ";").
  intros mappings. revert t.
  induction mappings as [|mapping mappings IH]; intros t Ht; [exact Ht|].
  cbn [fold_left]. apply IH, parseMapping_agree, Ht.
Qed.

Lemma parseCustomMIMETypes_agree_witness :
  tablesAgree (mime.parseCustomMIMETypes (fun s => s)
                 ":;a:b:c; x , Y :,v; log,TXT: text/plain ,v" mime.noTables).
Proof.
  apply (parseCustomMIMETypes_agree (fun s => s)).
  split.
  - intros ext. cbn [mime.noTables mime.customMIMETypes mime.customMIMEViewable].
    rewrite !lookup_empty. split; intros [x Hx]; discriminate Hx.
  - intros ext m. cbn [mime.noTables mime.customMIMETypes]. rewrite lookup_empty.
    discriminate.
Defined.

Lemma known_In types ext : mime.known types ext = true -> In ext types.
Proof.
  unfold mime.known. intros H. apply existsb_exists in H as (x & Hin & Hx).
  apply string_eqb_eq in Hx. subst. exact Hin.
Qed.

Lemma checkTypes_unknown types cases ext :
  ~ In ext types -> mime.checkTypes types cases ext = None.
Proof.
  intros Hn. unfold mime.checkTypes. destruct (mime.known types ext) eqn:E; [|reflexivity].
  apply known_In in E. contradiction.
Qed.

(** X18: the types that getMIMEType knows by itself.  Without custom
    mappings, every extension of its four tables gets a type of its
    own and is viewable, so that no case of the switches is missing,
    and every other extension is application/octet-stream and not
    viewable. *)
Theorem builtin_types_viewable lower path :
  let ext := mime.ToLower lower (mime.Ext path) in
  (In ext builtinTypes ->
     exists mimeType, mime.getMIMEType lower mime.noTables path = (mimeType, true)
                      /\ string_eqb mimeType "application/octet-stream" = false)
  /\ (~ In ext builtinTypes ->
     mime.getMIMEType lower mime.noTables path = ("application/octet-stream", false)).
Proof.
  intros ext. unfold mime.getMIMEType. cbv zeta. fold ext.
  cbn [mime.noTables mime.customMIMETypes]. rewrite lookup_empty.
  generalize ext. clear ext. intros ext. split.
  - intros Hin. unfold builtinTypes in Hin. cbn in Hin.
    repeat (destruct Hin as [<- | Hin]; [eexists; split; reflexivity|]).
    contradiction.
  - intros Hn.
    rewrite !checkTypes_unknown; [reflexivity| | | |];
      intros Hin; apply Hn; unfold builtinTypes; rewrite !in_app_iff; tauto.
Qed.
